(** * libipset argument parsers (extensions/ipset-5/libipset/parse.c)

    A shallow embedding of the parser front end of ipset: the separator
    tokenizer, the bounded numeric parser, the field parsers and the
    element dispatcher, together with the properties the specification
    states about them.

    C strings are lists of characters (the terminating NUL is the end of
    the list), a [char *] into a string is an offset, and the destructive
    split [*a++ = '\0'] yields the prefix before the offset and the suffix
    after it.  Functions that return an [int] status and write through the
    session return the status together with the new session. *)

From Stdlib Require Import ZArith Ascii String List Lia Bool.
From stdpp Require Import base decidable countable gmap list.

Open Scope Z_scope.

(** ** C strings *)

Abbreviation cstring := (list ascii).

Definition cstr (s : string) : cstring := list_ascii_of_string s.

Definition code (c : ascii) : Z := Z.of_N (N_of_ascii c).

Definition chr_eqb (a b : ascii) : bool := Ascii.eqb a b.

Module Libc.

(** [strlen] *)
Definition strlen (s : cstring) : nat := length s.

(** [strchr(s, c)] for a character [c] other than NUL: offset of the first
    occurrence of [c] in [s], if any. *)
Fixpoint strchr (s : cstring) (c : ascii) : option nat :=
  match s with
  | [] => None
  | x :: s' => if chr_eqb x c then Some O else option_map S (strchr s' c)
  end.

(** [strcmp(a, b) == 0] *)
Fixpoint streq (a b : cstring) : bool :=
  match a, b with
  | [], [] => true
  | x :: a', y :: b' => chr_eqb x y && streq a' b'
  | _, _ => false
  end.

Definition tolower (c : ascii) : ascii :=
  let n := code c in
  if (65 <=? n) && (n <=? 90) then ascii_of_N (Z.to_N (n + 32)) else c.

(** [strcasecmp(a, b) == 0] *)
Fixpoint strcaseeq (a b : cstring) : bool :=
  match a, b with
  | [], [] => true
  | x :: a', y :: b' => chr_eqb (tolower x) (tolower y) && strcaseeq a' b'
  | _, _ => false
  end.

(** [isspace] in the C locale: space, \t, \n, \v, \f, \r. *)
Definition isspace (c : ascii) : bool :=
  let n := code c in (n =? 32) || ((9 <=? n) && (n <=? 13)).

(** Value of a character as a digit: 0-9, then letters of either case
    from 10 on. *)
Definition digit_value (c : ascii) : option Z :=
  let n := code c in
  if (48 <=? n) && (n <=? 57) then Some (n - 48)
  else if (97 <=? n) && (n <=? 122) then Some (n - 87)
  else if (65 <=? n) && (n <=? 90) then Some (n - 55)
  else None.

Definition digit_in_base (base : Z) (c : ascii) : option Z :=
  match digit_value c with
  | Some d => if d <? base then Some d else None
  | None => None
  end.

(** The digits of the subject sequence: accumulated value and number of
    characters taken. *)
Fixpoint strto_digits (base : Z) (s : cstring) (acc : Z) (n : nat) : Z * nat :=
  match s with
  | c :: s' =>
      match digit_in_base base c with
      | Some d => strto_digits base s' (acc * base + d) (S n)
      | None => (acc, n)
      end
  | [] => (acc, n)
  end.

Fixpoint skip_space (s : cstring) : nat :=
  match s with
  | c :: s' => if isspace c then S (skip_space s') else O
  | [] => O
  end.

(** A "0x" or "0X" prefix counts only when a hexadecimal digit follows. *)
Definition has_0x (s : cstring) : bool :=
  match s with
  | z :: x :: h :: _ =>
      chr_eqb z "0" && (chr_eqb x "x" || chr_eqb x "X")
      && match digit_in_base 16 h with Some _ => true | None => false end
  | _ => false
  end.

Definition starts_with_0 (s : cstring) : bool :=
  match s with
  | z :: _ => chr_eqb z "0"
  | [] => false
  end.

(** Common part of the [strto*] family for base 0 or 16 or any base in
    2..36: white space, an optional sign, an optional prefix, digits.
    Result: sign, magnitude (unbounded) and the offset of the end
    pointer; [None] when no conversion is performed. *)
Definition strto_core (base : Z) (s : cstring) : option (bool * Z * nat) :=
  let ws := skip_space s in
  let s1 := drop ws s in
  let '(neg, sg) :=
    match s1 with
    | c :: _ => if chr_eqb c "-" then (true, 1%nat)
                else if chr_eqb c "+" then (false, 1%nat) else (false, O)
    | [] => (false, O)
    end in
  let s2 := drop sg s1 in
  let base' :=
    if base =? 0 then
      if has_0x s2 then 16 else if starts_with_0 s2 then 8 else 10
    else base in
  let pre := if ((base =? 0) || (base =? 16)) && has_0x s2 then 2%nat else O in
  let '(v, n) := strto_digits base' (drop pre s2) 0 O in
  match n with
  | O => None
  | _ => Some (neg, v, (ws + sg + pre + n)%nat)
  end.

Record strto_result := { number : Z; endp : nat; erange : bool }.

Definition ULLONG_MAX : Z := 18446744073709551615.
Definition LONG_MAX : Z := 9223372036854775807.
Definition LONG_MIN : Z := - 9223372036854775808.

(** [strtoull(s, &end, base)] with [errno] cleared before the call:
    the value, the end offset and whether [errno] is [ERANGE]. *)
Definition strtoull (s : cstring) (base : Z) : strto_result :=
  match strto_core base s with
  | None => {| number := 0; endp := O; erange := false |}
  | Some (neg, v, e) =>
      if ULLONG_MAX <? v
      then {| number := ULLONG_MAX; endp := e; erange := true |}
      else {| number := if neg then (- v) mod (ULLONG_MAX + 1) else v;
              endp := e; erange := false |}
  end.

(** [strtol(s, &end, base)] for a 64-bit [long]. *)
Definition strtol (s : cstring) (base : Z) : strto_result :=
  match strto_core base s with
  | None => {| number := 0; endp := O; erange := false |}
  | Some (neg, v, e) =>
      let x := if neg then - v else v in
      if x <? LONG_MIN then {| number := LONG_MIN; endp := e; erange := true |}
      else if LONG_MAX <? x then {| number := LONG_MAX; endp := e; erange := true |}
      else {| number := x; endp := e; erange := false |}
  end.

(** [ntohs] on a little-endian host. *)
Definition ntohs (x : Z) : Z :=
  Z.lor (Z.shiftl (Z.land x 255) 8) (Z.land (Z.shiftr x 8) 255).

End Libc.

Import Libc.

(** ** Separators (parse.h) *)

(** Modelled from the spec: libipset/parse.h, which defines the separator
    strings, is not part of the sources at hand; the spec names a CIDR
    separator ("3/1", "192.0.2.10/24"), a range separator ("80-90"), an
    element separator ("a,b,c"), a name separator and a protocol
    separator ("proto:port"), each a single character. *)
Definition IPSET_CIDR_SEPARATOR : cstring := cstr "/".
Definition IPSET_RANGE_SEPARATOR : cstring := cstr "-".
Definition IPSET_ELEM_SEPARATOR : cstring := cstr ",".
Definition IPSET_NAME_SEPARATOR : cstring := cstr ":".
Definition IPSET_PROTO_SEPARATOR : cstring := cstr ":".

(** ** The separator tokenizer *)

Definition first_char (s : cstring) : option ascii := head s.
Definition last_char (s : cstring) : option ascii := last s.

Definition char_is (o : option ascii) (c : ascii) : bool :=
  match o with
  | Some x => chr_eqb x c
  | None => false
  end.

(** [ipset_strchr(str, sep)]: for each character of [sep] in turn, the
    first match in [str] is returned unless [str] starts or ends with
    that character. *)
Fixpoint ipset_strchr (str sep : cstring) : option nat :=
  match sep with
  | [] => None
  | c :: sep' =>
      match strchr str c with
      | Some m =>
          if negb (char_is (first_char str) c) && negb (char_is (last_char str) c)
          then Some m
          else ipset_strchr str sep'
      | None => ipset_strchr str sep'
      end
  end.

Definition cidr_separator (str : cstring) := ipset_strchr str IPSET_CIDR_SEPARATOR.
Definition range_separator (str : cstring) := ipset_strchr str IPSET_RANGE_SEPARATOR.
Definition elem_separator (str : cstring) := ipset_strchr str IPSET_ELEM_SEPARATOR.
Definition name_separator (str : cstring) := ipset_strchr str IPSET_NAME_SEPARATOR.
Definition proto_separator (str : cstring) := ipset_strchr str IPSET_PROTO_SEPARATOR.

(** The two halves of a string split at a separator found at offset [m]:
    [*a++ = '\0'] leaves the prefix in place and [a] at the suffix. *)
Definition split_head (str : cstring) (m : nat) : cstring := take m str.
Definition split_tail (str : cstring) (m : nat) : cstring := drop (S m) str.

(** ** Option kinds, set types and the attribute store *)

(** The option kinds parse.c names (enum ipset_opt of libipset/data.h);
    [IPSET_OPT_NONE] is the zero of the enumeration. *)
Inductive ipset_opt :=
| IPSET_OPT_NONE
| IPSET_SETNAME
| IPSET_OPT_TYPENAME
| IPSET_OPT_FAMILY
| IPSET_OPT_IP
| IPSET_OPT_IP_TO
| IPSET_OPT_CIDR
| IPSET_OPT_PORT
| IPSET_OPT_PORT_TO
| IPSET_OPT_TIMEOUT
| IPSET_OPT_PROTO
| IPSET_OPT_ETHER
| IPSET_OPT_NAME
| IPSET_OPT_NAMEREF
| IPSET_OPT_IP2
| IPSET_OPT_CIDR2
| IPSET_OPT_BEFORE
| IPSET_OPT_NETMASK
| IPSET_OPT_SETNAME2
| IPSET_OPT_TYPE.

Definition opt_index (o : ipset_opt) : nat :=
  match o with
  | IPSET_OPT_NONE => 0 | IPSET_SETNAME => 1 | IPSET_OPT_TYPENAME => 2
  | IPSET_OPT_FAMILY => 3 | IPSET_OPT_IP => 4 | IPSET_OPT_IP_TO => 5
  | IPSET_OPT_CIDR => 6 | IPSET_OPT_PORT => 7 | IPSET_OPT_PORT_TO => 8
  | IPSET_OPT_TIMEOUT => 9 | IPSET_OPT_PROTO => 10 | IPSET_OPT_ETHER => 11
  | IPSET_OPT_NAME => 12 | IPSET_OPT_NAMEREF => 13 | IPSET_OPT_IP2 => 14
  | IPSET_OPT_CIDR2 => 15 | IPSET_OPT_BEFORE => 16 | IPSET_OPT_NETMASK => 17
  | IPSET_OPT_SETNAME2 => 18 | IPSET_OPT_TYPE => 19
  end%nat.

Definition index_opt (n : nat) : option ipset_opt :=
  match n with
  | 0 => Some IPSET_OPT_NONE | 1 => Some IPSET_SETNAME | 2 => Some IPSET_OPT_TYPENAME
  | 3 => Some IPSET_OPT_FAMILY | 4 => Some IPSET_OPT_IP | 5 => Some IPSET_OPT_IP_TO
  | 6 => Some IPSET_OPT_CIDR | 7 => Some IPSET_OPT_PORT | 8 => Some IPSET_OPT_PORT_TO
  | 9 => Some IPSET_OPT_TIMEOUT | 10 => Some IPSET_OPT_PROTO | 11 => Some IPSET_OPT_ETHER
  | 12 => Some IPSET_OPT_NAME | 13 => Some IPSET_OPT_NAMEREF | 14 => Some IPSET_OPT_IP2
  | 15 => Some IPSET_OPT_CIDR2 | 16 => Some IPSET_OPT_BEFORE | 17 => Some IPSET_OPT_NETMASK
  | 18 => Some IPSET_OPT_SETNAME2 | 19 => Some IPSET_OPT_TYPE
  | _ => None
  end%nat.

#[global] Instance ipset_opt_eq_dec : EqDecision ipset_opt.
Proof. solve_decision. Defined.

#[global] Instance ipset_opt_countable : Countable ipset_opt.
Proof. apply (inj_countable opt_index index_opt). intros []; reflexivity. Defined.

(** [!opt] for an option kind used as a truth value. *)
Definition opt_is_none (o : ipset_opt) : bool :=
  match o with
  | IPSET_OPT_NONE => true
  | _ => false
  end.

(** The parser functions of parse.c with the [ipset_parsefn] signature,
    as the identities a type descriptor or a caller can hold.
    [ipset_parse_typename], [ipset_parse_output] and [ipset_parse_elem]
    itself are never bound to an element position. *)
Inductive ipset_parsefn :=
| Fn_ipset_parse_ether
| Fn_ipset_parse_tcp_port
| Fn_ipset_parse_single_tcp_port
| Fn_ipset_parse_proto
| Fn_ipset_parse_icmp
| Fn_ipset_parse_icmpv6
| Fn_ipset_parse_proto_port
| Fn_ipset_parse_family
| Fn_ipset_parse_ip
| Fn_ipset_parse_single_ip
| Fn_ipset_parse_net
| Fn_ipset_parse_range
| Fn_ipset_parse_netrange
| Fn_ipset_parse_iprange
| Fn_ipset_parse_ipnet
| Fn_ipset_parse_ip4_single6
| Fn_ipset_parse_iptimeout
| Fn_ipset_parse_name_compat
| Fn_ipset_parse_setname
| Fn_ipset_parse_before
| Fn_ipset_parse_after
| Fn_ipset_parse_uint32
| Fn_ipset_parse_uint8
| Fn_ipset_parse_netmask
| Fn_ipset_parse_flag
| Fn_ipset_parse_ignored.

#[global] Instance ipset_parsefn_eq_dec : EqDecision ipset_parsefn.
Proof. solve_decision. Defined.

(** Element dimensions as parse.c uses them: as the [dimension] of a type
    and as the index into its [elem] array. *)
Inductive ipset_dim := IPSET_DIM_ONE | IPSET_DIM_TWO | IPSET_DIM_THREE.

#[global] Instance ipset_dim_eq_dec : EqDecision ipset_dim.
Proof. solve_decision. Defined.

Definition dim_index (d : ipset_dim) : nat :=
  match d with
  | IPSET_DIM_ONE => 0
  | IPSET_DIM_TWO => 1
  | IPSET_DIM_THREE => 2
  end%nat.

(** [d > e] on dimensions *)
Definition dim_gt (d e : ipset_dim) : bool := (dim_index e <? dim_index d)%nat.

(** The number of positional fields a dimension stands for. *)
Definition dim_fields (d : ipset_dim) : nat := S (dim_index d).

Record ipset_elem := {
  elem_parse : option ipset_parsefn;   (* NULL when absent *)
  elem_opt : ipset_opt
}.

#[global] Instance ipset_elem_eq_dec : EqDecision ipset_elem.
Proof. solve_decision. Defined.

(** The fields of [struct ipset_type] the dispatcher reads. *)
Record ipset_type := {
  type_name : cstring;
  dimension : ipset_dim;
  elem : list ipset_elem;
  compat_parse_elem : option ipset_parsefn
}.

#[global] Instance ipset_type_eq_dec : EqDecision ipset_type.
Proof. solve_decision. Defined.

Definition no_elem : ipset_elem := {| elem_parse := None; elem_opt := IPSET_OPT_NONE |}.

(** [type->elem[d]]; entries a static initialiser leaves out are zero. *)
Definition type_elem (t : ipset_type) (d : ipset_dim) : ipset_elem :=
  nth (dim_index d) (elem t) no_elem.

(** Typed values of the store. *)
Inductive value :=
| VU8 (n : Z)
| VU16 (n : Z)
| VU32 (n : Z)
| VAddr (bytes : list Z)
| VEther (bytes : list Z)
| VStr (s : cstring)
| VFlag
| VType (t : ipset_type).

#[global] Instance value_eq_dec : EqDecision value.
Proof. solve_decision. Defined.

Definition AF_UNSPEC : Z := 0.
Definition AF_INET : Z := 2.
Definition AF_INET6 : Z := 10.
Definition EINVAL : Z := 22.

Definition IPPROTO_ICMP : Z := 1.
Definition IPPROTO_TCP : Z := 6.
Definition IPPROTO_UDP : Z := 17.
Definition IPPROTO_ICMPV6 : Z := 58.

(** Modelled from the spec: libipset/data.c is not part of the sources at
    hand.  The store is a mapping from option kind to typed value with a
    parallel set of raised set-bits; the duplicate check is made by call
    sites and not inside the store; every successful set raises the
    set-bit and no operation clears one.  [ignored] records the option
    kinds a deprecation warning was already issued for. *)
Record ipset_data := {
  values : gmap ipset_opt value;
  bits : gset ipset_opt;
  ignored : gset ipset_opt
}.

Definition empty_data : ipset_data :=
  {| values := ∅; bits := ∅; ignored := ∅ |}.

(** Modelled from the spec: [ipset_data_set] writes the value under the
    option kind and raises its set-bit. *)
Definition ipset_data_set (d : ipset_data) (o : ipset_opt) (v : value) : Z * ipset_data :=
  (0, {| values := <[o := v]> (values d); bits := {[o]} ∪ bits d; ignored := ignored d |}).

(** Modelled from the spec: [ipset_data_get] returns the stored value or
    absent. *)
Definition ipset_data_get (d : ipset_data) (o : ipset_opt) : option value :=
  values d !! o.

(** Modelled from the spec: [ipset_data_flags_test] is a pure read of the
    set-bit of an option kind ([IPSET_FLAG(opt)]). *)
Definition ipset_data_flags_test (d : ipset_data) (o : ipset_opt) : bool :=
  bool_decide (o ∈ bits d).

(** Modelled from the spec: [ipset_data_flags_set] raises a set-bit and
    stores no value. *)
Definition ipset_data_flags_set (d : ipset_data) (o : ipset_opt) : ipset_data :=
  {| values := values d; bits := {[o]} ∪ bits d; ignored := ignored d |}.

(** Modelled from the spec: [ipset_data_family] is the stored family,
    unspecified until first assignment. *)
Definition ipset_data_family (d : ipset_data) : Z :=
  match values d !! IPSET_OPT_FAMILY with
  | Some (VU8 f) => f
  | _ => AF_UNSPEC
  end.

(** Modelled from the spec: [ipset_data_ignored] tells whether the option
    kind was already ignored once in this session and marks it. *)
Definition ipset_data_ignored (d : ipset_data) (o : ipset_opt) : bool * ipset_data :=
  (bool_decide (o ∈ ignored d),
   {| values := values d; bits := bits d; ignored := {[o]} ∪ ignored d |}).

(** ** Diagnostics and the session *)

(** One constructor per message of parse.c, with the arguments of its
    format string. *)
Inductive message :=
| Msg_out_of_range (str : cstring) (lo hi : Z)
| Msg_invalid_number (str : cstring)
| Msg_not_ether (str : cstring)
| Msg_not_port (str proto : cstring)
| Msg_not_proto (str : cstring)
| Msg_unsupported_proto (str : cstring)
| Msg_not_typecode (str family : cstring)
| Msg_icmp_inet_only
| Msg_icmpv6_inet6_only
| Msg_pseudo_port_only
| Msg_family_multiple
| Msg_unknown_family (str : cstring)
| Msg_cannot_resolve (str : cstring) (family : Z)
| Msg_resolving_failed (str : cstring) (family : Z)
| Msg_not_resolved (str : cstring) (family : Z)
| Msg_multiple_addresses (str : cstring)
| Msg_plain_ip_required (str : cstring)
| Msg_netblock_required (str : cstring)
| Msg_range_required (str : cstring)
| Msg_netrange_required (str : cstring)
| Msg_iprange_required (str : cstring)
| Msg_ipnet_required (str : cstring)
| Msg_timeout_already
| Msg_missing_separator (str : cstring)
| Msg_setname_too_long (str : cstring)
| Msg_setname_too_long_freed
| Msg_before_after_already
| Msg_nameref_syntax
| Msg_netmask_range (lo hi : Z)
| Msg_option_ignored (str : cstring)
| Msg_already_specified (optstr : cstring)
| Msg_type_unknown
| Msg_second_elem_missing (str : cstring)
| Msg_third_elem_missing (str : cstring)
| Msg_elem_separator_unsupported (str name : cstring)
| Msg_two_elem_separators (str name : cstring)
| Msg_three_elem_separators (str name : cstring)
| Msg_missing_parser (name : cstring).

(** [ipset_err], [syntax_err] (an error whose text starts with
    "Syntax error: ") and [ipset_warn]. *)
Inductive diagnostic :=
| Error (m : message)
| SyntaxError (m : message)
| Warning (m : message).

Record ipset_session := {
  data : ipset_data;
  report : list diagnostic
}.

Definition ipset_session_data (s : ipset_session) : ipset_data := data s.

Definition with_data (s : ipset_session) (d : ipset_data) : ipset_session :=
  {| data := d; report := report s |}.

(** Modelled from the spec: libipset/session.c is not part of the sources
    at hand.  A failure is reported as a diagnostic appended to the
    session's report and a negative status; a warning is appended and
    aborts nothing; the report can be reset. *)
Definition ipset_err (s : ipset_session) (m : message) : Z * ipset_session :=
  (-1, {| data := data s; report := report s ++ [Error m] |}).

Definition syntax_err (s : ipset_session) (m : message) : Z * ipset_session :=
  (-1, {| data := data s; report := report s ++ [SyntaxError m] |}).

Definition ipset_warn (s : ipset_session) (m : message) : ipset_session :=
  {| data := data s; report := report s ++ [Warning m] |}.

Definition ipset_session_report_reset (s : ipset_session) : ipset_session :=
  {| data := data s; report := [] |}.

Definition ipset_session_data_set (s : ipset_session) (o : ipset_opt) (v : value)
  : Z * ipset_session :=
  let '(err, d) := ipset_data_set (data s) o v in (err, with_data s d).

Definition ipset_session_data_get (s : ipset_session) (o : ipset_opt) : option value :=
  ipset_data_get (data s) o.

Definition empty_session : ipset_session := {| data := empty_data; report := [] |}.

(** ** External collaborators *)

(** One entry of the list [getaddrinfo] returns: the family, the length
    of the socket address and the address bytes ([sin_addr] or
    [sin6_addr]). *)
Record addrinfo := {
  ai_family : Z;
  ai_addrlen : Z;
  ai_addr : list Z
}.

(** The services and protocols databases, the resolver, and the ICMP and
    ICMPv6 name tables of libipset/icmp.c and icmpv6.c.
    [getservbyname] yields [s_port] (network byte order), [getprotobyname]
    yields [p_proto], [getaddrinfo] yields [None] on a resolver error. *)
Record environment := {
  getservbyname : cstring -> cstring -> option Z;
  getprotobyname : cstring -> option Z;
  name_to_icmp : cstring -> option Z;
  name_to_icmpv6 : cstring -> option Z;
  getaddrinfo : cstring -> Z -> option (list addrinfo)
}.

Definition sizeof_sockaddr_in : Z := 16.
Definition sizeof_sockaddr_in6 : Z := 28.

(** Modelled from the spec: the header defining [IPSET_MAXNAMELEN] is not
    part of the sources at hand; the spec requires the length of a set
    name to be strictly below a fixed limit, 32 in the ipset headers. *)
Definition IPSET_MAXNAMELEN : nat := 32.

Definition ETH_ALEN : nat := 6.
Definition USHRT_MAX : Z := 65535.
Definition UINT_MAX : Z := 4294967295.

Definition nonzero (x : Z) : bool := negb (x =? 0).

(** ** Parsing numbers *)

(** [string_to_number_ll]; [ret] is the content of [*ret] before the
    call, the second component of the result its content after. *)
Definition string_to_number_ll (session : ipset_session) (str : cstring)
    (min max : Z) (ret : Z) : Z * Z * ipset_session :=
  let r := strtoull str 0 in
  let consumed :=
    (endp r =? strlen str)%nat && negb (endp r =? 0)%nat && negb (erange r) in
  if consumed && (min <=? number r) && ((max =? 0) || (number r <=? max))
  then (0, number r, session)
  else
    let errno_erange := consumed || erange r in
    if errno_erange && nonzero max then
      let '(e, s) := syntax_err session (Msg_out_of_range str min max) in (e, ret, s)
    else if errno_erange then
      let '(e, s) := syntax_err session (Msg_out_of_range str min ULLONG_MAX) in (e, ret, s)
    else
      let '(e, s) := syntax_err session (Msg_invalid_number str) in (e, ret, s).

Definition string_to_u8 (session : ipset_session) (str : cstring)
  : Z * Z * ipset_session :=
  let '(err, num, s) := string_to_number_ll session str 0 255 0 in
  (err, num mod 256, s).

Definition string_to_cidr (session : ipset_session) (str : cstring) (min max : Z)
  : Z * Z * ipset_session :=
  let '(err, ret, s) := string_to_u8 session str in
  if (err =? 0) && ((ret <? min) || (max <? ret))
  then let '(e, s') := syntax_err s (Msg_out_of_range str min max) in (e, ret, s')
  else (err, ret, s).

Definition string_to_u16 (session : ipset_session) (str : cstring)
  : Z * Z * ipset_session :=
  let '(err, num, s) := string_to_number_ll session str 0 USHRT_MAX 0 in
  (err, num mod 65536, s).

Definition string_to_u32 (session : ipset_session) (str : cstring)
  : Z * Z * ipset_session :=
  let '(err, num, s) := string_to_number_ll session str 0 UINT_MAX 0 in
  (err, num mod 4294967296, s).

(** ** Ethernet addresses *)

(** [*end == ':' || *end == '\0'] for [end == str + off]. *)
Definition ether_end_ok (str : cstring) (off : nat) : bool :=
  match str !! off with
  | Some c => chr_eqb c ":"
  | None => true
  end.

(** The loop of [ipset_parse_ether] from octet [i] on, [n] octets left:
    the bytes, or [None] on [goto error]. *)
Fixpoint ether_octets (str : cstring) (i n : nat) : option (list Z) :=
  match n with
  | O => Some []
  | S n' =>
      let r := strtol (drop (i * 3) str) 16 in
      if (endp r =? 2)%nat && ether_end_ok str (i * 3 + 2)
         && (0 <=? number r) && (number r <=? 255)
      then option_map (cons (number r)) (ether_octets str (S i) n')
      else None
  end.

Definition ipset_parse_ether (session : ipset_session) (opt : ipset_opt)
    (str : cstring) : Z * ipset_session :=
  if negb (strlen str =? ETH_ALEN * 3 - 1)%nat
  then syntax_err session (Msg_not_ether str)
  else
    match ether_octets str 0 ETH_ALEN with
    | Some ether => ipset_session_data_set session opt (VEther ether)
    | None => syntax_err session (Msg_not_ether str)
    end.

Section Parsers.

Variable env : environment.

(** ** Ports and protocols *)

Definition parse_portname (session : ipset_session) (str : cstring)
    (port : Z) (proto : cstring) : Z * Z * ipset_session :=
  match getservbyname env str proto with
  | Some s_port => (0, ntohs (s_port mod 65536), session)
  | None =>
      let '(e, s) := syntax_err session (Msg_not_port str proto) in (e, port, s)
  end.

Definition ipset_parse_port (session : ipset_session) (opt : ipset_opt)
    (str proto : cstring) : Z * ipset_session :=
  let '(err, port, s1) := string_to_u16 session str in
  let '(err, port, s2) :=
    if err =? 0 then (err, port, s1) else parse_portname s1 str port proto in
  let '(err, s3) :=
    if err =? 0 then ipset_session_data_set s2 opt (VU16 port) else (err, s2) in
  if err =? 0
  then (err, ipset_session_report_reset s3)   (* no error: reset false error messages *)
  else (err, s3).

Definition ipset_parse_tcpudp_port (session : ipset_session) (opt : ipset_opt)
    (str proto : cstring) : Z * ipset_session :=
  match range_separator str with
  | Some m =>
      (* port-port *)
      let tmp := split_head str m in
      let a := split_tail str m in
      let '(err, s1) := ipset_parse_port session IPSET_OPT_PORT_TO a proto in
      if nonzero err then (err, s1)
      else ipset_parse_port s1 opt tmp proto
  | None => ipset_parse_port session opt str proto
  end.

Definition ipset_parse_tcp_port (session : ipset_session) (opt : ipset_opt)
    (str : cstring) : Z * ipset_session :=
  ipset_parse_tcpudp_port session opt str (cstr "TCP").

Definition ipset_parse_single_tcp_port (session : ipset_session) (opt : ipset_opt)
    (str : cstring) : Z * ipset_session :=
  ipset_parse_port session opt str (cstr "TCP").

Definition ipset_parse_proto (session : ipset_session) (opt : ipset_opt)
    (str : cstring) : Z * ipset_session :=
  match getprotobyname env (if strcaseeq str (cstr "icmpv6")
                            then cstr "ipv6-icmp" else str) with
  | None => syntax_err session (Msg_not_proto str)
  | Some p_proto =>
      let proto := p_proto mod 256 in
      if proto =? 0 then syntax_err session (Msg_unsupported_proto str)
      else ipset_session_data_set session opt (VU8 proto)
  end.

(** ** ICMP and ICMPv6 type/code *)

Definition parse_icmp_typecode (session : ipset_session) (opt : ipset_opt)
    (str family : cstring) : Z * ipset_session :=
  match cidr_separator str with
  | None => ipset_err session (Msg_not_typecode str family)
  | Some m =>
      let tmp := split_head str m in
      let a := split_tail str m in
      let '(err, type, s1) := string_to_u8 session a in
      if nonzero err then (err, s1)
      else
        let '(err, code, s2) := string_to_u8 s1 tmp in
        if nonzero err then (err, s2)
        else
          let typecode := (Z.lor (Z.shiftl type 8) code) mod 65536 in
          ipset_session_data_set s2 opt (VU16 typecode)
  end.

Definition ipset_parse_icmp (session : ipset_session) (opt : ipset_opt)
    (str : cstring) : Z * ipset_session :=
  match name_to_icmp env str with
  | None => parse_icmp_typecode session opt str (cstr "ICMP")
  | Some typecode => ipset_session_data_set session opt (VU16 typecode)
  end.

Definition ipset_parse_icmpv6 (session : ipset_session) (opt : ipset_opt)
    (str : cstring) : Z * ipset_session :=
  match name_to_icmpv6 env str with
  | None => parse_icmp_typecode session opt str (cstr "ICMPv6")
  | Some typecode => ipset_session_data_set session opt (VU16 typecode)
  end.

(** The [uint8_t] read through the pointer [ipset_data_get] returns. *)
Definition data_get_u8 (d : ipset_data) (o : ipset_opt) : Z :=
  match ipset_data_get d o with
  | Some (VU8 n) => n
  | _ => 0
  end.

(** ** Protocol and port *)

Definition ipset_parse_proto_port (session : ipset_session) (opt : ipset_opt)
    (str : cstring) : Z * ipset_session :=
  match proto_separator str with
  | Some m =>
      let family := ipset_data_family (ipset_session_data session) in
      (* proto:port *)
      let tmp := split_head str m in
      let a := split_tail str m in
      let '(err, s1) := ipset_parse_proto session IPSET_OPT_PROTO tmp in
      if nonzero err then (err, s1)
      else
        let p := data_get_u8 (ipset_session_data s1) IPSET_OPT_PROTO in
        if p =? IPPROTO_TCP then ipset_parse_tcpudp_port s1 opt a tmp
        else if p =? IPPROTO_UDP then ipset_parse_tcpudp_port s1 opt a tmp
        else if p =? IPPROTO_ICMP then
          if negb (family =? AF_INET)
          then let '(_, s2) := syntax_err s1 Msg_icmp_inet_only in (err, s2)
          else ipset_parse_icmp s1 opt a
        else if p =? IPPROTO_ICMPV6 then
          if negb (family =? AF_INET6)
          then let '(_, s2) := syntax_err s1 Msg_icmpv6_inet6_only in (err, s2)
          else ipset_parse_icmpv6 s1 opt a
        else
          if negb (streq a (cstr "0"))
          then let '(_, s2) := syntax_err s1 Msg_pseudo_port_only in (err, s2)
          else (err, with_data s1 (ipset_data_flags_set (ipset_session_data s1) opt))
  | None =>
      let '(err, d) :=
        ipset_data_set (ipset_session_data session) IPSET_OPT_PROTO (VU8 IPPROTO_TCP) in
      if nonzero err then (err, with_data session d)
      else ipset_parse_tcpudp_port (with_data session d) opt str (cstr "TCP")
  end.

Definition ipset_parse_family (session : ipset_session) (opt : ipset_opt)
    (str : cstring) : Z * ipset_session :=
  let s1 :=
    if ipset_data_flags_test (ipset_session_data session) IPSET_OPT_FAMILY
    then snd (syntax_err session Msg_family_multiple)
    else session in
  if streq str (cstr "inet") || streq str (cstr "ipv4") || streq str (cstr "-4")
  then let '(err, d) := ipset_data_set (data s1) opt (VU8 AF_INET) in (err, with_data s1 d)
  else if streq str (cstr "inet6") || streq str (cstr "ipv6") || streq str (cstr "-6")
  then let '(err, d) := ipset_data_set (data s1) opt (VU8 AF_INET6) in (err, with_data s1 d)
  else if streq str (cstr "any") || streq str (cstr "unspec")
  then let '(err, d) := ipset_data_set (data s1) opt (VU8 AF_UNSPEC) in (err, with_data s1 d)
  else syntax_err s1 (Msg_unknown_family str).

(** ** Addresses, networks and ranges *)

Definition call_getaddrinfo (session : ipset_session) (str : cstring) (family : Z)
  : option (list addrinfo) * ipset_session :=
  match getaddrinfo env str family with
  | None => (None, snd (syntax_err session (Msg_cannot_resolve str family)))
  | Some res => (Some res, session)
  end.

(** The loop of [get_addrinfo] over the resolver's list, carrying
    [found], [err] and the session. *)
Fixpoint get_addrinfo_loop (opt : ipset_opt) (str : cstring) (family addrlen : Z)
    (info : list addrinfo) (found : nat) (err : Z) (session : ipset_session)
  : nat * Z * ipset_session :=
  match info with
  | [] => (found, err, session)
  | i :: next =>
      if negb (ai_family i =? family) || negb (ai_addrlen i =? addrlen)
      then get_addrinfo_loop opt str family addrlen next found err session
      else
        match found with
        | O =>
            let '(err', s') := ipset_session_data_set session opt (VAddr (ai_addr i)) in
            get_addrinfo_loop opt str family addrlen next (S found) err' s'
        | S O =>
            get_addrinfo_loop opt str family addrlen next (S found) err
              (ipset_warn session (Msg_multiple_addresses str))
        | _ => get_addrinfo_loop opt str family addrlen next (S found) err session
        end
  end.

Definition get_addrinfo (session : ipset_session) (opt : ipset_opt)
    (str : cstring) (family : Z) : Z * ipset_session :=
  let addrlen := if family =? AF_INET then sizeof_sockaddr_in else sizeof_sockaddr_in6 in
  match call_getaddrinfo session str family with
  | (None, s1) => (EINVAL, snd (syntax_err s1 (Msg_resolving_failed str family)))
  | (Some info, s1) =>
      let '(found, err, s2) := get_addrinfo_loop opt str family addrlen info O 0 s1 in
      match found with
      | O => syntax_err s2 (Msg_not_resolved str family)
      | _ => (err, s2)
      end
  end.

(** The code after the label [out] of [parse_ipaddr]. *)
Definition parse_ipaddr_out (aerr err : Z) (session : ipset_session)
  : Z * ipset_session :=
  if negb (aerr =? EINVAL) then (err, session)   (* getaddrinfo not failed *)
  else if nonzero aerr then (-1, session)
  else (err, session).

(** The address part of [parse_ipaddr]: [tmp] and, for a range, the
    upper end [a]. *)
Definition parse_ipaddr_addr (session : ipset_session) (opt : ipset_opt)
    (tmp : cstring) (range : option cstring) (family : Z) (err : Z)
  : Z * ipset_session :=
  let '(aerr, s1) := get_addrinfo session opt tmp family in
  match range with
  | Some a =>
      if nonzero aerr then parse_ipaddr_out aerr err s1
      else
        let '(aerr, s2) := get_addrinfo s1 IPSET_OPT_IP_TO a family in
        parse_ipaddr_out aerr err s2
  | None => parse_ipaddr_out aerr err s1
  end.

Definition parse_ipaddr (session : ipset_session) (opt : ipset_opt)
    (str : cstring) (family : Z) : Z * ipset_session :=
  let m := if family =? AF_INET then 32 else 128 in
  let copt := if decide (opt = IPSET_OPT_IP) then IPSET_OPT_CIDR else IPSET_OPT_CIDR2 in
  match cidr_separator str with
  | Some k =>
      (* IP/mask *)
      let tmp := split_head str k in
      let a := split_tail str k in
      let '(err, m, s1) := string_to_cidr session a 0 m in
      if nonzero err then parse_ipaddr_out EINVAL err s1
      else
        let '(err, s2) := ipset_session_data_set s1 copt (VU8 m) in
        if nonzero err then parse_ipaddr_out EINVAL err s2
        else parse_ipaddr_addr s2 opt tmp None family err
  | None =>
      match range_separator str with
      | Some k =>
          (* IP-IP *)
          parse_ipaddr_addr session opt (split_head str k) (Some (split_tail str k)) family 0
      | None => parse_ipaddr_addr session opt str None family 0
      end
  end.

Inductive ipaddr_type := IPADDR_ANY | IPADDR_PLAIN | IPADDR_NET | IPADDR_RANGE.

(** [cidr_hostaddr]; it is called only where [cidr_separator] finds a
    separator. *)
Definition cidr_hostaddr (str : cstring) (family : Z) : bool :=
  match cidr_separator str with
  | Some k =>
      if family =? AF_INET then streq (drop k str) (cstr "/32")
      else streq (drop k str) (cstr "/128")
  | None => false
  end.

Definition found (a : option nat) : bool :=
  match a with
  | Some _ => true
  | None => false
  end.

(** The family [parse_ip] and its siblings work with: the stored one,
    INET when none is stored yet, which is then stored. *)
Definition default_family (session : ipset_session) : Z * ipset_session :=
  let d := ipset_session_data session in
  let family := ipset_data_family d in
  if family =? AF_UNSPEC
  then (AF_INET, with_data session (snd (ipset_data_set d IPSET_OPT_FAMILY (VU8 AF_INET))))
  else (family, session).

Definition parse_ip (session : ipset_session) (opt : ipset_opt) (str : cstring)
    (addrtype : ipaddr_type) : Z * ipset_session :=
  let '(family, s) := default_family session in
  match addrtype with
  | IPADDR_PLAIN =>
      if found (range_separator str)
         || (found (cidr_separator str) && negb (cidr_hostaddr str family))
      then syntax_err s (Msg_plain_ip_required str)
      else parse_ipaddr s opt str family
  | IPADDR_NET =>
      if negb (found (cidr_separator str)) || found (range_separator str)
      then syntax_err s (Msg_netblock_required str)
      else parse_ipaddr s opt str family
  | IPADDR_RANGE =>
      if negb (found (range_separator str)) || found (cidr_separator str)
      then syntax_err s (Msg_range_required str)
      else parse_ipaddr s opt str family
  | IPADDR_ANY => parse_ipaddr s opt str family
  end.

Definition ipset_parse_ip (session : ipset_session) (opt : ipset_opt) (str : cstring) :=
  parse_ip session opt str IPADDR_ANY.

Definition ipset_parse_single_ip (session : ipset_session) (opt : ipset_opt) (str : cstring) :=
  parse_ip session opt str IPADDR_PLAIN.

Definition ipset_parse_net (session : ipset_session) (opt : ipset_opt) (str : cstring) :=
  parse_ip session opt str IPADDR_NET.

Definition ipset_parse_range (session : ipset_session) (opt : ipset_opt) (str : cstring) :=
  parse_ip session IPSET_OPT_IP str IPADDR_RANGE.

Definition ipset_parse_netrange (session : ipset_session) (opt : ipset_opt) (str : cstring) :=
  if negb (found (range_separator str) || found (cidr_separator str))
  then syntax_err session (Msg_netrange_required str)
  else parse_ip session opt str IPADDR_ANY.

Definition ipset_parse_iprange (session : ipset_session) (opt : ipset_opt) (str : cstring) :=
  if found (cidr_separator str)
  then syntax_err session (Msg_iprange_required str)
  else parse_ip session opt str IPADDR_ANY.

Definition ipset_parse_ipnet (session : ipset_session) (opt : ipset_opt) (str : cstring) :=
  if found (range_separator str)
  then syntax_err session (Msg_ipnet_required str)
  else parse_ip session opt str IPADDR_ANY.

Definition ipset_parse_ip4_single6 (session : ipset_session) (opt : ipset_opt)
    (str : cstring) : Z * ipset_session :=
  let '(family, s) := default_family session in
  if family =? AF_INET then ipset_parse_ip s opt str
  else ipset_parse_single_ip s opt str.

Definition ipset_parse_uint32 (session : ipset_session) (opt : ipset_opt)
    (str : cstring) : Z * ipset_session :=
  let '(err, value, s) := string_to_u32 session str in
  if err =? 0 then ipset_session_data_set s opt (VU32 value) else (err, s).

Definition ipset_parse_uint8 (session : ipset_session) (opt : ipset_opt)
    (str : cstring) : Z * ipset_session :=
  let '(err, value, s) := string_to_u8 session str in
  if err =? 0 then ipset_session_data_set s opt (VU8 value) else (err, s).

Definition ipset_parse_iptimeout (session : ipset_session) (opt : ipset_opt)
    (str : cstring) : Z * ipset_session :=
  (* IP,timeout *)
  if ipset_data_flags_test (ipset_session_data session) IPSET_OPT_TIMEOUT
  then syntax_err session Msg_timeout_already
  else
    match elem_separator str with
    | None => syntax_err session (Msg_missing_separator str)
    | Some k =>
        let '(err, s1) := parse_ip session opt (split_head str k) IPADDR_ANY in
        if err =? 0 then ipset_parse_uint32 s1 IPSET_OPT_TIMEOUT (split_tail str k)
        else (err, s1)
    end.

(** ** Set names *)

(** The test of the macro [check_setname]. *)
Definition setname_too_long (str : cstring) : bool :=
  (IPSET_MAXNAMELEN - 1 <? strlen str)%nat.

(** [ipset_parse_name_compat] from [check_setname(tmp, saved)] on:
    [tmp] is the name, [b] the reference name if there is one.  Here
    [check_setname] is given the duplicate [saved], which it frees before
    it formats "setname '%s' is longer than %u characters" from [tmp] or
    [b]; both point into [saved], so the name the message shows is read
    from freed storage and is not determined by the program:
    [Msg_setname_too_long_freed] is that message, without a name. *)
Definition name_compat_store (session : ipset_session) (opt : ipset_opt)
    (tmp : cstring) (b : option cstring) (before : bool) : Z * ipset_session :=
  if setname_too_long tmp then syntax_err session Msg_setname_too_long_freed
  else
    let '(err, d1) := ipset_data_set (data session) opt (VStr tmp) in
    let s1 := with_data session d1 in
    match b with
    | None => (err, s1)
    | Some b =>
        if nonzero err then (err, s1)
        else if setname_too_long b then syntax_err s1 Msg_setname_too_long_freed
        else
          let '(err, d2) := ipset_data_set (data s1) IPSET_OPT_NAMEREF (VStr b) in
          let s2 := with_data s1 d2 in
          if nonzero err then (err, s2)
          else if before then
            let '(err, d3) := ipset_data_set (data s2) IPSET_OPT_BEFORE VFlag in
            (err, with_data s2 d3)
          else (err, s2)
    end.

Definition ipset_parse_name_compat (session : ipset_session) (opt : ipset_opt)
    (str : cstring) : Z * ipset_session :=
  let s0 :=
    if ipset_data_flags_test (ipset_session_data session) IPSET_OPT_NAMEREF
    then snd (syntax_err session Msg_before_after_already)
    else session in
  match elem_separator str with
  | Some k =>
      (* setname,[before|after,setname *)
      let tmp := split_head str k in
      let a := split_tail str k in
      match elem_separator a with
      | None => ipset_err s0 Msg_nameref_syntax
      | Some j =>
          let b := split_tail a j in
          let a := split_head a j in
          if negb (streq a (cstr "before") || streq a (cstr "after"))
          then ipset_err s0 Msg_nameref_syntax
          else name_compat_store s0 opt tmp (Some b) (streq a (cstr "before"))
      end
  | None => name_compat_store s0 opt str None false
  end.

Definition ipset_parse_setname (session : ipset_session) (opt : ipset_opt)
    (str : cstring) : Z * ipset_session :=
  if setname_too_long str then syntax_err session (Msg_setname_too_long str)
  else ipset_session_data_set session opt (VStr str).

Definition ipset_parse_before (session : ipset_session) (opt : ipset_opt)
    (str : cstring) : Z * ipset_session :=
  let s0 :=
    if ipset_data_flags_test (ipset_session_data session) IPSET_OPT_NAMEREF
    then snd (syntax_err session Msg_before_after_already)
    else session in
  if setname_too_long str then syntax_err s0 (Msg_setname_too_long str)
  else
    let d1 := snd (ipset_data_set (data s0) IPSET_OPT_BEFORE VFlag) in
    let '(err, d2) := ipset_data_set d1 opt (VStr str) in
    (err, with_data s0 d2).

Definition ipset_parse_after (session : ipset_session) (opt : ipset_opt)
    (str : cstring) : Z * ipset_session :=
  let s0 :=
    if ipset_data_flags_test (ipset_session_data session) IPSET_OPT_NAMEREF
    then snd (syntax_err session Msg_before_after_already)
    else session in
  if setname_too_long str then syntax_err s0 (Msg_setname_too_long str)
  else
    let '(err, d) := ipset_data_set (data s0) opt (VStr str) in
    (err, with_data s0 d).

(** ** Netmask, flags, ignored options *)

Definition ipset_parse_netmask (session : ipset_session) (opt : ipset_opt)
    (str : cstring) : Z * ipset_session :=
  let '(family, s) := default_family session in
  let lo := if family =? AF_INET then 1 else 4 in
  let hi := if family =? AF_INET then 31 else 124 in
  let '(err, cidr, s1) := string_to_cidr s str lo hi in
  if nonzero err then syntax_err s1 (Msg_netmask_range lo hi)
  else
    let '(err, d) := ipset_data_set (data s1) opt (VU8 cidr) in
    (err, with_data s1 d).

Definition ipset_parse_flag (session : ipset_session) (opt : ipset_opt)
    (str : cstring) : Z * ipset_session :=
  ipset_session_data_set session opt VFlag.

Definition ipset_parse_ignored (session : ipset_session) (opt : ipset_opt)
    (str : cstring) : Z * ipset_session :=
  let '(seen, d) := ipset_data_ignored (ipset_session_data session) opt in
  let s := with_data session d in
  if negb seen then (0, ipset_warn s (Msg_option_ignored str)) else (0, s).

(** ** Calling parsers *)

(** A call through an [ipset_parsefn] pointer. *)
Definition call_parsefn (parse : ipset_parsefn)
  : ipset_session -> ipset_opt -> cstring -> Z * ipset_session :=
  match parse with
  | Fn_ipset_parse_ether => ipset_parse_ether
  | Fn_ipset_parse_tcp_port => ipset_parse_tcp_port
  | Fn_ipset_parse_single_tcp_port => ipset_parse_single_tcp_port
  | Fn_ipset_parse_proto => ipset_parse_proto
  | Fn_ipset_parse_icmp => ipset_parse_icmp
  | Fn_ipset_parse_icmpv6 => ipset_parse_icmpv6
  | Fn_ipset_parse_proto_port => ipset_parse_proto_port
  | Fn_ipset_parse_family => ipset_parse_family
  | Fn_ipset_parse_ip => ipset_parse_ip
  | Fn_ipset_parse_single_ip => ipset_parse_single_ip
  | Fn_ipset_parse_net => ipset_parse_net
  | Fn_ipset_parse_range => ipset_parse_range
  | Fn_ipset_parse_netrange => ipset_parse_netrange
  | Fn_ipset_parse_iprange => ipset_parse_iprange
  | Fn_ipset_parse_ipnet => ipset_parse_ipnet
  | Fn_ipset_parse_ip4_single6 => ipset_parse_ip4_single6
  | Fn_ipset_parse_iptimeout => ipset_parse_iptimeout
  | Fn_ipset_parse_name_compat => ipset_parse_name_compat
  | Fn_ipset_parse_setname => ipset_parse_setname
  | Fn_ipset_parse_before => ipset_parse_before
  | Fn_ipset_parse_after => ipset_parse_after
  | Fn_ipset_parse_uint32 => ipset_parse_uint32
  | Fn_ipset_parse_uint8 => ipset_parse_uint8
  | Fn_ipset_parse_netmask => ipset_parse_netmask
  | Fn_ipset_parse_flag => ipset_parse_flag
  | Fn_ipset_parse_ignored => ipset_parse_ignored
  end.

Definition ipset_call_parser (session : ipset_session) (parse : ipset_parsefn)
    (optstr : cstring) (opt : ipset_opt) (str : cstring) : Z * ipset_session :=
  let s1 :=
    if ipset_data_flags_test (ipset_session_data session) opt
    then snd (syntax_err session (Msg_already_specified optstr))
    else session in
  call_parsefn parse s1 opt
    (if decide (parse = Fn_ipset_parse_ignored) then optstr else str).

(** ** The element dispatcher *)

(** The macro [parse_elem(s, t, d, str)]: [inl] is a jump ([goto internal]
    or [goto out]) with the status to return, [inr] falls through. *)
Definition parse_elem (s : ipset_session) (t : ipset_type) (d : ipset_dim)
    (str : cstring) : (Z * ipset_session) + ipset_session :=
  match elem_parse (type_elem t d) with
  | None => inl (ipset_err s (Msg_missing_parser (type_name t)))
  | Some parse =>
      let '(ret, s') := call_parsefn parse s (elem_opt (type_elem t d)) str in
      if nonzero ret then inl (ret, s') else inr s'
  end.

(** [ipset_parse_elem] from [parse_elem(session, type, IPSET_DIM_ONE, tmp)]
    on. *)
Definition parse_elem_fields (session : ipset_session) (type : ipset_type)
    (tmp : cstring) (a b : option cstring) : Z * ipset_session :=
  match parse_elem session type IPSET_DIM_ONE tmp with
  | inl r => r
  | inr s1 =>
      let r2 :=
        match a with
        | Some a' =>
            if dim_gt (dimension type) IPSET_DIM_ONE
            then parse_elem s1 type IPSET_DIM_TWO a'
            else inr s1
        | None => inr s1
        end in
      match r2 with
      | inl r => r
      | inr s2 =>
          match b with
          | Some b' =>
              if dim_gt (dimension type) IPSET_DIM_TWO
              then match parse_elem s2 type IPSET_DIM_THREE b' with
                   | inl r => r
                   | inr s3 => (0, s3)
                   end
              else (0, s2)
          | None => (0, s2)
          end
      end
  end.

(** [ipset_parse_elem] from [if (a) b = elem_separator(a)] on: [tmp] is
    the first part and [a] the rest after the first separator, if it was
    split off. *)
Definition parse_elem_rest (session : ipset_session) (type : ipset_type)
    (optional : ipset_opt) (str tmp : cstring) (a : option cstring)
  : Z * ipset_session :=
  let b0 :=
    match a with
    | Some a' => elem_separator a'
    | None => None
    end in
  if dim_gt (dimension type) IPSET_DIM_TWO then
    match a, b0 with
    | Some a', Some j =>
        (* elem,elem,elem *)
        let b := split_tail a' j in
        if found (elem_separator b)
        then syntax_err session (Msg_three_elem_separators str (type_name type))
        else parse_elem_fields session type tmp (Some (split_head a' j)) (Some b)
    | _, _ =>
        if opt_is_none optional
        then syntax_err session (Msg_third_elem_missing str)
        else parse_elem_fields session type tmp a None
    end
  else
    match b0 with
    | Some _ => syntax_err session (Msg_two_elem_separators str (type_name type))
    | None => parse_elem_fields session type tmp a None
    end.

Definition ipset_parse_elem (session : ipset_session) (optional : ipset_opt)
    (str : cstring) : Z * ipset_session :=
  match ipset_session_data_get session IPSET_OPT_TYPE with
  | Some (VType type) =>
      let a := elem_separator str in
      if dim_gt (dimension type) IPSET_DIM_ONE then
        match a with
        | Some k =>
            (* elem,elem *)
            parse_elem_rest session type optional str
              (split_head str k) (Some (split_tail str k))
        | None =>
            if opt_is_none optional
            then syntax_err session (Msg_second_elem_missing str)
            else parse_elem_rest session type optional str str None
        end
      else
        match a with
        | Some _ =>
            match compat_parse_elem type with
            | Some compat =>
                call_parsefn compat session (elem_opt (type_elem type IPSET_DIM_ONE)) str
            | None =>
                syntax_err session (Msg_elem_separator_unsupported str (type_name type))
            end
        | None => parse_elem_rest session type optional str str None
        end
  | _ => ipset_err session Msg_type_unknown
  end.

End Parsers.

(** ** A sample environment

    A small services and protocols database, resolver and ICMP name
    tables, used to run the parsers on concrete inputs. *)

Fixpoint table_lookup {A : Type} (tbl : list (string * A)) (k : cstring) : option A :=
  match tbl with
  | [] => None
  | (name, v) :: tbl' => if streq k (cstr name) then Some v else table_lookup tbl' k
  end.

Definition htons (x : Z) : Z := ntohs x.

Definition sample_services : list (string * (string * Z)) :=
  [("http", ("tcp", 80)); ("https", ("tcp", 443)); ("domain", ("udp", 53))]%string.

Fixpoint sample_getservbyname_in (tbl : list (string * (string * Z)))
    (name proto : cstring) : option Z :=
  match tbl with
  | [] => None
  | (n, (p, port)) :: tbl' =>
      if streq name (cstr n) && streq proto (cstr p) then Some (htons port)
      else sample_getservbyname_in tbl' name proto
  end.

Definition sample_protocols : list (string * Z) :=
  [("ip", 0); ("IP", 0); ("icmp", 1); ("ICMP", 1); ("tcp", 6); ("TCP", 6);
   ("udp", 17); ("UDP", 17); ("ipv6-icmp", 58); ("IPv6-ICMP", 58);
   ("sctp", 132); ("SCTP", 132)]%string.

Definition sample_icmp_names : list (string * Z) :=
  [("echo-reply", 0); ("host-unreachable", 769); ("echo-request", 2048)]%string.

Definition sample_icmpv6_names : list (string * Z) :=
  [("echo-request", 32768); ("echo-reply", 33024)]%string.

Definition sample_hosts : list (string * list addrinfo) :=
  [("192.0.2.10",
    [{| ai_family := AF_INET; ai_addrlen := sizeof_sockaddr_in; ai_addr := [192; 0; 2; 10] |}]);
   ("192.0.2.20",
    [{| ai_family := AF_INET; ai_addrlen := sizeof_sockaddr_in; ai_addr := [192; 0; 2; 20] |}]);
   ("2001:db8::1",
    [{| ai_family := AF_INET6; ai_addrlen := sizeof_sockaddr_in6;
        ai_addr := [32; 1; 13; 184; 0; 0; 0; 0; 0; 0; 0; 0; 0; 0; 0; 1] |}])]%string.

(** The resolver is asked for one family and answers with entries of that
    family only. *)
Definition sample_getaddrinfo (str : cstring) (family : Z) : option (list addrinfo) :=
  match table_lookup sample_hosts str with
  | Some l =>
      match filter (fun i => ai_family i = family) l with
      | [] => None
      | l' => Some l'
      end
  | None => None
  end.

Definition sample_env : environment :=
  {| getservbyname := sample_getservbyname_in sample_services;
     getprotobyname := table_lookup sample_protocols;
     name_to_icmp := table_lookup sample_icmp_names;
     name_to_icmpv6 := table_lookup sample_icmpv6_names;
     getaddrinfo := sample_getaddrinfo |}.

(** ** Numerals, as the specification speaks of them

    A decimal numeral is a non-empty string of decimal digits that does
    not start with 0; a hexadecimal numeral is "0x" or "0X" followed by
    at least one hexadecimal digit; an octal numeral is 0 followed by
    octal digits.  These definitions follow the words of the
    specification; the parser itself goes through [strtoull]. *)

Definition is_digit_of (base : Z) (c : ascii) : bool :=
  match digit_in_base base c with
  | Some _ => true
  | None => false
  end.

Inductive numeral :=
| Decimal (ds : cstring)
| Hexadecimal (x : ascii) (ds : cstring)
| Octal (ds : cstring).

Definition numeral_string (n : numeral) : cstring :=
  match n with
  | Decimal ds => ds
  | Hexadecimal x ds => "0"%char :: x :: ds
  | Octal ds => "0"%char :: ds
  end.

Definition numeral_base (n : numeral) : Z :=
  match n with
  | Decimal _ => 10
  | Hexadecimal _ _ => 16
  | Octal _ => 8
  end.

Definition numeral_digits (n : numeral) : cstring :=
  match n with
  | Decimal ds => ds
  | Hexadecimal _ ds => ds
  | Octal ds => ds
  end.

Definition is_nil (s : cstring) : bool :=
  match s with
  | [] => true
  | _ => false
  end.

Definition numeral_valid (n : numeral) : bool :=
  match n with
  | Decimal ds =>
      negb (is_nil ds) && forallb (is_digit_of 10) ds && negb (starts_with_0 ds)
  | Hexadecimal x ds =>
      (chr_eqb x "x" || chr_eqb x "X") && negb (is_nil ds) && forallb (is_digit_of 16) ds
  | Octal ds => forallb (is_digit_of 8) ds
  end.

Definition digit_of (c : ascii) : Z :=
  match digit_value c with
  | Some d => d
  | None => 0
  end.

(** The number a string of digits denotes in a base. *)
Definition digits_value (base : Z) (ds : cstring) : Z :=
  fold_left (fun acc c => acc * base + digit_of c) ds 0.

Definition numeral_value (n : numeral) : Z :=
  digits_value (numeral_base n) (numeral_digits n).

(** "0x" or "0X" before a hexadecimal digit is the prefix of a
    hexadecimal numeral: a lone 0 followed by such characters is the
    start of a hexadecimal numeral, not the numeral 0. *)
Definition continues_as_hexadecimal (n : numeral) (t : cstring) : bool :=
  match n, t with
  | Octal [], x :: h :: _ => (chr_eqb x "x" || chr_eqb x "X") && is_digit_of 16 h
  | _, _ => false
  end.

(** Trailing characters behind a numeral: a non-empty rest of the string
    whose first character is not a digit of the base of the numeral. *)
Definition trails_numeral (n : numeral) (t : cstring) : bool :=
  match t with
  | [] => false
  | c :: _ => negb (is_digit_of (numeral_base n) c) && negb (continues_as_hexadecimal n t)
  end.

(** The report a range failure of [string_to_number_ll] leaves. *)
Definition out_of_range_report (str : cstring) (min max : Z) : diagnostic :=
  SyntaxError (Msg_out_of_range str min (if max =? 0 then ULLONG_MAX else max)).

(** ** Auxiliary notions for the statements *)

Ltac ascii_cases c := destruct c as [[] [] [] [] [] [] [] []].

(** [c] does not occur in [s]. *)
Definition free_of (c : ascii) (s : cstring) : Prop := forall i, s !! i <> Some c.

Definition free_ofb (c : ascii) (s : cstring) : bool := forallb (fun x => negb (chr_eqb x c)) s.

(** What ends a run of digits: the end of the string or a character that
    is not a digit of the base. *)
Definition ends_digits (base : Z) (t : cstring) : Prop :=
  match t with
  | [] => True
  | c :: _ => is_digit_of base c = false
  end.

(** The session after one more diagnostic. *)
Definition reported (session : ipset_session) (d : diagnostic) : ipset_session :=
  {| data := data session; report := report session ++ [d] |}.

(** The canonical form of an Ethernet address in the words of the
    specification: [n] two-digit hexadecimal octets separated by
    colons. *)
Fixpoint canonical_octets (n : nat) (s : cstring) : bool :=
  match n, s with
  | 1%nat, [a; b] => is_digit_of 16 a && is_digit_of 16 b
  | S (S _ as n'), a :: b :: c :: s' =>
      is_digit_of 16 a && is_digit_of 16 b && chr_eqb c ":" && canonical_octets n' s'
  | _, _ => false
  end.

Definition canonical_ether (str : cstring) : bool := canonical_octets ETH_ALEN str.

(** The bytes a canonical string denotes. *)
Fixpoint octet_values (n : nat) (s : cstring) : list Z :=
  match n, s with
  | S n', a :: b :: s' => (digit_of a * 16 + digit_of b) :: octet_values n' (drop 1 s')
  | _, _ => []
  end.

(** Sessions whose stored family is INET6 and INET: an empty session
    after [ipset_parse_family] on "inet6" and on "inet". *)
Definition session_inet6 : ipset_session :=
  snd (ipset_parse_family empty_session IPSET_OPT_FAMILY (cstr "inet6")).

Definition session_inet : ipset_session :=
  snd (ipset_parse_family empty_session IPSET_OPT_FAMILY (cstr "inet")).

(** The session with one more value in its store. *)
Definition store_also (o : ipset_opt) (v : value) (s : ipset_session) : ipset_session :=
  snd (ipset_session_data_set s o v).

(** The companion option kind [parse_ipaddr] stores a prefix length
    under. *)
Definition cidr_opt_of (opt : ipset_opt) : ipset_opt :=
  if decide (opt = IPSET_OPT_IP) then IPSET_OPT_CIDR else IPSET_OPT_CIDR2.

(** The session [ipset_parse_name_compat] works on after its first test:
    the session it was given, with "before|after option already used"
    filed when the reference name was set before. *)
Definition name_compat_entry (session : ipset_session) : ipset_session :=
  if ipset_data_flags_test (ipset_session_data session) IPSET_OPT_NAMEREF
  then reported session (SyntaxError Msg_before_after_already)
  else session.

(** An element string made of fields: the fields joined by the element
    separator. *)
Fixpoint join_fields (fs : list cstring) : cstring :=
  match fs with
  | [] => []
  | [f] => f
  | f :: fs' => f ++ ","%char :: join_fields fs'
  end.

(** A field proper: non-empty and free of the element separator. *)
Definition proper_field (f : cstring) : Prop := f <> [] /\ free_of "," f.

(** The diagnostics the specification calls TooManyElements and
    MissingElement, as [ipset_parse_elem] words them for a type of the
    given dimension and a string of the given number of fields. *)
Definition too_many_elements (t : ipset_type) (str : cstring) : message :=
  match dimension t with
  | IPSET_DIM_THREE => Msg_three_elem_separators str (type_name t)
  | _ => Msg_two_elem_separators str (type_name t)
  end.

Definition missing_element (fields : nat) (str : cstring) : message :=
  match fields with
  | 2%nat => Msg_third_elem_missing str
  | _ => Msg_second_elem_missing str
  end.

(** Two set types as the type plugins declare them: a two-dimension type
    of address and port, and the one-dimension list of set names with
    its compatibility parser. *)
Definition sample_type_ip_port : ipset_type :=
  {| type_name := cstr "hash:ip,port";
     dimension := IPSET_DIM_TWO;
     elem := [ {| elem_parse := Some Fn_ipset_parse_ip4_single6; elem_opt := IPSET_OPT_IP |};
               {| elem_parse := Some Fn_ipset_parse_proto_port; elem_opt := IPSET_OPT_PORT |} ];
     compat_parse_elem := None |}.

Definition sample_type_list_set : ipset_type :=
  {| type_name := cstr "list:set";
     dimension := IPSET_DIM_ONE;
     elem := [ {| elem_parse := Some Fn_ipset_parse_setname; elem_opt := IPSET_OPT_NAME |} ];
     compat_parse_elem := Some Fn_ipset_parse_name_compat |}.

(** An empty session in which the set type has been resolved. *)
Definition session_of_type (t : ipset_type) : ipset_session :=
  snd (ipset_session_data_set empty_session IPSET_OPT_TYPE (VType t)).

(** ** Auxiliary notions for the further properties *)

(** The session a successful port parse leaves on a store [d]: the port
    stored under the option kind and the report empty. *)
Definition port_stored (d : ipset_data) (opt : ipset_opt) (port : Z) : ipset_session :=
  {| data := snd (ipset_data_set d opt (VU16 port)); report := [] |}.

(** The name [ipset_parse_proto] hands to the protocols database:
    "icmpv6" in any letter case stands for "ipv6-icmp". *)
Definition proto_lookup_name (str : cstring) : cstring :=
  if strcaseeq str (cstr "icmpv6") then cstr "ipv6-icmp" else str.


(** The words [ipset_parse_family] knows. *)
Definition family_words_inet : list cstring := [cstr "inet"; cstr "ipv4"; cstr "-4"].
Definition family_words_inet6 : list cstring := [cstr "inet6"; cstr "ipv6"; cstr "-6"].
Definition family_words_unspec : list cstring := [cstr "any"; cstr "unspec"].

(** The session [ipset_parse_family] works on after its first test: the
    one given, with "may not be specified multiple times" filed when the
    family was set before. *)
Definition family_entry (session : ipset_session) : ipset_session :=
  if ipset_data_flags_test (ipset_session_data session) IPSET_OPT_FAMILY
  then reported session (SyntaxError Msg_family_multiple)
  else session.

(** The netmask bounds of a family. *)
Definition netmask_lo (family : Z) : Z := if family =? AF_INET then 1 else 4.
Definition netmask_hi (family : Z) : Z := if family =? AF_INET then 31 else 124.

(** Whether the middle field of a set-name triple is the word "before". *)
Definition is_before (word : cstring) : bool := streq word (cstr "before").

(** Lookups in a store after a run of writes under known option kinds. *)
Ltac store_lookup :=
  unfold ipset_data_get, with_data; cbn [values data snd fst];
  repeat first [ rewrite lookup_insert_eq | rewrite lookup_insert_ne by congruence ];
  try reflexivity.

(** An entry of the resolver's answer that [get_addrinfo] takes: of the
    family asked for and with the socket address length of that
    family. *)
Definition addr_matches (family : Z) (i : addrinfo) : bool :=
  (ai_family i =? family)
  && (ai_addrlen i =? (if family =? AF_INET then sizeof_sockaddr_in else sizeof_sockaddr_in6)).

(** A resolver that knows one host with two IPv4 addresses. *)
Definition two_address_env : environment :=
  {| getservbyname := fun _ _ => None;
     getprotobyname := fun _ => None;
     name_to_icmp := fun _ => None;
     name_to_icmpv6 := fun _ => None;
     getaddrinfo := fun str family =>
       if streq str (cstr "dual.example") && (family =? AF_INET)
       then Some [ {| ai_family := AF_INET; ai_addrlen := sizeof_sockaddr_in;
                      ai_addr := [198; 51; 100; 1] |};
                   {| ai_family := AF_INET; ai_addrlen := sizeof_sockaddr_in;
                      ai_addr := [198; 51; 100; 2] |} ]
       else None |}.

(** The fields of an element string with the positions they are parsed
    for. *)
Definition positioned (fs : list cstring) : list (ipset_dim * cstring) :=
  zip [IPSET_DIM_ONE; IPSET_DIM_TWO; IPSET_DIM_THREE] fs.

(** Fields parsed one after the other by the parsers the type binds to
    their positions, stopping at the first failure. *)
Fixpoint parse_fields_in_order (env : environment) (t : ipset_type)
    (s : ipset_session) (fields : list (ipset_dim * cstring)) : Z * ipset_session :=
  match fields with
  | [] => (0, s)
  | (d, f) :: rest =>
      match elem_parse (type_elem t d) with
      | None => ipset_err s (Msg_missing_parser (type_name t))
      | Some parse =>
          let '(ret, s') := call_parsefn env parse s (elem_opt (type_elem t d)) f in
          if nonzero ret then (ret, s') else parse_fields_in_order env t s' rest
      end
  end.

(** * Properties *)

(** ** Characters and [strchr] *)

Lemma chr_eqb_eq (a b : ascii) : chr_eqb a b = true <-> a = b.
Proof. apply Ascii.eqb_eq. Qed.

Lemma chr_eqb_neq (a b : ascii) : chr_eqb a b = false <-> a <> b.
Proof. apply Ascii.eqb_neq. Qed.

Lemma chr_eqb_refl (a : ascii) : chr_eqb a a = true.
Proof. apply Ascii.eqb_refl. Qed.

Lemma char_is_true (o : option ascii) (c : ascii) : char_is o c = true <-> o = Some c.
Proof.
  destruct o as [x|]; simpl.
  - rewrite chr_eqb_eq. split; congruence.
  - split; discriminate.
Qed.

Lemma char_is_false (o : option ascii) (c : ascii) : char_is o c = false <-> o <> Some c.
Proof.
  rewrite <- char_is_true. destruct (char_is o c); split; congruence.
Qed.

(** [strchr] finds the first occurrence. *)
Lemma strchr_Some (s : cstring) (c : ascii) (m : nat) :
  strchr s c = Some m <->
  s !! m = Some c /\ forall j, (j < m)%nat -> s !! j <> Some c.
Proof.
  revert m. induction s as [|x s IH]; intros m; simpl.
  - split; [discriminate | intros [H _]; discriminate].
  - destruct (chr_eqb x c) eqn:E.
    + apply chr_eqb_eq in E. subst x. split.
      * intros [= <-]. split; [reflexivity | intros j Hj; lia].
      * intros [Hm Hfirst]. destruct m as [|m]; [reflexivity|].
        exfalso. apply (Hfirst O); [lia | reflexivity].
    + apply chr_eqb_neq in E. destruct (strchr s c) as [k|] eqn:Ek; simpl.
      * split.
        -- intros [= <-]. destruct (proj1 (IH k) eq_refl) as [Hk Hlt]. split; [exact Hk|].
           intros [|j] Hj; simpl; [congruence | apply Hlt; lia].
        -- intros [Hm Hfirst]. destruct m as [|m]; simpl in Hm; [congruence|].
           assert (Some k = Some m) as [= ->]; [|reflexivity].
           apply IH. split; [exact Hm|].
           intros j Hj. apply (Hfirst (S j)). lia.
      * split; [discriminate|]. intros [Hm Hfirst].
        destruct m as [|m]; simpl in Hm; [congruence|].
        assert (None = Some m) as Habs; [|discriminate].
        apply IH. split; [exact Hm|]. intros j Hj. apply (Hfirst (S j)). lia.
Qed.

Lemma strchr_None (s : cstring) (c : ascii) :
  strchr s c = None <-> forall i, s !! i <> Some c.
Proof.
  induction s as [|x s IH]; simpl.
  - split; [intros _ i; rewrite lookup_nil; discriminate | reflexivity].
  - destruct (chr_eqb x c) eqn:E.
    + apply chr_eqb_eq in E. subst x. split; [discriminate|].
      intros H. exfalso. apply (H O). reflexivity.
    + apply chr_eqb_neq in E. destruct (strchr s c) as [k|]; simpl.
      * split; [discriminate|]. intros H. exfalso.
        assert (Some k = None) as Habs; [|discriminate].
        apply IH. intros i. apply (H (S i)).
      * split; [|reflexivity]. intros _ [|i]; simpl; [congruence|].
        apply IH. reflexivity.
Qed.

(** [ipset_strchr] with a one-character separator set. *)
Lemma ipset_strchr_single (s : cstring) (c : ascii) :
  ipset_strchr s [c] =
  match strchr s c with
  | Some m =>
      if negb (char_is (first_char s) c) && negb (char_is (last_char s) c)
      then Some m else None
  | None => None
  end.
Proof. simpl. destruct (strchr s c); [destruct (_ && _)|]; reflexivity. Qed.

Lemma first_char_lookup (s : cstring) : first_char s = s !! O.
Proof. unfold first_char. apply head_lookup. Qed.

Lemma last_char_lookup (s : cstring) : last_char s = s !! pred (length s).
Proof. unfold last_char. apply last_lookup. Qed.

(** A separator at either end of the string hides every occurrence. *)
Lemma ipset_strchr_boundary (s : cstring) (c : ascii) :
  first_char s = Some c \/ last_char s = Some c -> ipset_strchr s [c] = None.
Proof.
  intros H. rewrite ipset_strchr_single. destruct (strchr s c); [|reflexivity].
  destruct H as [H|H]; apply char_is_true in H; rewrite H; simpl;
    [reflexivity | rewrite andb_false_r; reflexivity].
Qed.

(** Otherwise the first occurrence is returned, and it is interior. *)
Lemma ipset_strchr_first (s : cstring) (c : ascii) (i : nat) :
  s !! i = Some c -> (forall j, (j < i)%nat -> s !! j <> Some c) ->
  first_char s <> Some c -> last_char s <> Some c ->
  ipset_strchr s [c] = Some i /\ (0 < i)%nat /\ (S i < length s)%nat.
Proof.
  intros Hi Hfirst Hf Hl. rewrite ipset_strchr_single.
  rewrite (proj2 (strchr_Some s c i) (conj Hi Hfirst)).
  apply char_is_false in Hf as Hf'. apply char_is_false in Hl as Hl'.
  rewrite Hf', Hl'. simpl. split; [reflexivity|].
  rewrite first_char_lookup in Hf. rewrite last_char_lookup in Hl.
  apply lookup_lt_Some in Hi as Hlen.
  split.
  - destruct i; [congruence | lia].
  - destruct (decide (S i = length s)) as [E|E]; [|lia].
    exfalso. apply Hl. rewrite <- E. simpl. exact Hi.
Qed.

(** C1, as amended.  If the separator [c] occurs in [s] only as the first
    or the last character, [ipset_strchr] returns none.  If [s] neither
    starts nor ends with [c], [ipset_strchr] returns the first position
    at which [c] occurs, and that position is interior.  If [s] starts or
    ends with [c], [ipset_strchr] returns none whatever [s] holds in
    between. *)
Theorem C1_find_respects_boundaries (s : cstring) (c : ascii) :
  ((forall i, s !! i = Some c -> i = O \/ S i = length s) ->
   ipset_strchr s [c] = None)
  /\ (forall i, s !! i = Some c -> (forall j, (j < i)%nat -> s !! j <> Some c) ->
      first_char s <> Some c -> last_char s <> Some c ->
      ipset_strchr s [c] = Some i /\ (0 < i)%nat /\ (S i < length s)%nat)
  /\ (first_char s = Some c \/ last_char s = Some c -> ipset_strchr s [c] = None).
Proof.
  split; [|split].
  - intros Honly. rewrite ipset_strchr_single.
    destruct (strchr s c) as [m|] eqn:Em; [|reflexivity].
    apply strchr_Some in Em as [Hm _].
    destruct (Honly m Hm) as [-> | Hlast].
    + rewrite first_char_lookup, Hm. simpl. rewrite chr_eqb_refl. reflexivity.
    + rewrite last_char_lookup, <- Hlast. simpl. rewrite Hm. simpl.
      rewrite chr_eqb_refl, andb_false_r. reflexivity.
  - apply ipset_strchr_first.
  - apply ipset_strchr_boundary.
Qed.

Lemma C1_find_respects_boundaries_witness :
  ipset_strchr (cstr "a,b,c") [","%char] = Some 1%nat
  /\ ipset_strchr (cstr ",ab") [","%char] = None.
Proof.
  split.
  - apply (proj1 (proj2 (C1_find_respects_boundaries (cstr "a,b,c") ","%char)) 1%nat).
    + reflexivity.
    + intros j Hj. assert (j = O) as -> by lia. discriminate.
    + discriminate.
    + discriminate.
  - apply (proj1 (C1_find_respects_boundaries (cstr ",ab") ","%char)).
    intros i Hi. destruct i as [|[|[|i]]]; simpl in Hi; try discriminate. left; reflexivity.
Defined.

(** C1 as stated fails: in "-1-2" the separator '-' occurs at the interior
    position 2, and because it also occurs at the first position
    [ipset_strchr] returns none, not the interior position. *)
Lemma C1_interior_hidden_by_boundary :
  cstr "-1-2" !! 2%nat = Some "-"%char
  /\ (0 < 2 < length (cstr "-1-2") - 1)%nat
  /\ ipset_strchr (cstr "-1-2") ["-"%char] = None
  /\ ipset_strchr (cstr "-1-2") ["-"%char] <> Some 2%nat.
Proof. vm_compute. repeat split; try lia; discriminate. Qed.

(** ** Splitting at a separator *)


Lemma free_ofb_spec (c : ascii) (s : cstring) : free_ofb c s = true <-> free_of c s.
Proof.
  unfold free_of. induction s as [|x s IH]; simpl.
  - split; [intros _ i; rewrite lookup_nil; discriminate | reflexivity].
  - rewrite andb_true_iff, negb_true_iff, chr_eqb_neq, IH. split.
    + intros [Hx Hs] [|i]; simpl; [congruence | apply Hs].
    + intros H. split; [intros ->; apply (H O); reflexivity | intros i; apply (H (S i))].
Qed.

Lemma ipset_strchr_free (s : cstring) (c : ascii) :
  free_of c s -> ipset_strchr s [c] = None.
Proof.
  intros H. rewrite ipset_strchr_single.
  rewrite (proj2 (strchr_None s c) H). reflexivity.
Qed.

Lemma last_char_app_cons (s1 s2 : cstring) (c : ascii) :
  s2 <> [] -> last_char (s1 ++ c :: s2) = last_char s2.
Proof.
  intros H. unfold last_char. rewrite last_app_cons, last_cons.
  destruct (last s2) eqn:E; [reflexivity|].
  apply last_None in E. contradiction.
Qed.

(** A separator between a non-empty part free of it and a non-empty rest
    that does not end with it is found, and the split yields the two. *)
Lemma ipset_strchr_split (s1 s2 : cstring) (c : ascii) :
  free_of c s1 -> s1 <> [] -> s2 <> [] -> last_char s2 <> Some c ->
  ipset_strchr (s1 ++ c :: s2) [c] = Some (length s1)
  /\ split_head (s1 ++ c :: s2) (length s1) = s1
  /\ split_tail (s1 ++ c :: s2) (length s1) = s2.
Proof.
  intros Hfree Hne1 Hne2 Hlast. split; [|split].
  - apply ipset_strchr_first.
    + rewrite lookup_app_r by lia. rewrite Nat.sub_diag. reflexivity.
    + intros j Hj. rewrite lookup_app_l by exact Hj. apply Hfree.
    + destruct s1 as [|x s1]; [contradiction|]. simpl.
      intros [= ->]. apply (Hfree O). reflexivity.
    + rewrite last_char_app_cons by exact Hne2. exact Hlast.
  - unfold split_head. rewrite take_app_length. reflexivity.
  - unfold split_tail. rewrite <- (Nat.add_1_r (length s1)), <- drop_drop.
    rewrite drop_app_length. reflexivity.
Qed.

(** The same for a rest that is free of the separator. *)
Lemma ipset_strchr_split_free (s1 s2 : cstring) (c : ascii) :
  free_of c s1 -> s1 <> [] -> s2 <> [] -> free_of c s2 ->
  ipset_strchr (s1 ++ c :: s2) [c] = Some (length s1)
  /\ split_head (s1 ++ c :: s2) (length s1) = s1
  /\ split_tail (s1 ++ c :: s2) (length s1) = s2.
Proof.
  intros Hfree Hne1 Hne2 Hfree2. apply ipset_strchr_split; try assumption.
  rewrite last_char_lookup. apply Hfree2.
Qed.

Lemma free_of_app (c : ascii) (s1 s2 : cstring) :
  free_of c s1 -> free_of c s2 -> free_of c (s1 ++ s2).
Proof.
  intros H1 H2. apply free_ofb_spec. unfold free_ofb. rewrite forallb_app.
  apply andb_true_iff. split; apply free_ofb_spec; assumption.
Qed.

(** ** The bounded numeric parser *)


Lemma digit_not_space_or_sign (c : ascii) :
  digit_value c <> None ->
  isspace c = false /\ chr_eqb c "-" = false /\ chr_eqb c "+" = false.
Proof. ascii_cases c; vm_compute; intros H; try (repeat split; reflexivity); congruence. Qed.

Lemma is_digit_of_value (base : Z) (c : ascii) :
  is_digit_of base c = true -> digit_in_base base c = Some (digit_of c).
Proof.
  unfold is_digit_of, digit_in_base, digit_of.
  destruct (digit_value c) as [d|]; [|discriminate].
  destruct (d <? base); [reflexivity | discriminate].
Qed.

Lemma is_digit_of_false (base : Z) (c : ascii) :
  is_digit_of base c = false -> digit_in_base base c = None.
Proof. unfold is_digit_of. destruct (digit_in_base base c); [discriminate | reflexivity]. Qed.

Lemma is_digit_of_plain (base : Z) (c : ascii) :
  is_digit_of base c = true ->
  isspace c = false /\ chr_eqb c "-" = false /\ chr_eqb c "+" = false.
Proof.
  intros H. apply digit_not_space_or_sign.
  unfold is_digit_of, digit_in_base in H. destruct (digit_value c); [discriminate | discriminate H].
Qed.

Lemma octal_digit_not_x (c : ascii) :
  is_digit_of 8 c = true -> chr_eqb c "x" || chr_eqb c "X" = false.
Proof. ascii_cases c; vm_compute; congruence. Qed.


Lemma strto_digits_app (base : Z) (ds t : cstring) (acc : Z) (n : nat) :
  forallb (is_digit_of base) ds = true -> ends_digits base t ->
  strto_digits base (ds ++ t) acc n =
  (fold_left (fun a c => a * base + digit_of c) ds acc, (n + length ds)%nat).
Proof.
  revert acc n. induction ds as [|d ds IH]; intros acc n Hds Ht; simpl.
  - rewrite Nat.add_0_r. destruct t as [|c t]; [reflexivity|].
    simpl. rewrite (is_digit_of_false _ _ Ht). reflexivity.
  - simpl in Hds. apply andb_prop in Hds as [Hd Hds].
    rewrite (is_digit_of_value _ _ Hd). rewrite IH by assumption.
    f_equal. lia.
Qed.

Lemma has_0x_not_0 (c : ascii) (r : cstring) :
  chr_eqb c "0" = false -> has_0x (c :: r) = false.
Proof. intros H. destruct r as [|x [|h r]]; simpl; rewrite ?H; reflexivity. Qed.

(** [strto_core] on a string that starts with neither white space nor a
    sign. *)
Lemma strto_core_plain (base : Z) (c : ascii) (r : cstring) :
  isspace c = false -> chr_eqb c "-" = false -> chr_eqb c "+" = false ->
  strto_core base (c :: r) =
  let s := c :: r in
  let base' :=
    if base =? 0 then
      if has_0x s then 16 else if starts_with_0 s then 8 else 10
    else base in
  let pre := if ((base =? 0) || (base =? 16)) && has_0x s then 2%nat else O in
  let '(v, n) := strto_digits base' (drop pre s) 0 O in
  match n with
  | O => None
  | _ => Some (false, v, (pre + n)%nat)
  end.
Proof.
  intros Hsp Hm Hp. unfold strto_core. cbn [skip_space]. rewrite Hsp.
  cbn [drop]. rewrite Hm, Hp. cbn [drop]. reflexivity.
Qed.

(** [strto_core] with base 0 reads a valid numeral as the number it
    denotes and stops right behind it. *)
Lemma strto_core_numeral (n : numeral) (t : cstring) :
  numeral_valid n = true ->
  match t with
  | [] => True
  | _ :: _ => trails_numeral n t = true
  end ->
  strto_core 0 (numeral_string n ++ t) =
  Some (false, numeral_value n, length (numeral_string n)).
Proof.
  intros Hv Ht.
  assert (ends_digits (numeral_base n) t) as Hend.
  { destruct t as [|c t]; [exact I|]. simpl.
    cbn [trails_numeral] in Ht. apply andb_prop in Ht as [Ht _].
    destruct (is_digit_of (numeral_base n) c); [discriminate | reflexivity]. }
  destruct n as [ds | x ds | ds]; simpl in Hv, Hend |- *.
  - (* decimal *)
    destruct ds as [|d ds]; [discriminate|].
    simpl in Hv. apply andb_prop in Hv as [Hds H0].
    apply negb_true_iff in H0.
    pose proof Hds as Hds'. apply andb_prop in Hds' as [Hd _].
    destruct (is_digit_of_plain _ _ Hd) as (Hsp & Hm & Hp).
    change ((d :: ds) ++ t) with (d :: (ds ++ t)).
    rewrite strto_core_plain by assumption.
    cbn zeta. rewrite (has_0x_not_0 _ _ H0).
    change (starts_with_0 (d :: ds ++ t)) with (chr_eqb d "0"). rewrite H0.
    cbn [Z.eqb orb andb drop]. rewrite ?drop_0.
    change (d :: ds ++ t) with ((d :: ds) ++ t).
    rewrite (strto_digits_app 10 (d :: ds) t 0 O) by (simpl; assumption).
    simpl length. reflexivity.
  - (* hexadecimal *)
    apply andb_prop in Hv as [Hv Hds]. apply andb_prop in Hv as [Hx Hne].
    destruct ds as [|h ds]; [discriminate|].
    pose proof Hds as Hds'. simpl in Hds'. apply andb_prop in Hds' as [Hh _].
    rewrite strto_core_plain by reflexivity.
    assert (has_0x ("0"%char :: x :: (h :: ds) ++ t) = true) as H0x.
    { simpl. rewrite Hx. unfold is_digit_of in Hh.
      destruct (digit_in_base 16 h); [reflexivity | discriminate]. }
    cbn zeta. rewrite H0x. cbn [Z.eqb orb andb drop]. rewrite ?drop_0.
    rewrite (strto_digits_app 16 (h :: ds) t 0 O) by assumption.
    simpl length. reflexivity.
  - (* octal *)
    rewrite strto_core_plain by reflexivity.
    assert (has_0x ("0"%char :: ds ++ t) = false) as H0x.
    { destruct ds as [|d ds].
      - destruct t as [|c [|h t]]; try reflexivity.
        cbn [trails_numeral continues_as_hexadecimal] in Ht.
        apply andb_prop in Ht as [_ Ht]. apply negb_true_iff in Ht.
        unfold is_digit_of in Ht. cbn [app has_0x].
        change (chr_eqb "0" "0") with true. cbn [andb]. exact Ht.
      - simpl in Hv. apply andb_prop in Hv as [Hd _].
        apply octal_digit_not_x in Hd.
        destruct (ds ++ t) as [|h r] eqn:E; simpl; rewrite ?E; try reflexivity.
        rewrite Hd. reflexivity. }
    cbn zeta. rewrite H0x. cbn [Z.eqb orb andb drop starts_with_0]. rewrite ?drop_0.
    change (chr_eqb "0" "0") with true. cbv iota.
    change ("0"%char :: ds ++ t) with (("0"%char :: ds) ++ t).
    rewrite (strto_digits_app 8 ("0"%char :: ds) t 0 O) by (simpl; assumption).
    simpl length. reflexivity.
Qed.

Lemma numeral_string_nonempty (n : numeral) :
  numeral_valid n = true -> (0 < length (numeral_string n))%nat.
Proof.
  destruct n as [[|d ds] | x ds | ds]; simpl; intros H; try discriminate; lia.
Qed.

(** [strtoull], base 0, on a numeral that fits in 64 bits. *)
Lemma strtoull_numeral (n : numeral) (t : cstring) :
  numeral_valid n = true ->
  match t with
  | [] => True
  | _ :: _ => trails_numeral n t = true
  end ->
  numeral_value n <= ULLONG_MAX ->
  strtoull (numeral_string n ++ t) 0 =
  {| number := numeral_value n; endp := length (numeral_string n); erange := false |}.
Proof.
  intros Hv Ht Hfit. unfold strtoull. rewrite strto_core_numeral by assumption.
  destruct (ULLONG_MAX <? numeral_value n) eqn:E; [apply Z.ltb_lt in E; lia | reflexivity].
Qed.

(** ... and on one that does not. *)
Lemma strtoull_numeral_overflow (n : numeral) (t : cstring) :
  numeral_valid n = true ->
  match t with
  | [] => True
  | _ :: _ => trails_numeral n t = true
  end ->
  ULLONG_MAX < numeral_value n ->
  strtoull (numeral_string n ++ t) 0 =
  {| number := ULLONG_MAX; endp := length (numeral_string n); erange := true |}.
Proof.
  intros Hv Ht Hfit. unfold strtoull. rewrite strto_core_numeral by assumption.
  destruct (ULLONG_MAX <? numeral_value n) eqn:E; [reflexivity | apply Z.ltb_ge in E; lia].
Qed.


(** [string_to_number_ll] on numerals: in range, out of range, and
    followed by something that is not a digit. *)
Lemma string_to_number_ll_numeral (session : ipset_session) (n : numeral)
    (min max ret : Z) :
  numeral_valid n = true ->
  (numeral_value n <= ULLONG_MAX -> min <= numeral_value n ->
   max = 0 \/ numeral_value n <= max ->
   string_to_number_ll session (numeral_string n) min max ret
   = (0, numeral_value n, session))
  /\ (ULLONG_MAX < numeral_value n \/ numeral_value n < min
      \/ (max <> 0 /\ max < numeral_value n) ->
      string_to_number_ll session (numeral_string n) min max ret
      = (-1, ret, reported session (out_of_range_report (numeral_string n) min max)))
  /\ (forall t, trails_numeral n t = true -> numeral_value n <= ULLONG_MAX ->
      string_to_number_ll session (numeral_string n ++ t) min max ret
      = (-1, ret, reported session
                    (SyntaxError (Msg_invalid_number (numeral_string n ++ t))))).
Proof.
  intros Hv. pose proof (numeral_string_nonempty n Hv) as Hlen.
  split; [|split].
  - intros Hfit Hmin Hmax. unfold string_to_number_ll.
    pose proof (strtoull_numeral n [] Hv I Hfit) as Hr.
    rewrite app_nil_r in Hr. rewrite Hr.
    cbn [endp number erange]. unfold strlen.
    rewrite Nat.eqb_refl.
    replace (length (numeral_string n) =? 0)%nat with false
      by (symmetry; apply Nat.eqb_neq; lia).
    replace (min <=? numeral_value n) with true by (symmetry; apply Z.leb_le; lia).
    replace ((max =? 0) || (numeral_value n <=? max)) with true.
    + reflexivity.
    + symmetry. apply orb_true_iff. destruct Hmax as [-> | H]; [left; reflexivity|].
      right. apply Z.leb_le. exact H.
  - intros Hout. unfold string_to_number_ll, out_of_range_report, nonzero.
    destruct (Z_lt_le_dec ULLONG_MAX (numeral_value n)) as [Hbig | Hfit].
    + pose proof (strtoull_numeral_overflow n [] Hv I Hbig) as Hr.
      rewrite app_nil_r in Hr. rewrite Hr.
      cbn [endp number erange]. cbn [negb].
      rewrite !andb_false_r. cbn [andb orb].
      destruct (max =? 0); reflexivity.
    + pose proof (strtoull_numeral n [] Hv I Hfit) as Hr.
      rewrite app_nil_r in Hr. rewrite Hr.
      cbn [endp number erange]. unfold strlen.
      rewrite Nat.eqb_refl.
      replace (length (numeral_string n) =? 0)%nat with false
        by (symmetry; apply Nat.eqb_neq; lia).
      cbn [negb andb orb].
      destruct Hout as [H | [H | [Hmax H]]]; [lia | |].
      * replace (min <=? numeral_value n) with false by (symmetry; apply Z.leb_gt; lia).
        cbn [andb]. destruct (max =? 0); reflexivity.
      * replace (max =? 0) with false by (symmetry; apply Z.eqb_neq; exact Hmax).
        replace (numeral_value n <=? max) with false by (symmetry; apply Z.leb_gt; lia).
        rewrite andb_false_r. reflexivity.
  - intros t Ht Hfit. destruct t as [|c t]; [discriminate Ht|].
    unfold string_to_number_ll.
    rewrite strtoull_numeral by assumption.
    cbn [endp number erange]. unfold strlen. rewrite length_app. cbn [length].
    replace (length (numeral_string n) =? length (numeral_string n) + S (length t))%nat
      with false by (symmetry; apply Nat.eqb_neq; lia).
    reflexivity.
Qed.

(** C5, as amended.  For every valid decimal, 0x-prefixed hexadecimal or
    leading-zero octal numeral and bounds [min] and [max], where [max = 0]
    stands for no upper bound: when the value fits in 64 bits and lies
    within the bounds, [string_to_number_ll] returns exactly the value;
    when the value exceeds 64 bits or lies outside the bounds, it fails
    with a range error naming the range; and when such a numeral that
    fits in 64 bits is followed by trailing characters, the first of
    which is not a digit of its base, it fails with the not-a-number
    error.  "0x" or "0X" before a hexadecimal digit is always the prefix
    of a hexadecimal numeral, never the numeral 0 with trailing
    characters; "0x" alone and "0xg" are the numeral 0 with trailing
    characters and fail. *)
Theorem C5_bounded_numeric_parser (session : ipset_session) (n : numeral)
    (min max ret : Z) :
  numeral_valid n = true ->
  (numeral_value n <= ULLONG_MAX -> min <= numeral_value n ->
   max = 0 \/ numeral_value n <= max ->
   string_to_number_ll session (numeral_string n) min max ret
   = (0, numeral_value n, session))
  /\ (ULLONG_MAX < numeral_value n \/ numeral_value n < min
      \/ (max <> 0 /\ max < numeral_value n) ->
      string_to_number_ll session (numeral_string n) min max ret
      = (-1, ret, reported session (out_of_range_report (numeral_string n) min max)))
  /\ (forall t, trails_numeral n t = true -> numeral_value n <= ULLONG_MAX ->
      string_to_number_ll session (numeral_string n ++ t) min max ret
      = (-1, ret, reported session
                    (SyntaxError (Msg_invalid_number (numeral_string n ++ t))))).
Proof. apply string_to_number_ll_numeral. Qed.

Lemma C5_bounded_numeric_parser_witness :
  string_to_number_ll empty_session (cstr "0x1F") 0 255 0 = (0, 31, empty_session)
  /\ string_to_number_ll empty_session (cstr "0777") 0 255 0
     = (-1, 0, reported empty_session (out_of_range_report (cstr "0777") 0 255))
  /\ string_to_number_ll empty_session (cstr "12ab") 0 255 0
     = (-1, 0, reported empty_session (SyntaxError (Msg_invalid_number (cstr "12ab")))).
Proof.
  split; [|split].
  - apply (proj1 (C5_bounded_numeric_parser empty_session
                    (Hexadecimal "x" (cstr "1F")) 0 255 0 eq_refl)).
    + vm_compute; discriminate.
    + vm_compute; discriminate.
    + right. vm_compute; discriminate.
  - apply (proj1 (proj2 (C5_bounded_numeric_parser empty_session
                    (Octal (cstr "777")) 0 255 0 eq_refl))).
    right. right. split; [discriminate | reflexivity].
  - apply (proj2 (proj2 (C5_bounded_numeric_parser empty_session
                    (Decimal (cstr "12")) 0 255 0 eq_refl)) (cstr "ab")).
    + reflexivity.
    + vm_compute; discriminate.
Defined.

(** C5 as stated fails.  "99999999999999999999x" has trailing non-numeric
    characters, yet with the bounds 0..255 of the 8-bit parser it fails
    with the range error, not with the not-a-number error: its digits
    overflow 64 bits and [strtoull] leaves [errno] at [ERANGE]. *)
Lemma C5_overflow_before_trailing_is_range_error :
  string_to_number_ll empty_session (cstr "99999999999999999999x") 0 255 0
  = (-1, 0, reported empty_session
              (out_of_range_report (cstr "99999999999999999999x") 0 255))
  /\ string_to_number_ll empty_session (cstr "99999999999999999999x") 0 255 0
     <> (-1, 0, reported empty_session
                  (SyntaxError (Msg_invalid_number (cstr "99999999999999999999x")))).
Proof. split; [vm_compute; reflexivity | vm_compute; discriminate]. Qed.

(** The strings the hexadecimal prefix makes special: "0x1" is a
    numeral, "0x" and "0xg" are 0 with trailing characters. *)
Example lone_zero_before_x :
  string_to_number_ll empty_session (cstr "0x1") 0 255 0 = (0, 1, empty_session)
  /\ string_to_number_ll empty_session (cstr "0x") 0 255 0
     = (-1, 0, reported empty_session (SyntaxError (Msg_invalid_number (cstr "0x"))))
  /\ string_to_number_ll empty_session (cstr "0xg") 0 255 0
     = (-1, 0, reported empty_session (SyntaxError (Msg_invalid_number (cstr "0xg")))).
Proof.
  split; [|split].
  - apply (proj1 (string_to_number_ll_numeral empty_session
                    (Hexadecimal "x" (cstr "1")) 0 255 0 eq_refl));
      [vm_compute; discriminate | vm_compute; discriminate | right; vm_compute; discriminate].
  - apply (proj2 (proj2 (string_to_number_ll_numeral empty_session
                    (Octal []) 0 255 0 eq_refl)) (cstr "x"));
      [reflexivity | vm_compute; discriminate].
  - apply (proj2 (proj2 (string_to_number_ll_numeral empty_session
                    (Octal []) 0 255 0 eq_refl)) (cstr "xg"));
      [reflexivity | vm_compute; discriminate].
Qed.

(** ** Ethernet addresses *)

Lemma hex_digit_facts (c : ascii) :
  is_digit_of 16 c = true ->
  chr_eqb c "x" || chr_eqb c "X" = false /\ 0 <= digit_of c < 16.
Proof. ascii_cases c; vm_compute; intros H; try discriminate H; repeat split; congruence. Qed.

Lemma colon_not_hex : is_digit_of 16 ":" = false.
Proof. reflexivity. Qed.

(** [strtol], base 16, on two hexadecimal digits followed by something
    else. *)
Lemma strtol_two_hex_digits (a b : ascii) (rest : cstring) :
  is_digit_of 16 a = true -> is_digit_of 16 b = true -> ends_digits 16 rest ->
  strtol (a :: b :: rest) 16 =
  {| number := digit_of a * 16 + digit_of b; endp := 2; erange := false |}.
Proof.
  intros Ha Hb Hrest.
  destruct (is_digit_of_plain _ _ Ha) as (Hsp & Hm & Hp).
  destruct (hex_digit_facts _ Ha) as [_ Hda].
  destruct (hex_digit_facts _ Hb) as [Hbx Hdb].
  unfold strtol. rewrite strto_core_plain by assumption.
  assert (has_0x (a :: b :: rest) = false) as H0x.
  { destruct rest as [|h r]; [reflexivity|]. simpl. rewrite Hbx.
    rewrite andb_false_r. reflexivity. }
  cbn zeta. rewrite H0x. cbn [Z.eqb orb andb drop]. rewrite ?drop_0.
  change (a :: b :: rest) with ([a; b] ++ rest).
  rewrite (strto_digits_app 16 [a; b] rest 0 O)
    by (simpl; try rewrite Ha, Hb; auto).
  cbn [fold_left length Nat.add]. rewrite Z.mul_0_l, Z.add_0_l.
  unfold LONG_MIN, LONG_MAX.
  destruct (digit_of a * 16 + digit_of b <? -9223372036854775808) eqn:E1;
    [apply Z.ltb_lt in E1; lia|].
  destruct (9223372036854775807 <? digit_of a * 16 + digit_of b) eqn:E2;
    [apply Z.ltb_lt in E2; lia|].
  reflexivity.
Qed.

(** The loop accepts the octets of a canonical string and yields their
    values. *)
Lemma ether_octets_canonical (n : nat) :
  forall (pre s : cstring) (i : nat),
    canonical_octets n s = true -> length pre = (i * 3)%nat ->
    ether_octets (pre ++ s) i n = Some (octet_values n s).
Proof.
  induction n as [|n IH]; intros pre s i Hc Hpre; [discriminate Hc|].
  destruct s as [|a [|b rest]]; try (destruct n; discriminate Hc).
  assert (is_digit_of 16 a = true /\ is_digit_of 16 b = true
          /\ ((n = O /\ rest = [])
              \/ exists n' s', n = S n' /\ rest = ":"%char :: s'
                               /\ canonical_octets (S n') s' = true))
    as (Ha & Hb & Hrest).
  { destruct n as [|n'].
    - destruct rest; [|discriminate Hc]. simpl in Hc.
      apply andb_prop in Hc as [Ha Hb]. auto.
    - destruct rest as [|c s']; [discriminate Hc|].
      cbn [canonical_octets] in Hc.
      apply andb_prop in Hc as [Hc Hs]. apply andb_prop in Hc as [Hc Hcolon].
      apply andb_prop in Hc as [Ha Hb]. apply chr_eqb_eq in Hcolon. subst c.
      split; [exact Ha|]. split; [exact Hb|]. right. eauto. }
  assert (ends_digits 16 rest) as Hend.
  { destruct Hrest as [[_ ->] | (n' & s' & _ & -> & _)]; [exact I | exact colon_not_hex]. }
  cbn [ether_octets]. rewrite <- Hpre, drop_app_length.
  rewrite strtol_two_hex_digits by assumption. cbn [endp number].
  destruct (hex_digit_facts _ Ha) as [_ Hda].
  destruct (hex_digit_facts _ Hb) as [_ Hdb].
  assert (ether_end_ok (pre ++ a :: b :: rest) (length pre + 2) = true) as Hok.
  { unfold ether_end_ok. rewrite lookup_app_r by lia.
    replace (length pre + 2 - length pre)%nat with 2%nat by lia.
    destruct Hrest as [[_ ->] | (n' & s' & _ & -> & _)]; reflexivity. }
  rewrite Hok. cbn [Nat.eqb andb].
  replace (0 <=? digit_of a * 16 + digit_of b) with true by (symmetry; apply Z.leb_le; lia).
  replace (digit_of a * 16 + digit_of b <=? 255) with true by (symmetry; apply Z.leb_le; lia).
  cbn [andb octet_values].
  destruct Hrest as [[-> ->] | (n' & s' & -> & -> & Hs')].
  - reflexivity.
  - replace (pre ++ a :: b :: ":"%char :: s') with ((pre ++ [a; b; ":"%char]) ++ s')
      by (rewrite <- app_assoc; reflexivity).
    rewrite (IH (pre ++ [a; b; ":"%char]) s' (S i) Hs')
      by (rewrite length_app; simpl; lia).
    reflexivity.
Qed.

Lemma canonical_octets_length (n : nat) :
  forall s : cstring, canonical_octets n s = true -> length s = (3 * n - 1)%nat.
Proof.
  induction n as [|n IH]; intros s Hc; [discriminate Hc|].
  destruct n as [|n'].
  - destruct s as [|a [|b [|c s]]]; try discriminate Hc. reflexivity.
  - destruct s as [|a [|b [|c s]]]; try discriminate Hc.
    cbn [canonical_octets] in Hc. apply andb_prop in Hc as [_ Hs].
    apply IH in Hs. cbn [length]. lia.
Qed.

(** Every canonical string is accepted and its six bytes are stored. *)
Lemma ipset_parse_ether_canonical (session : ipset_session) (opt : ipset_opt)
    (str : cstring) :
  canonical_ether str = true ->
  ipset_parse_ether session opt str
  = ipset_session_data_set session opt (VEther (octet_values ETH_ALEN str)).
Proof.
  intros Hc. unfold ipset_parse_ether.
  assert (strlen str = 17%nat) as Hlen
    by (apply (canonical_octets_length 6 str Hc)).
  rewrite Hlen. cbn [ETH_ALEN Nat.mul Nat.add Nat.sub Nat.eqb negb].
  pose proof (ether_octets_canonical 6 [] str O Hc eq_refl) as H.
  cbn [app] in H. unfold ETH_ALEN. rewrite H. reflexivity.
Qed.

(** C9, the code at the failing input.  " 1:+2:-0:00:4d:5e" has 17
    characters and is not of the canonical form: its first three octets
    hold a space, a plus sign and a minus sign.  [strtol] skips white
    space and takes a sign, so [ipset_parse_ether] accepts the string and
    stores the address 01:02:00:00:4d:5e. *)
Theorem C9_ether_accepts_space_and_sign (session : ipset_session) :
  canonical_ether (cstr " 1:+2:-0:00:4d:5e") = false
  /\ ipset_parse_ether session IPSET_OPT_ETHER (cstr " 1:+2:-0:00:4d:5e")
     = ipset_session_data_set session IPSET_OPT_ETHER (VEther [1; 2; 0; 0; 77; 94]).
Proof.
  split; [reflexivity|]. unfold ipset_parse_ether.
  assert (ether_octets (cstr " 1:+2:-0:00:4d:5e") 0 ETH_ALEN = Some [1; 2; 0; 0; 77; 94])
    as -> by (vm_compute; reflexivity).
  reflexivity.
Qed.

(** ** ICMP type and code *)

Lemma digit_of_nonneg (c : ascii) : 0 <= digit_of c.
Proof. ascii_cases c; vm_compute; congruence. Qed.

Lemma digits_value_nonneg (base : Z) (ds : cstring) : 0 <= base -> 0 <= digits_value base ds.
Proof.
  intros Hb. unfold digits_value.
  assert (forall acc, 0 <= acc -> 0 <= fold_left (fun a c => a * base + digit_of c) ds acc) as H.
  { induction ds as [|d ds IH]; intros acc Hacc; simpl; [exact Hacc|].
    apply IH. pose proof (digit_of_nonneg d). nia. }
  apply H. lia.
Qed.

Lemma numeral_value_nonneg (n : numeral) : 0 <= numeral_value n.
Proof. apply digits_value_nonneg. destruct n; simpl; lia. Qed.

Lemma digit_not_separator (c : ascii) :
  digit_value c <> None ->
  chr_eqb c "/" = false /\ chr_eqb c "-" = false /\ chr_eqb c "," = false
  /\ chr_eqb c ":" = false.
Proof. ascii_cases c; vm_compute; intros H; try (repeat split; reflexivity); congruence. Qed.

Lemma is_digit_of_not_separator (base : Z) (c sep : ascii) :
  sep = "/"%char \/ sep = "-"%char \/ sep = ","%char \/ sep = ":"%char ->
  is_digit_of base c = true -> negb (chr_eqb c sep) = true.
Proof.
  intros Hsep H.
  assert (digit_value c <> None) as Hd.
  { unfold is_digit_of, digit_in_base in H. destruct (digit_value c); [discriminate | discriminate H]. }
  destruct (digit_not_separator c Hd) as (H1 & H2 & H3 & H4).
  destruct Hsep as [-> | [-> | [-> | ->]]]; apply negb_true_iff; assumption.
Qed.

Lemma digits_free_of (base : Z) (sep : ascii) (ds : cstring) :
  sep = "/"%char \/ sep = "-"%char \/ sep = ","%char \/ sep = ":"%char ->
  forallb (is_digit_of base) ds = true -> free_ofb sep ds = true.
Proof.
  intros Hsep. unfold free_ofb. induction ds as [|d ds IH]; simpl; [reflexivity|].
  intros H. apply andb_prop in H as [Hd Hds].
  rewrite (is_digit_of_not_separator base d sep Hsep Hd). simpl. apply IH, Hds.
Qed.

(** A numeral holds none of the separators. *)
Lemma numeral_free_of (sep : ascii) (n : numeral) :
  sep = "/"%char \/ sep = "-"%char \/ sep = ","%char \/ sep = ":"%char ->
  numeral_valid n = true -> free_of sep (numeral_string n).
Proof.
  intros Hsep Hv. apply free_ofb_spec.
  assert (negb (chr_eqb "0" sep) = true) as H0
    by (destruct Hsep as [-> | [-> | [-> | ->]]]; reflexivity).
  destruct n as [ds | x ds | ds]; cbn [numeral_valid] in Hv;
    cbn [numeral_string]; unfold free_ofb; cbn [forallb].
  - apply andb_prop in Hv as [Hv _]. apply andb_prop in Hv as [_ Hds].
    apply (digits_free_of 10); assumption.
  - apply andb_prop in Hv as [Hv Hds]. apply andb_prop in Hv as [Hx _].
    rewrite H0.
    assert (negb (chr_eqb x sep) = true) as ->.
    { apply orb_prop in Hx as [Hx | Hx]; apply chr_eqb_eq in Hx; subst x;
        destruct Hsep as [-> | [-> | [-> | ->]]]; reflexivity. }
    apply (digits_free_of 16); assumption.
  - rewrite H0. apply (digits_free_of 8); assumption.
Qed.

Lemma numeral_string_not_nil (n : numeral) : numeral_valid n = true -> numeral_string n <> [].
Proof.
  intros Hv E. pose proof (numeral_string_nonempty n Hv) as H. rewrite E in H. simpl in H. lia.
Qed.

(** [string_to_u8] on a numeral of at most 255. *)
Lemma string_to_u8_numeral (session : ipset_session) (n : numeral) :
  numeral_valid n = true -> numeral_value n <= 255 ->
  string_to_u8 session (numeral_string n) = (0, numeral_value n, session).
Proof.
  intros Hv Hle. unfold string_to_u8.
  pose proof (numeral_value_nonneg n) as Hnn.
  rewrite (proj1 (string_to_number_ll_numeral session n 0 255 0 Hv));
    [| unfold ULLONG_MAX; lia | lia | right; lia].
  rewrite Z.mod_small by lia. reflexivity.
Qed.

Lemma typecode_fits (t c : Z) :
  0 <= t <= 255 -> 0 <= c <= 255 -> (Z.lor (Z.shiftl t 8) c) mod 65536 = t * 256 + c.
Proof.
  intros Ht Hc.
  assert (Z.land (t * 2 ^ 8) c = 0) as Hland.
  { apply Z.bits_inj'. intros k Hk. rewrite Z.land_spec, Z.bits_0.
    destruct (Z_lt_le_dec k 8) as [Hlt | Hge].
    - rewrite Z.mul_pow2_bits_low by lia. reflexivity.
    - rewrite (Z.bits_above_log2 c k); [apply andb_false_r | lia |].
      destruct (Z.eq_dec c 0) as [-> | Hc0]; [simpl; lia|].
      apply Z.lt_le_trans with 8; [|exact Hge].
      apply Z.log2_lt_pow2; [lia | simpl; lia]. }
  rewrite Z.shiftl_mul_pow2 by lia.
  rewrite <- (Z.lxor_lor _ _ Hland), <- (Z.add_nocarry_lxor _ _ Hland).
  change (2 ^ 8) with 256. apply Z.mod_small. lia.
Qed.

(** On a numeric token "X/Y" with both halves at most 255,
    [parse_icmp_typecode] takes the half after the separator as the type
    and the half before it as the code. *)
Lemma parse_icmp_typecode_numeric (session : ipset_session) (opt : ipset_opt)
    (nx ny : numeral) (family : cstring) :
  numeral_valid nx = true -> numeral_valid ny = true ->
  numeral_value nx <= 255 -> numeral_value ny <= 255 ->
  parse_icmp_typecode session opt
    (numeral_string nx ++ "/"%char :: numeral_string ny) family
  = ipset_session_data_set session opt
      (VU16 (numeral_value ny * 256 + numeral_value nx)).
Proof.
  intros Hvx Hvy Hx Hy. unfold parse_icmp_typecode, cidr_separator.
  change IPSET_CIDR_SEPARATOR with ["/"%char].
  destruct (ipset_strchr_split_free (numeral_string nx) (numeral_string ny) "/"%char)
    as (-> & -> & ->).
  - apply numeral_free_of; auto.
  - apply numeral_string_not_nil, Hvx.
  - apply numeral_string_not_nil, Hvy.
  - apply numeral_free_of; auto.
  - rewrite (string_to_u8_numeral session ny Hvy Hy). cbn [nonzero Z.eqb negb].
    rewrite (string_to_u8_numeral session nx Hvx Hx). cbn [nonzero Z.eqb negb].
    pose proof (numeral_value_nonneg nx). pose proof (numeral_value_nonneg ny).
    rewrite typecode_fits by lia. reflexivity.
Qed.

(** C2, the code at the failing input.  On "3/1" [parse_icmp_typecode],
    and [ipset_parse_icmp] through it, succeeds and stores 259, which is
    (1<<8)|3: the number after the separator lands in the high byte.
    The value (3<<8)|1 = 769 of the type/code reading is not what is
    stored. *)
Theorem C2_icmp_typecode_of_3_slash_1 (session : ipset_session) :
  parse_icmp_typecode session IPSET_OPT_PORT (cstr "3/1") (cstr "ICMP")
  = ipset_session_data_set session IPSET_OPT_PORT (VU16 259)
  /\ ipset_parse_icmp sample_env session IPSET_OPT_PORT (cstr "3/1")
     = ipset_session_data_set session IPSET_OPT_PORT (VU16 259)
  /\ 259 = Z.lor (Z.shiftl 1 8) 3
  /\ 259 <> Z.lor (Z.shiftl 3 8) 1.
Proof. repeat split; discriminate. Qed.

(** ** Ports *)

Lemma string_to_number_ll_data (session : ipset_session) (str : cstring)
    (min max ret : Z) :
  data (snd (string_to_number_ll session str min max ret)) = data session.
Proof.
  unfold string_to_number_ll.
  repeat match goal with |- context [if ?b then _ else _] => destruct b end; reflexivity.
Qed.

Lemma string_to_u16_data (session : ipset_session) (str : cstring) :
  data (snd (string_to_u16 session str)) = data session.
Proof.
  unfold string_to_u16.
  pose proof (string_to_number_ll_data session str 0 USHRT_MAX 0) as H.
  destruct (string_to_number_ll session str 0 USHRT_MAX 0) as [[e n] s]. exact H.
Qed.

Section Ports.

Variable env : environment.

Lemma parse_portname_data (session : ipset_session) (str proto : cstring) (port : Z) :
  data (snd (parse_portname env session str port proto)) = data session.
Proof. unfold parse_portname. destruct (getservbyname env str proto); reflexivity. Qed.

(** A successful [ipset_parse_port] stores a port under the option kind
    and nothing else; a failed one leaves the store alone. *)
Lemma ipset_parse_port_data (session s' : ipset_session) (opt : ipset_opt)
    (str proto : cstring) (err : Z) :
  ipset_parse_port env session opt str proto = (err, s') ->
  (err = 0 /\ exists port, data s' = snd (ipset_data_set (data session) opt (VU16 port)))
  \/ (err <> 0 /\ data s' = data session).
Proof.
  unfold ipset_parse_port.
  pose proof (string_to_u16_data session str) as H1.
  destruct (string_to_u16 session str) as [[e1 p1] s1]. simpl in H1.
  destruct (e1 =? 0) eqn:E1.
  - apply Z.eqb_eq in E1. subst e1. cbn. intros [= <- <-]. left.
    split; [reflexivity|]. exists p1. cbn. rewrite H1. reflexivity.
  - pose proof (parse_portname_data s1 str proto p1) as H2.
    destruct (parse_portname env s1 str p1 proto) as [[e2 p2] s2]. simpl in H2.
    destruct (e2 =? 0) eqn:E2.
    + apply Z.eqb_eq in E2. subst e2. cbn. intros [= <- <-]. left.
      split; [reflexivity|]. exists p2. cbn. rewrite H2, H1. reflexivity.
    + rewrite E2. intros [= <- <-]. right. apply Z.eqb_neq in E2.
      split; [exact E2 | congruence].
Qed.

(** On "A-B" the range parser parses B under port-to first and A only
    after B succeeded. *)
Lemma ipset_parse_tcpudp_port_range (session : ipset_session) (opt : ipset_opt)
    (A B proto : cstring) :
  free_of "-" A -> A <> [] -> B <> [] -> last_char B <> Some "-"%char ->
  ipset_parse_tcpudp_port env session opt (A ++ "-"%char :: B) proto
  = let '(err, s1) := ipset_parse_port env session IPSET_OPT_PORT_TO B proto in
    if nonzero err then (err, s1) else ipset_parse_port env s1 opt A proto.
Proof.
  intros HA HA' HB HB'. unfold ipset_parse_tcpudp_port, range_separator.
  change IPSET_RANGE_SEPARATOR with ["-"%char].
  destruct (ipset_strchr_split A B "-"%char HA HA' HB HB') as (-> & -> & ->).
  reflexivity.
Qed.

(** C10.  On a range "A-B" the TCP/UDP port parser parses and stores the
    end B under port-to before it parses the start A.  If B parses and A
    then fails, the call returns A's error, and the store it leaves is
    the store of before the call with B's port written under port-to and
    its set-bit raised. *)
Theorem C10_port_range_not_atomic (session s1 s2 : ipset_session)
    (A B proto : cstring) (err : Z) :
  free_of "-" A -> A <> [] -> B <> [] -> last_char B <> Some "-"%char ->
  ipset_parse_port env session IPSET_OPT_PORT_TO B proto = (0, s1) ->
  ipset_parse_port env s1 IPSET_OPT_PORT A proto = (err, s2) ->
  err <> 0 ->
  ipset_parse_tcpudp_port env session IPSET_OPT_PORT (A ++ "-"%char :: B) proto
  = (err, s2)
  /\ exists port,
       data s2 = snd (ipset_data_set (data session) IPSET_OPT_PORT_TO (VU16 port))
       /\ ipset_data_get (data s2) IPSET_OPT_PORT_TO = Some (VU16 port)
       /\ ipset_data_flags_test (data s2) IPSET_OPT_PORT_TO = true.
Proof.
  intros HA HA' HB HB' HpB HpA Herr. split.
  - rewrite ipset_parse_tcpudp_port_range by assumption.
    rewrite HpB. cbn [nonzero Z.eqb negb]. exact HpA.
  - apply ipset_parse_port_data in HpB as [[_ [port Hd1]] | [Habs _]]; [|congruence].
    apply ipset_parse_port_data in HpA as [[Habs _] | [_ Hd2]]; [congruence|].
    exists port. rewrite Hd2, Hd1. split; [reflexivity|]. split.
    + unfold ipset_data_get. cbn. apply lookup_insert_eq.
    + unfold ipset_data_flags_test. cbn. apply bool_decide_eq_true.
      set_solver.
Qed.

End Ports.

Lemma C10_port_range_not_atomic_witness :
  let r := ipset_parse_tcpudp_port sample_env empty_session IPSET_OPT_PORT
             (cstr "x-90") (cstr "tcp") in
  fst r = -1
  /\ ipset_data_get (data (snd r)) IPSET_OPT_PORT_TO = Some (VU16 90)
  /\ ipset_data_get (data (snd r)) IPSET_OPT_PORT = None.
Proof.
  pose proof (C10_port_range_not_atomic sample_env empty_session
                (snd (ipset_parse_port sample_env empty_session IPSET_OPT_PORT_TO
                        (cstr "90") (cstr "tcp")))
                (snd (ipset_parse_port sample_env
                        (snd (ipset_parse_port sample_env empty_session IPSET_OPT_PORT_TO
                                (cstr "90") (cstr "tcp")))
                        IPSET_OPT_PORT (cstr "x") (cstr "tcp")))
                (cstr "x") (cstr "90") (cstr "tcp") (-1)) as H.
  destruct H as [H _].
  - apply free_ofb_spec. reflexivity.
  - discriminate.
  - discriminate.
  - discriminate.
  - reflexivity.
  - reflexivity.
  - discriminate.
  - change (cstr "x-90") with (cstr "x" ++ "-"%char :: cstr "90").
    cbv zeta. rewrite H. repeat split.
Defined.

(** ** Protocol and port *)

Section ProtoPort.

Variable env : environment.

(** When the protocol part resolves to ICMP and the stored family is not
    INET, or to ICMPv6 and the stored family is not INET6,
    [ipset_parse_proto_port] files the syntax error and returns the
    status of the protocol parse before it, which is 0. *)
Lemma proto_port_family_mismatch (session s1 : ipset_session) (opt : ipset_opt)
    (tmp a : cstring) :
  free_of ":" tmp -> tmp <> [] -> a <> [] -> last_char a <> Some ":"%char ->
  ipset_parse_proto env session IPSET_OPT_PROTO tmp = (0, s1) ->
  (data_get_u8 (data s1) IPSET_OPT_PROTO = IPPROTO_ICMP
   /\ ipset_data_family (data session) <> AF_INET
   -> ipset_parse_proto_port env session opt (tmp ++ ":"%char :: a)
      = (0, reported s1 (SyntaxError Msg_icmp_inet_only)))
  /\ (data_get_u8 (data s1) IPSET_OPT_PROTO = IPPROTO_ICMPV6
      /\ ipset_data_family (data session) <> AF_INET6
      -> ipset_parse_proto_port env session opt (tmp ++ ":"%char :: a)
         = (0, reported s1 (SyntaxError Msg_icmpv6_inet6_only))).
Proof.
  intros Ht Ht' Ha Ha' Hproto.
  unfold ipset_parse_proto_port, proto_separator.
  change IPSET_PROTO_SEPARATOR with [":"%char].
  destruct (ipset_strchr_split tmp a ":"%char Ht Ht' Ha Ha') as (-> & -> & ->).
  rewrite Hproto. cbn [nonzero Z.eqb negb]. unfold ipset_session_data.
  split; intros [Hp Hfam]; rewrite Hp; cbn [IPPROTO_ICMP IPPROTO_ICMPV6 Z.eqb Pos.eqb].
  - apply Z.eqb_neq in Hfam. rewrite Hfam. reflexivity.
  - apply Z.eqb_neq in Hfam. rewrite Hfam. reflexivity.
Qed.

End ProtoPort.

(** C6, the code at the failing input.  With the family INET6 stored,
    "icmp:3/1" makes [ipset_parse_proto_port] file "Protocol ICMP can be
    used with family INET only" and return 0, the status of a success;
    likewise "icmpv6:3/1" with the family INET stored.  No port is
    stored; the protocol is. *)
Theorem C6_family_mismatch_returns_success :
  let r := ipset_parse_proto_port sample_env session_inet6 IPSET_OPT_PORT
             (cstr "icmp:3/1") in
  let r6 := ipset_parse_proto_port sample_env session_inet IPSET_OPT_PORT
              (cstr "icmpv6:3/1") in
  fst r = 0
  /\ report (snd r) = [SyntaxError Msg_icmp_inet_only]
  /\ ipset_data_get (data (snd r)) IPSET_OPT_PORT = None
  /\ ipset_data_get (data (snd r)) IPSET_OPT_PROTO = Some (VU8 IPPROTO_ICMP)
  /\ fst r6 = 0
  /\ report (snd r6) = [SyntaxError Msg_icmpv6_inet6_only]
  /\ ipset_data_get (data (snd r6)) IPSET_OPT_PORT = None.
Proof. vm_compute. repeat split. Qed.

(** ** Calling a parser for an option already set *)

Lemma string_to_u32_numeral (session : ipset_session) (n : numeral) :
  numeral_valid n = true -> numeral_value n <= UINT_MAX ->
  string_to_u32 session (numeral_string n) = (0, numeral_value n, session).
Proof.
  intros Hv Hle. unfold string_to_u32. unfold UINT_MAX in *.
  pose proof (numeral_value_nonneg n) as Hnn.
  rewrite (proj1 (string_to_number_ll_numeral session n 0 4294967295 0 Hv));
    [| unfold ULLONG_MAX; lia | lia | right; lia].
  rewrite Z.mod_small by lia. reflexivity.
Qed.

(** For every option kind whose set-bit is raised, [ipset_call_parser]
    files "already specified" and calls the parser all the same: with the
    unsigned 32-bit parser the call returns 0 and the new number replaces
    whatever was stored. *)
Lemma ipset_call_parser_overwrites (env : environment) (session : ipset_session)
    (optstr : cstring) (opt : ipset_opt) (n : numeral) :
  numeral_valid n = true -> numeral_value n <= UINT_MAX ->
  ipset_data_flags_test (data session) opt = true ->
  let r := ipset_call_parser env session Fn_ipset_parse_uint32 optstr opt
             (numeral_string n) in
  fst r = 0
  /\ ipset_data_get (data (snd r)) opt = Some (VU32 (numeral_value n))
  /\ report (snd r) = report session ++ [SyntaxError (Msg_already_specified optstr)].
Proof.
  intros Hv Hle Hflag. unfold ipset_call_parser, ipset_session_data.
  rewrite Hflag. cbn [call_parsefn]. unfold ipset_parse_uint32.
  rewrite decide_False by discriminate.
  rewrite (string_to_u32_numeral _ n Hv Hle). cbn.
  repeat split. unfold ipset_data_get. cbn. apply lookup_insert_eq.
Qed.

(** C4, the code at the failing input.  The timeout is assigned 10
    through [ipset_call_parser] and then assigned 20 the same way.  The
    second call finds the set-bit raised and files "timeout already
    specified", yet it returns 0 and the stored timeout is 20, not 10. *)
Theorem C4_second_assignment_overwrites :
  let first := ipset_call_parser sample_env empty_session Fn_ipset_parse_uint32
                 (cstr "timeout") IPSET_OPT_TIMEOUT (cstr "10") in
  let second := ipset_call_parser sample_env (snd first) Fn_ipset_parse_uint32
                  (cstr "timeout") IPSET_OPT_TIMEOUT (cstr "20") in
  fst first = 0
  /\ ipset_data_get (data (snd first)) IPSET_OPT_TIMEOUT = Some (VU32 10)
  /\ ipset_data_flags_test (data (snd first)) IPSET_OPT_TIMEOUT = true
  /\ fst second = 0
  /\ ipset_data_get (data (snd second)) IPSET_OPT_TIMEOUT = Some (VU32 20)
  /\ report (snd second) = [SyntaxError (Msg_already_specified (cstr "timeout"))].
Proof. vm_compute. repeat split. Qed.

(** ** Addresses with a host prefix length *)

Lemma ipset_data_set_commute (d : ipset_data) (o1 o2 : ipset_opt) (v1 v2 : value) :
  o1 <> o2 ->
  snd (ipset_data_set (snd (ipset_data_set d o1 v1)) o2 v2)
  = snd (ipset_data_set (snd (ipset_data_set d o2 v2)) o1 v1).
Proof.
  intros Hne. unfold ipset_data_set. cbn [snd values bits ignored]. f_equal.
  - apply insert_insert_ne. congruence.
  - rewrite !(assoc_L (∪)). f_equal. apply (comm_L (∪)).
Qed.

Lemma ipset_session_data_set_eq (s : ipset_session) (o : ipset_opt) (v : value) :
  ipset_session_data_set s o v = (0, store_also o v s).
Proof. reflexivity. Qed.

Lemma store_also_commute (s : ipset_session) (o1 o2 : ipset_opt) (v1 v2 : value) :
  o1 <> o2 ->
  store_also o2 v2 (store_also o1 v1 s) = store_also o1 v1 (store_also o2 v2 s).
Proof.
  intros Hne. unfold store_also, ipset_session_data_set, with_data.
  cbn [snd data report ipset_data_set]. f_equal.
  apply (ipset_data_set_commute (data s) o1 o2 v1 v2 Hne).
Qed.

Section Addresses.

Variable env : environment.

Lemma get_addrinfo_loop_frame (o opt : ipset_opt) (v : value) (str : cstring)
    (family addrlen : Z) (info : list addrinfo) :
  o <> opt ->
  forall (found : nat) (err : Z) (s : ipset_session),
    get_addrinfo_loop opt str family addrlen info found err (store_also o v s)
    = let '(f, e, s') := get_addrinfo_loop opt str family addrlen info found err s in
      (f, e, store_also o v s').
Proof.
  intros Hne. induction info as [|i info IH]; intros found err s; [reflexivity|].
  cbn [get_addrinfo_loop].
  destruct (negb (ai_family i =? family) || negb (ai_addrlen i =? addrlen)); [apply IH|].
  destruct found as [|[|found]].
  - rewrite !ipset_session_data_set_eq.
    rewrite (store_also_commute s o opt v (VAddr (ai_addr i)) Hne). apply IH.
  - rewrite <- IH. reflexivity.
  - apply IH.
Qed.

(** Resolving an address under [opt] and storing a value under another
    option kind commute. *)
Lemma get_addrinfo_frame (o opt : ipset_opt) (v : value) (str : cstring)
    (family : Z) (s : ipset_session) :
  o <> opt ->
  get_addrinfo env (store_also o v s) opt str family
  = let '(e, s') := get_addrinfo env s opt str family in (e, store_also o v s').
Proof.
  intros Hne. unfold get_addrinfo, call_getaddrinfo.
  destruct (getaddrinfo env str family) as [info|]; [|reflexivity].
  rewrite (get_addrinfo_loop_frame o opt v str family _ info Hne).
  destruct (get_addrinfo_loop opt str family _ info 0 0 s) as [[f e] s'].
  destruct f; reflexivity.
Qed.

(** The plain-address variant on [h ++ "/" ++ len], where [len] is the
    host prefix length [m] of the family. *)
Lemma parse_ip_plain_host_prefix (session : ipset_session) (opt : ipset_opt)
    (h len : cstring) (m : Z) :
  h <> [] -> free_of "/" h -> free_of "-" h -> opt <> IPSET_OPT_CIDR2 ->
  (fst (default_family session) = AF_INET /\ len = cstr "32" /\ m = 32)
  \/ (fst (default_family session) <> AF_INET /\ len = cstr "128" /\ m = 128) ->
  parse_ip env session opt (h ++ "/"%char :: len) IPADDR_PLAIN
  = let '(e, s') := parse_ip env session opt h IPADDR_PLAIN in
    (e, store_also (cidr_opt_of opt) (VU8 m) s').
Proof.
  intros Hne Hslash Hdash Hopt Hfam. unfold parse_ip.
  destruct (default_family session) as [family s] eqn:Edf. cbn [fst] in Hfam.
  assert (len <> [] /\ free_of "/" len /\ free_of "-" len
          /\ string_to_cidr s len 0 m = (0, m, s)
          /\ m = (if family =? AF_INET then 32 else 128)
          /\ (if family =? AF_INET then streq ("/"%char :: len) (cstr "/32")
              else streq ("/"%char :: len) (cstr "/128")) = true)
    as (Hlen & Hlslash & Hldash & Hcidr & Hm & Hhost).
  { destruct Hfam as [(-> & -> & ->) | (Hf & -> & ->)].
    - repeat split; try discriminate; apply free_ofb_spec; reflexivity.
    - apply Z.eqb_neq in Hf. rewrite Hf.
      repeat split; try discriminate; apply free_ofb_spec; reflexivity. }
  assert (range_separator h = None) as Hr1
    by (apply ipset_strchr_free, Hdash).
  assert (cidr_separator h = None) as Hc1
    by (apply ipset_strchr_free, Hslash).
  assert (range_separator (h ++ "/"%char :: len) = None) as Hr2.
  { apply ipset_strchr_free. apply free_of_app; [exact Hdash|].
    apply free_ofb_spec. simpl. apply free_ofb_spec in Hldash. exact Hldash. }
  destruct (ipset_strchr_split_free h len "/"%char Hslash Hne Hlen Hlslash)
    as (Hc2 & Hhead & Htail).
  change (ipset_strchr (h ++ "/"%char :: len) ["/"%char])
    with (cidr_separator (h ++ "/"%char :: len)) in Hc2.
  assert (cidr_hostaddr (h ++ "/"%char :: len) family = true) as Hhostaddr.
  { unfold cidr_hostaddr. rewrite Hc2, drop_app_length. exact Hhost. }
  rewrite Hr1, Hc1, Hr2, Hc2, Hhostaddr. cbn [found orb andb negb].
  unfold parse_ipaddr. rewrite Hr1, Hc1, Hc2, Hhead, Htail.
  rewrite <- Hm, Hcidr. cbn [nonzero Z.eqb negb].
  unfold ipset_session_data_set at 1. cbn [ipset_data_set nonzero Z.eqb negb].
  unfold parse_ipaddr_addr.
  fold (cidr_opt_of opt).
  change (with_data s _) with (store_also (cidr_opt_of opt) (VU8 m) s).
  rewrite get_addrinfo_frame.
  - destruct (get_addrinfo env s opt h family) as [aerr s1].
    unfold parse_ipaddr_out.
    destruct (negb (aerr =? EINVAL)); [reflexivity|].
    destruct (nonzero aerr); reflexivity.
  - unfold cidr_opt_of. destruct (decide (opt = IPSET_OPT_IP)) as [-> | _];
      [discriminate | congruence].
Qed.

(** C7, as amended.  In the plain-address-required variant, a string
    with a host prefix length ("/32" with the family INET, stored or
    assumed; "/128" with the family INET6) returns the status of the
    plain address and leaves the same report and the same store except
    that the prefix length is stored under the companion CIDR option
    kind and its set-bit is raised. *)
Theorem C7_host_prefix_also_stores_cidr (session : ipset_session)
    (opt : ipset_opt) (h : cstring) :
  h <> [] -> free_of "/" h -> free_of "-" h -> opt <> IPSET_OPT_CIDR2 ->
  let plain := parse_ip env session opt h IPADDR_PLAIN in
  (fst (default_family session) = AF_INET ->
   let r := parse_ip env session opt (h ++ cstr "/32") IPADDR_PLAIN in
   fst r = fst plain
   /\ report (snd r) = report (snd plain)
   /\ data (snd r)
      = snd (ipset_data_set (data (snd plain)) (cidr_opt_of opt) (VU8 32))
   /\ ipset_data_get (data (snd r)) (cidr_opt_of opt) = Some (VU8 32))
  /\ (fst (default_family session) = AF_INET6 ->
      let r := parse_ip env session opt (h ++ cstr "/128") IPADDR_PLAIN in
      fst r = fst plain
      /\ report (snd r) = report (snd plain)
      /\ data (snd r)
         = snd (ipset_data_set (data (snd plain)) (cidr_opt_of opt) (VU8 128))
      /\ ipset_data_get (data (snd r)) (cidr_opt_of opt) = Some (VU8 128)).
Proof.
  intros Hne Hslash Hdash Hopt plain. subst plain. split; intros Hfam r; subst r.
  - change (h ++ cstr "/32") with (h ++ "/"%char :: cstr "32").
    rewrite (parse_ip_plain_host_prefix session opt h (cstr "32") 32)
      by (try assumption; left; auto).
    destruct (parse_ip env session opt h IPADDR_PLAIN) as [e s']. cbn.
    repeat split. apply lookup_insert_eq.
  - change (h ++ cstr "/128") with (h ++ "/"%char :: cstr "128").
    rewrite (parse_ip_plain_host_prefix session opt h (cstr "128") 128)
      by (try assumption; right; rewrite Hfam; repeat split; discriminate).
    destruct (parse_ip env session opt h IPADDR_PLAIN) as [e s']. cbn.
    repeat split. apply lookup_insert_eq.
Qed.

End Addresses.

Lemma C7_host_prefix_also_stores_cidr_witness :
  let r := ipset_parse_single_ip sample_env empty_session IPSET_OPT_IP
             (cstr "192.0.2.10/32") in
  let r6 := ipset_parse_single_ip sample_env session_inet6 IPSET_OPT_IP
              (cstr "2001:db8::1/128") in
  fst r = 0
  /\ ipset_data_get (data (snd r)) IPSET_OPT_CIDR = Some (VU8 32)
  /\ fst r6 = 0
  /\ ipset_data_get (data (snd r6)) IPSET_OPT_CIDR = Some (VU8 128).
Proof.
  assert (free_of "/" (cstr "192.0.2.10")) as H1 by (apply free_ofb_spec; reflexivity).
  assert (free_of "-" (cstr "192.0.2.10")) as H2 by (apply free_ofb_spec; reflexivity).
  assert (free_of "/" (cstr "2001:db8::1")) as H3 by (apply free_ofb_spec; reflexivity).
  assert (free_of "-" (cstr "2001:db8::1")) as H4 by (apply free_ofb_spec; reflexivity).
  destruct (C7_host_prefix_also_stores_cidr sample_env empty_session IPSET_OPT_IP
              (cstr "192.0.2.10")) as [Hv4 _]; [discriminate | exact H1 | exact H2 | discriminate |].
  destruct (C7_host_prefix_also_stores_cidr sample_env session_inet6 IPSET_OPT_IP
              (cstr "2001:db8::1")) as [_ Hv6]; [discriminate | exact H3 | exact H4 | discriminate |].
  specialize (Hv4 eq_refl). specialize (Hv6 eq_refl).
  destruct Hv4 as (Ha & _ & _ & Hb). destruct Hv6 as (Hc & _ & _ & Hd).
  unfold ipset_parse_single_ip. cbv zeta.
  change (cstr "192.0.2.10/32") with (cstr "192.0.2.10" ++ cstr "/32").
  change (cstr "2001:db8::1/128") with (cstr "2001:db8::1" ++ cstr "/128").
  split; [rewrite Ha; reflexivity|]. split; [exact Hb|].
  split; [rewrite Hc; reflexivity | exact Hd].
Defined.

(** C7 as stated fails.  Both "192.0.2.10/32" and "192.0.2.10" parse
    with status 0 and store the same address, but the results are not
    identical: the first leaves the prefix length 32 under the CIDR
    option kind, the second leaves that option kind unset. *)
Lemma C7_host_prefix_changes_store :
  let r := ipset_parse_single_ip sample_env empty_session IPSET_OPT_IP
             (cstr "192.0.2.10/32") in
  let plain := ipset_parse_single_ip sample_env empty_session IPSET_OPT_IP
                 (cstr "192.0.2.10") in
  fst r = 0 /\ fst plain = 0
  /\ ipset_data_get (data (snd r)) IPSET_OPT_IP = Some (VAddr [192; 0; 2; 10])
  /\ ipset_data_get (data (snd plain)) IPSET_OPT_IP = Some (VAddr [192; 0; 2; 10])
  /\ ipset_data_get (data (snd r)) IPSET_OPT_CIDR = Some (VU8 32)
  /\ ipset_data_flags_test (data (snd r)) IPSET_OPT_CIDR = true
  /\ ipset_data_get (data (snd plain)) IPSET_OPT_CIDR = None
  /\ ipset_data_flags_test (data (snd plain)) IPSET_OPT_CIDR = false
  /\ r <> plain.
Proof. vm_compute. repeat split; discriminate. Qed.

(** ** The set-name compatibility element *)

Lemma streq_refl (s : cstring) : streq s s = true.
Proof. induction s as [|c s IH]; simpl; [reflexivity|]. rewrite chr_eqb_refl. exact IH. Qed.

Lemma streq_eq (a b : cstring) : streq a b = true <-> a = b.
Proof.
  revert b. induction a as [|x a IH]; intros [|y b]; simpl; split; try congruence.
  - intros H. apply andb_prop in H as [Hx Hab]. apply chr_eqb_eq in Hx.
    apply IH in Hab. congruence.
  - intros [= -> ->]. rewrite chr_eqb_refl. apply streq_refl.
Qed.

(** A string with a first separator and no second one, and a triple
    whose middle field is neither "before" nor "after", are turned down
    before anything is stored. *)
Lemma name_compat_bad_shape (session : ipset_session) (opt : ipset_opt)
    (f1 rest : cstring) :
  f1 <> [] -> free_of "," f1 -> rest <> [] -> last_char rest <> Some ","%char ->
  (elem_separator rest = None
   \/ exists j, elem_separator rest = Some j
                /\ streq (split_head rest j) (cstr "before") = false
                /\ streq (split_head rest j) (cstr "after") = false) ->
  ipset_parse_name_compat session opt (f1 ++ ","%char :: rest)
  = ipset_err (name_compat_entry session) Msg_nameref_syntax.
Proof.
  intros H1 H1' Hr Hr' Hshape. unfold ipset_parse_name_compat.
  fold (name_compat_entry session).
  assert (syntax_err session Msg_before_after_already
          = (-1, reported session (SyntaxError Msg_before_after_already))) as E
    by reflexivity.
  unfold elem_separator at 1. change IPSET_ELEM_SEPARATOR with [","%char].
  destruct (ipset_strchr_split f1 rest ","%char H1' H1 Hr Hr') as (-> & _ & ->).
  assert (forall s0 : ipset_session,
             match elem_separator rest with
             | Some j =>
                 if negb (streq (split_head rest j) (cstr "before")
                          || streq (split_head rest j) (cstr "after"))
                 then ipset_err s0 Msg_nameref_syntax
                 else name_compat_store s0 opt
                        (split_head (f1 ++ ","%char :: rest) (length f1))
                        (Some (split_tail rest j))
                        (streq (split_head rest j) (cstr "before"))
             | None => ipset_err s0 Msg_nameref_syntax
             end = ipset_err s0 Msg_nameref_syntax) as Hbody.
  { intros s0. destruct Hshape as [-> | (j & -> & -> & ->)]; reflexivity. }
  unfold name_compat_entry, ipset_session_data.
  destruct (ipset_data_flags_test (data session) IPSET_OPT_NAMEREF); apply Hbody.
Qed.

(** C8, as amended.  Given "myset,before,otherset" the set-name
    compatibility parser succeeds and stores the name "myset", the
    reference name "otherset" and the before marker.  Given a triple
    whose first field is non-empty and holds no separator, whose middle
    field holds no separator and is neither "before" nor "after", and
    whose third field is non-empty and does not end with the separator,
    or given a pair of non-empty fields that hold no separator, it fails
    with the name-reference syntax error and stores nothing. *)
Theorem C8_name_compat_element (session : ipset_session) :
  (let r := ipset_parse_name_compat session IPSET_OPT_NAME
              (cstr "myset,before,otherset") in
   fst r = 0
   /\ ipset_data_get (data (snd r)) IPSET_OPT_NAME = Some (VStr (cstr "myset"))
   /\ ipset_data_get (data (snd r)) IPSET_OPT_NAMEREF = Some (VStr (cstr "otherset"))
   /\ ipset_data_get (data (snd r)) IPSET_OPT_BEFORE = Some VFlag
   /\ ipset_data_flags_test (data (snd r)) IPSET_OPT_BEFORE = true)
  /\ (forall f1 f2 f3 : cstring,
        f1 <> [] -> free_of "," f1 -> free_of "," f2 ->
        f3 <> [] -> last_char f3 <> Some ","%char ->
        f2 <> cstr "before" -> f2 <> cstr "after" ->
        ipset_parse_name_compat session IPSET_OPT_NAME
          (f1 ++ ","%char :: f2 ++ ","%char :: f3)
        = (-1, reported (name_compat_entry session) (Error Msg_nameref_syntax)))
  /\ (forall f1 f2 : cstring,
        f1 <> [] -> free_of "," f1 -> f2 <> [] -> free_of "," f2 ->
        ipset_parse_name_compat session IPSET_OPT_NAME (f1 ++ ","%char :: f2)
        = (-1, reported (name_compat_entry session) (Error Msg_nameref_syntax)))
  /\ data (name_compat_entry session) = data session.
Proof.
  split; [|split; [|split]].
  - unfold ipset_parse_name_compat, ipset_session_data.
    destruct (ipset_data_flags_test (data session) IPSET_OPT_NAMEREF);
      cbn; unfold ipset_data_get, ipset_data_flags_test; cbn;
      repeat split; try (by simplify_map_eq);
      apply bool_decide_eq_true; set_solver.
  - intros f1 f2 f3 H1 H1' H2 H3 H3' Hb Ha.
    apply name_compat_bad_shape; try assumption.
    + destruct f2; discriminate.
    + rewrite last_char_app_cons by exact H3. exact H3'.
    + destruct f2 as [|c f2].
      * left. apply (ipset_strchr_boundary (","%char :: f3) ","%char).
        left. reflexivity.
      * right. exists (length (c :: f2)).
        unfold elem_separator. change IPSET_ELEM_SEPARATOR with [","%char].
        destruct (ipset_strchr_split (c :: f2) f3 ","%char H2) as (-> & -> & _);
          try assumption; try discriminate.
        split; [reflexivity|].
        split; apply not_true_is_false; rewrite streq_eq; assumption.
  - intros f1 f2 H1 H1' H2 H2'.
    apply name_compat_bad_shape; try assumption.
    + rewrite last_char_lookup. apply H2'.
    + left. apply ipset_strchr_free, H2'.
  - unfold name_compat_entry.
    destruct (ipset_data_flags_test _ _); reflexivity.
Qed.

Lemma C8_name_compat_element_witness :
  ipset_parse_name_compat empty_session IPSET_OPT_NAME (cstr "myset,sideways,otherset")
  = (-1, reported empty_session (Error Msg_nameref_syntax))
  /\ ipset_parse_name_compat empty_session IPSET_OPT_NAME (cstr "myset,before")
     = (-1, reported empty_session (Error Msg_nameref_syntax)).
Proof.
  destruct (C8_name_compat_element empty_session) as (_ & Htriple & Hpair & _).
  split.
  - apply (Htriple (cstr "myset") (cstr "sideways") (cstr "otherset"));
      try discriminate; apply free_ofb_spec; reflexivity.
  - apply (Hpair (cstr "myset") (cstr "before"));
      try discriminate; apply free_ofb_spec; reflexivity.
Defined.

(** C8 as stated fails.  A separator that is the first or the last
    character of the string is not seen by the tokenizer: the triple
    ",sideways,otherset", whose middle field is neither "before" nor
    "after", and the two-field form "myset," are each taken whole as a
    set name, stored, and the call returns 0. *)
Lemma C8_boundary_separator_makes_a_name :
  ipset_parse_name_compat empty_session IPSET_OPT_NAME (cstr ",sideways,otherset")
  = (0, store_also IPSET_OPT_NAME (VStr (cstr ",sideways,otherset")) empty_session)
  /\ ipset_parse_name_compat empty_session IPSET_OPT_NAME (cstr "myset,")
     = (0, store_also IPSET_OPT_NAME (VStr (cstr "myset,")) empty_session)
  /\ ipset_parse_name_compat empty_session IPSET_OPT_NAME (cstr "myset,sideways,")
     = (0, store_also IPSET_OPT_NAME (VStr (cstr "myset,sideways,")) empty_session).
Proof. repeat split; vm_compute; reflexivity. Qed.

(** ** The element dispatcher *)

Lemma join_fields_cons (f g : cstring) (fs : list cstring) :
  join_fields (f :: g :: fs) = f ++ ","%char :: join_fields (g :: fs).
Proof. reflexivity. Qed.

Lemma join_fields_proper (fs : list cstring) :
  Forall proper_field fs -> fs <> [] ->
  join_fields fs <> [] /\ last_char (join_fields fs) <> Some ","%char.
Proof.
  induction fs as [|f fs IH]; intros Hall Hne; [contradiction|].
  apply Forall_cons in Hall as [[Hf Hfree] Hall].
  destruct fs as [|g fs].
  - cbn [join_fields]. split; [exact Hf|]. rewrite last_char_lookup. apply Hfree.
  - rewrite join_fields_cons. destruct IH as [IH1 IH2]; [exact Hall | discriminate |].
    split; [destruct f; discriminate|].
    rewrite last_char_app_cons by exact IH1. exact IH2.
Qed.

(** The first separator of a string of two or more proper fields sits
    right behind the first field. *)
Lemma elem_separator_join (f g : cstring) (fs : list cstring) :
  Forall proper_field (f :: g :: fs) ->
  elem_separator (join_fields (f :: g :: fs)) = Some (length f)
  /\ split_head (join_fields (f :: g :: fs)) (length f) = f
  /\ split_tail (join_fields (f :: g :: fs)) (length f) = join_fields (g :: fs).
Proof.
  intros Hall. apply Forall_cons in Hall as [[Hf Hfree] Hall].
  destruct (join_fields_proper (g :: fs) Hall) as [H1 H2]; [discriminate|].
  rewrite join_fields_cons. unfold elem_separator.
  change IPSET_ELEM_SEPARATOR with [","%char].
  apply ipset_strchr_split; assumption.
Qed.

Lemma elem_separator_single (f : cstring) :
  proper_field f -> elem_separator f = None.
Proof.
  intros [_ Hfree]. unfold elem_separator. change IPSET_ELEM_SEPARATOR with [","%char].
  apply ipset_strchr_free, Hfree.
Qed.

Section Dispatcher.

Variable env : environment.

(** C3, as amended.  Let the element string be made of proper fields
    (non-empty, free of the separator) joined by the element separator,
    and let the type resolved in the session have dimension d.  With
    more fields than d, a type of dimension 2 or 3 is refused with
    TooManyElements; a type of dimension 1 is refused with the
    unsupported-separator error when it has no compatibility parser, and
    otherwise the whole string goes to its compatibility parser, whose
    result is returned.  With fewer fields than d and partial elements
    not allowed, the string is refused with MissingElement.  Every
    refusal leaves the store as it was. *)
Theorem C3_dispatcher_counts_fields (session : ipset_session) (t : ipset_type)
    (optional : ipset_opt) (fs : list cstring) :
  ipset_session_data_get session IPSET_OPT_TYPE = Some (VType t) ->
  Forall proper_field fs -> fs <> [] ->
  let str := join_fields fs in
  ((dim_fields (dimension t) < length fs)%nat -> dimension t <> IPSET_DIM_ONE ->
   ipset_parse_elem env session optional str
   = (-1, reported session (SyntaxError (too_many_elements t str))))
  /\ ((1 < length fs)%nat -> dimension t = IPSET_DIM_ONE ->
      ipset_parse_elem env session optional str
      = match compat_parse_elem t with
        | Some compat =>
            call_parsefn env compat session (elem_opt (type_elem t IPSET_DIM_ONE)) str
        | None =>
            (-1, reported session
                   (SyntaxError (Msg_elem_separator_unsupported str (type_name t))))
        end)
  /\ ((length fs < dim_fields (dimension t))%nat -> optional = IPSET_OPT_NONE ->
      ipset_parse_elem env session optional str
      = (-1, reported session (SyntaxError (missing_element (length fs) str)))).
Proof.
  intros Htype Hall Hne str. subst str. unfold ipset_parse_elem. rewrite Htype.
  split; [|split].
  - (* too many fields, dimension 2 or 3 *)
    intros Hlen Hdim. unfold too_many_elements.
    destruct (dimension t) eqn:Ed; [contradiction| |];
      unfold dim_fields, dim_index in Hlen;
      destruct fs as [|f1 [|f2 [|f3 fs]]]; simpl in Hlen; try lia;
      destruct (elem_separator_join f1 f2 (f3 :: fs) Hall) as (-> & -> & ->);
      apply Forall_cons in Hall as [_ Hall];
      destruct (elem_separator_join f2 f3 fs Hall) as (Hb & Hbh & Hbt);
      cbn [dim_gt dim_index Nat.ltb Nat.leb]; unfold parse_elem_rest;
      rewrite Ed, Hb; cbn [dim_gt dim_index Nat.ltb Nat.leb].
    + reflexivity.
    + rewrite Hbt. destruct fs as [|f4 fs]; [simpl in Hlen; lia|].
      apply Forall_cons in Hall as [_ Hall].
      destruct (elem_separator_join f3 f4 fs Hall) as (-> & _ & _).
      reflexivity.
  - (* a separator with dimension 1 *)
    intros Hlen Hdim. rewrite Hdim.
    destruct fs as [|f1 [|f2 fs]]; simpl in Hlen; try lia.
    destruct (elem_separator_join f1 f2 fs Hall) as (-> & _ & _).
    cbn [dim_gt dim_index Nat.ltb Nat.leb].
    destruct (compat_parse_elem t); reflexivity.
  - (* too few fields *)
    intros Hlen ->. cbn [opt_is_none].
    destruct (dimension t) eqn:Ed; unfold dim_fields, dim_index in Hlen;
      destruct fs as [|f1 [|f2 [|f3 fs]]]; simpl in Hlen;
      try lia; try contradiction.
    + (* dimension 2, one field *)
      apply Forall_cons in Hall as [Hf1 _]. cbn [join_fields].
      rewrite (elem_separator_single f1 Hf1). reflexivity.
    + (* dimension 3, one field *)
      apply Forall_cons in Hall as [Hf1 _]. cbn [join_fields].
      rewrite (elem_separator_single f1 Hf1). reflexivity.
    + (* dimension 3, two fields *)
      destruct (elem_separator_join f1 f2 [] Hall) as (-> & -> & ->).
      apply Forall_cons in Hall as [_ Hall]. apply Forall_cons in Hall as [Hf2 _].
      cbn [dim_gt dim_index Nat.ltb Nat.leb]. unfold parse_elem_rest.
      rewrite Ed. cbn [join_fields]. rewrite (elem_separator_single f2 Hf2).
      reflexivity.
Qed.

End Dispatcher.

Lemma C3_dispatcher_counts_fields_witness :
  ipset_parse_elem sample_env (session_of_type sample_type_ip_port) IPSET_OPT_NONE
    (cstr "a,b,c")
  = (-1, reported (session_of_type sample_type_ip_port)
           (SyntaxError (Msg_two_elem_separators (cstr "a,b,c") (cstr "hash:ip,port"))))
  /\ ipset_parse_elem sample_env (session_of_type sample_type_ip_port) IPSET_OPT_NONE
       (cstr "a")
     = (-1, reported (session_of_type sample_type_ip_port)
              (SyntaxError (Msg_second_elem_missing (cstr "a")))).
Proof.
  assert (forall s : string, free_ofb "," (cstr s) = true -> cstr s <> [] ->
                             proper_field (cstr s)) as Hp.
  { intros s H1 H2. split; [exact H2 | apply free_ofb_spec, H1]. }
  split.
  - apply (proj1 (C3_dispatcher_counts_fields sample_env
                    (session_of_type sample_type_ip_port) sample_type_ip_port
                    IPSET_OPT_NONE [cstr "a"; cstr "b"; cstr "c"] eq_refl
                    ltac:(repeat constructor; apply Hp; (reflexivity || discriminate))
                    ltac:(discriminate))).
    + vm_compute. lia.
    + discriminate.
  - apply (proj2 (proj2 (C3_dispatcher_counts_fields sample_env
                    (session_of_type sample_type_ip_port) sample_type_ip_port
                    IPSET_OPT_NONE [cstr "a"] eq_refl
                    ltac:(repeat constructor; apply Hp; (reflexivity || discriminate))
                    ltac:(discriminate)))).
    + vm_compute. lia.
    + reflexivity.
Defined.

(** C3 as stated fails.  The list:set type has dimension 1 and a
    compatibility parser; given "myset,before,otherset", a string of
    three parts, the dispatcher does not reject it: it hands the string
    to the compatibility parser and returns its success. *)
Lemma C3_compat_parser_takes_composite :
  let r := ipset_parse_elem sample_env (session_of_type sample_type_list_set)
             IPSET_OPT_NONE (cstr "myset,before,otherset") in
  dimension sample_type_list_set = IPSET_DIM_ONE
  /\ fst r = 0
  /\ report (snd r) = []
  /\ ipset_data_get (data (snd r)) IPSET_OPT_NAME = Some (VStr (cstr "myset"))
  /\ ipset_data_get (data (snd r)) IPSET_OPT_NAMEREF = Some (VStr (cstr "otherset")).
Proof. vm_compute. repeat split. Qed.

(** * Further properties of the parsers *)

(** ** The tokenizer, for any separator set *)

(** X1.  Whatever the separator set, a position [ipset_strchr] returns
    holds one of the separators and is strictly inside the string, so
    that splitting there leaves a non-empty part on either side. *)
Theorem X1_separator_found_is_interior (str sep : cstring) (m : nat) :
  ipset_strchr str sep = Some m ->
  (exists c, In c sep /\ str !! m = Some c)
  /\ (0 < m)%nat /\ (S m < length str)%nat
  /\ split_head str m <> [] /\ split_tail str m <> [].
Proof.
  intros H.
  assert ((exists c, In c sep /\ str !! m = Some c)
          /\ (0 < m)%nat /\ (S m < length str)%nat) as (Hc & H0 & Hlen).
  { induction sep as [|c sep IH]; [discriminate H|].
    cbn [ipset_strchr] in H.
    destruct (strchr str c) as [k|] eqn:Ek.
    - destruct (negb (char_is (first_char str) c) && negb (char_is (last_char str) c)) eqn:Eg.
      + injection H as <-. apply andb_prop in Eg as [Ef El].
        apply negb_true_iff, char_is_false in Ef. apply negb_true_iff, char_is_false in El.
        apply strchr_Some in Ek as [Hk _]. split; [exists c; split; [left; reflexivity | exact Hk]|].
        rewrite first_char_lookup in Ef. rewrite last_char_lookup in El.
        apply lookup_lt_Some in Hk as Hlt.
        split; [destruct k; [congruence | lia]|].
        destruct (decide (S k = length str)) as [E|E]; [|lia].
        exfalso. apply El. rewrite <- E. exact Hk.
      + destruct (IH H) as ((c' & Hin & Hm) & Hrest).
        split; [exists c'; split; [right; exact Hin | exact Hm] | exact Hrest].
    - destruct (IH H) as ((c' & Hin & Hm) & Hrest).
      split; [exists c'; split; [right; exact Hin | exact Hm] | exact Hrest]. }
  split; [exact Hc|]. split; [exact H0|]. split; [exact Hlen|]. split.
  - unfold split_head. intros E. apply (f_equal length) in E.
    rewrite length_take in E. simpl in E. lia.
  - unfold split_tail. intros E. apply (f_equal length) in E.
    rewrite length_drop in E. simpl in E. lia.
Qed.

Lemma X1_separator_found_is_interior_witness :
  (0 < 9)%nat /\ (10 < length (cstr "192.0.2.1/24"))%nat
  /\ split_head (cstr "192.0.2.1/24") 9 <> [].
Proof.
  destruct (X1_separator_found_is_interior (cstr "192.0.2.1/24") (cstr "/") 9 eq_refl)
    as (_ & H1 & H2 & H3 & _).
  split; [exact H1|]. split; [exact H2 | exact H3].
Defined.

(** ** Ethernet addresses *)

(** X2.  Every string of the canonical form, six two-digit hexadecimal
    octets separated by colons, is accepted by [ipset_parse_ether], which
    stores the six bytes the octets denote. *)
Theorem X2_ether_canonical_accepted (session : ipset_session) (opt : ipset_opt)
    (str : cstring) :
  canonical_ether str = true ->
  ipset_parse_ether session opt str
  = ipset_session_data_set session opt (VEther (octet_values ETH_ALEN str)).
Proof. apply ipset_parse_ether_canonical. Qed.

Lemma X2_ether_canonical_accepted_witness :
  ipset_parse_ether empty_session IPSET_OPT_ETHER (cstr "00:1a:2B:3c:4d:5E")
  = ipset_session_data_set empty_session IPSET_OPT_ETHER (VEther [0; 26; 43; 60; 77; 94]).
Proof.
  exact (X2_ether_canonical_accepted empty_session IPSET_OPT_ETHER
           (cstr "00:1a:2B:3c:4d:5E") eq_refl).
Defined.

Lemma ether_octets_bytes (str : cstring) (n : nat) :
  forall (i : nat) (l : list Z),
    ether_octets str i n = Some l ->
    length l = n /\ Forall (fun b => 0 <= b <= 255) l.
Proof.
  induction n as [|n IH]; intros i l H; cbn [ether_octets] in H.
  - injection H as <-. split; [reflexivity | constructor].
  - destruct ((endp (strtol (drop (i * 3) str) 16) =? 2)%nat
              && ether_end_ok str (i * 3 + 2)
              && (0 <=? number (strtol (drop (i * 3) str) 16))
              && (number (strtol (drop (i * 3) str) 16) <=? 255)) eqn:E;
      [|discriminate H].
    destruct (ether_octets str (S i) n) as [l'|] eqn:El; [|discriminate H].
    injection H as <-. destruct (IH (S i) l' El) as [Hlen Hall].
    apply andb_prop in E as [E Hhi]. apply andb_prop in E as [_ Hlo].
    apply Z.leb_le in Hhi, Hlo.
    split; [simpl; lia | constructor; [lia | exact Hall]].
Qed.

(** X3.  [ipset_parse_ether] has two outcomes only.  Either it stores,
    under the option kind, exactly six bytes, each in 0..255, taken from
    a string of 17 characters; or it returns -1, files "cannot parse as
    ethernet address" and leaves the store untouched. *)
Theorem X3_ether_six_bytes_or_nothing (session : ipset_session) (opt : ipset_opt)
    (str : cstring) :
  (exists bytes,
      ipset_parse_ether session opt str
      = ipset_session_data_set session opt (VEther bytes)
      /\ length bytes = 6%nat
      /\ Forall (fun b => 0 <= b <= 255) bytes
      /\ length str = 17%nat)
  \/ ipset_parse_ether session opt str
     = (-1, reported session (SyntaxError (Msg_not_ether str))).
Proof.
  unfold ipset_parse_ether, strlen.
  destruct (length str =? ETH_ALEN * 3 - 1)%nat eqn:El; [|right; reflexivity].
  apply Nat.eqb_eq in El. cbn [negb].
  destruct (ether_octets str 0 ETH_ALEN) as [bytes|] eqn:Eo; [|right; reflexivity].
  left. exists bytes. destruct (ether_octets_bytes str ETH_ALEN O bytes Eo) as [H1 H2].
  split; [reflexivity|]. split; [exact H1|]. split; [exact H2 | exact El].
Qed.

(** ** The fixed-width numeric parsers *)

Lemma string_to_number_ll_outcome (session : ipset_session) (str : cstring)
    (min max ret : Z) :
  (exists n, string_to_number_ll session str min max ret = (0, n, session)
             /\ min <= n /\ (max = 0 \/ n <= max))
  \/ (exists m, string_to_number_ll session str min max ret
                = (-1, ret, reported session (SyntaxError m))).
Proof.
  unfold string_to_number_ll.
  set (r := strtoull str 0).
  set (consumed := (endp r =? strlen str)%nat && negb (endp r =? 0)%nat && negb (erange r)).
  destruct (consumed && (min <=? number r) && ((max =? 0) || (number r <=? max))) eqn:E.
  - left. exists (number r). split; [reflexivity|].
    apply andb_prop in E as [E Hmax]. apply andb_prop in E as [_ Hmin].
    apply Z.leb_le in Hmin. split; [exact Hmin|].
    apply orb_prop in Hmax as [H | H]; [left; apply Z.eqb_eq, H | right; apply Z.leb_le, H].
  - right. destruct ((consumed || erange r) && nonzero max);
      [|destruct (consumed || erange r)]; eexists; reflexivity.
Qed.

(** X4.  For every string, the 8-, 16- and 32-bit parsers either succeed
    with a number within their width, reporting nothing, or return -1
    with the number 0 and one syntax error filed; in both cases the
    store is the one they were given. *)
Theorem X4_fixed_width_numbers (session : ipset_session) (str : cstring) :
  let outcome (r : Z * Z * ipset_session) (hi : Z) :=
    (fst (fst r) = 0 /\ 0 <= snd (fst r) <= hi /\ snd r = session)
    \/ (fst (fst r) = -1 /\ snd (fst r) = 0
        /\ exists m, snd r = reported session (SyntaxError m)) in
  outcome (string_to_u8 session str) 255
  /\ outcome (string_to_u16 session str) 65535
  /\ outcome (string_to_u32 session str) 4294967295.
Proof.
  intros outcome. subst outcome. cbv beta.
  unfold string_to_u8, string_to_u16, string_to_u32, USHRT_MAX, UINT_MAX.
  split; [|split].
  - destruct (string_to_number_ll_outcome session str 0 255 0)
      as [(n & -> & Hlo & Hhi) | (m & ->)]; cbn [fst snd].
    + left. rewrite Z.mod_small by lia. split; [reflexivity|]. split; [lia | reflexivity].
    + right. split; [reflexivity|]. split; [reflexivity | exists m; reflexivity].
  - destruct (string_to_number_ll_outcome session str 0 65535 0)
      as [(n & -> & Hlo & Hhi) | (m & ->)]; cbn [fst snd].
    + left. rewrite Z.mod_small by lia. split; [reflexivity|]. split; [lia | reflexivity].
    + right. split; [reflexivity|]. split; [reflexivity | exists m; reflexivity].
  - destruct (string_to_number_ll_outcome session str 0 4294967295 0)
      as [(n & -> & Hlo & Hhi) | (m & ->)]; cbn [fst snd].
    + left. rewrite Z.mod_small by lia. split; [reflexivity|]. split; [lia | reflexivity].
    + right. split; [reflexivity|]. split; [reflexivity | exists m; reflexivity].
Qed.

(** ** Ports *)

Lemma string_to_u16_numeral (session : ipset_session) (n : numeral) :
  numeral_valid n = true -> numeral_value n <= 65535 ->
  string_to_u16 session (numeral_string n) = (0, numeral_value n, session).
Proof.
  intros Hv Hle. unfold string_to_u16, USHRT_MAX.
  pose proof (numeral_value_nonneg n) as Hnn.
  rewrite (proj1 (string_to_number_ll_numeral session n 0 65535 0 Hv));
    [| unfold ULLONG_MAX; lia | lia | right; lia].
  rewrite Z.mod_small by lia. reflexivity.
Qed.

Lemma string_to_u16_outcome (session : ipset_session) (str : cstring) :
  (exists n, string_to_u16 session str = (0, n, session))
  \/ (exists m, string_to_u16 session str = (-1, 0, reported session (SyntaxError m))).
Proof.
  unfold string_to_u16.
  destruct (string_to_number_ll_outcome session str 0 USHRT_MAX 0)
    as [(n & -> & _) | (m & ->)]; [left | right]; eexists; reflexivity.
Qed.

(** The session a successful [ipset_parse_port] leaves: the port in the
    store, the report reset. *)
Lemma port_stored_eq (s : ipset_session) (opt : ipset_opt) (port : Z) :
  ipset_session_report_reset (snd (ipset_session_data_set s opt (VU16 port)))
  = port_stored (data s) opt port.
Proof. reflexivity. Qed.

Section PortParsers.

Variable env : environment.

Lemma ipset_parse_port_numeral (session : ipset_session) (opt : ipset_opt)
    (n : numeral) (proto : cstring) :
  numeral_valid n = true -> numeral_value n <= 65535 ->
  ipset_parse_port env session opt (numeral_string n) proto
  = (0, port_stored (data session) opt (numeral_value n)).
Proof.
  intros Hv Hle. unfold ipset_parse_port.
  rewrite (string_to_u16_numeral session n Hv Hle). cbn [Z.eqb].
  rewrite ipset_session_data_set_eq. cbn [Z.eqb]. reflexivity.
Qed.

(** X5.  A numeral of at most 65535 is taken as the port number whatever
    the services database holds, and the successful parse resets the
    report: every diagnostic filed in the session before the call is
    gone. *)
Theorem X5_numeric_port_resets_report (session : ipset_session) (opt : ipset_opt)
    (n : numeral) (proto : cstring) :
  numeral_valid n = true -> numeral_value n <= 65535 ->
  ipset_parse_port env session opt (numeral_string n) proto
  = (0, port_stored (data session) opt (numeral_value n))
  /\ report (snd (ipset_parse_port env session opt (numeral_string n) proto)) = [].
Proof.
  intros Hv Hle. rewrite (ipset_parse_port_numeral session opt n proto Hv Hle).
  split; reflexivity.
Qed.

(** X6.  When the string is not a number in 0..65535, the port is looked
    up as a service name.  A service found is stored (in host byte
    order) and the report is reset, so the error of the numeric attempt
    is not surfaced; a service not found leaves the store alone and
    files both errors. *)
Theorem X6_port_name_fallback (session : ipset_session) (opt : ipset_opt)
    (str proto : cstring) :
  fst (fst (string_to_u16 session str)) <> 0 ->
  match getservbyname env str proto with
  | Some s_port =>
      ipset_parse_port env session opt str proto
      = (0, port_stored (data session) opt (ntohs (s_port mod 65536)))
  | None =>
      exists m,
        ipset_parse_port env session opt str proto
        = (-1, reported (reported session (SyntaxError m))
                 (SyntaxError (Msg_not_port str proto)))
  end.
Proof.
  intros Hfail. unfold ipset_parse_port, parse_portname.
  destruct (string_to_u16_outcome session str) as [(n & E) | (m & E)];
    rewrite E in Hfail |- *; [contradiction|]. cbn [Z.eqb].
  destruct (getservbyname env str proto) as [s_port|].
  - cbn [Z.eqb]. rewrite ipset_session_data_set_eq. cbn [Z.eqb]. reflexivity.
  - exists m. reflexivity.
Qed.

(** X7.  A range of two numerals of at most 65535 each is accepted and
    stores the first under the option kind and the second under port-to;
    no order between the two ends is required. *)
Theorem X7_numeric_port_range (session : ipset_session) (opt : ipset_opt)
    (na nb : numeral) (proto : cstring) :
  numeral_valid na = true -> numeral_valid nb = true ->
  numeral_value na <= 65535 -> numeral_value nb <= 65535 ->
  ipset_parse_tcpudp_port env session opt
    (numeral_string na ++ "-"%char :: numeral_string nb) proto
  = (0, port_stored
          (data (port_stored (data session) IPSET_OPT_PORT_TO (numeral_value nb)))
          opt (numeral_value na)).
Proof.
  intros Hva Hvb Ha Hb.
  rewrite ipset_parse_tcpudp_port_range.
  - rewrite (ipset_parse_port_numeral session IPSET_OPT_PORT_TO nb proto Hvb Hb).
    cbn [nonzero Z.eqb negb].
    apply (ipset_parse_port_numeral _ opt na proto Hva Ha).
  - apply numeral_free_of; auto.
  - apply numeral_string_not_nil, Hva.
  - apply numeral_string_not_nil, Hvb.
  - rewrite last_char_lookup. apply numeral_free_of; auto.
Qed.

End PortParsers.

Lemma X5_numeric_port_resets_report_witness :
  ipset_parse_port sample_env
    (reported empty_session (SyntaxError (Msg_already_specified (cstr "port"))))
    IPSET_OPT_PORT (cstr "8080") (cstr "tcp")
  = (0, port_stored empty_data IPSET_OPT_PORT 8080).
Proof.
  exact (proj1 (X5_numeric_port_resets_report sample_env
                  (reported empty_session (SyntaxError (Msg_already_specified (cstr "port"))))
                  IPSET_OPT_PORT (Decimal (cstr "8080")) (cstr "tcp") eq_refl
                  ltac:(vm_compute; discriminate))).
Defined.

Lemma X6_port_name_fallback_witness :
  ipset_parse_port sample_env empty_session IPSET_OPT_PORT (cstr "http") (cstr "tcp")
  = (0, port_stored empty_data IPSET_OPT_PORT 80).
Proof.
  exact (X6_port_name_fallback sample_env empty_session IPSET_OPT_PORT
           (cstr "http") (cstr "tcp") ltac:(vm_compute; discriminate)).
Defined.

Lemma X7_numeric_port_range_witness :
  ipset_parse_tcpudp_port sample_env empty_session IPSET_OPT_PORT
    (cstr "90-80") (cstr "tcp")
  = (0, port_stored (data (port_stored empty_data IPSET_OPT_PORT_TO 80))
          IPSET_OPT_PORT 90).
Proof.
  exact (X7_numeric_port_range sample_env empty_session IPSET_OPT_PORT
           (Decimal (cstr "90")) (Decimal (cstr "80")) (cstr "tcp") eq_refl eq_refl
           ltac:(vm_compute; discriminate) ltac:(vm_compute; discriminate)).
Defined.

(** ** Protocols, and protocol with port *)

Lemma store_also_get (s : ipset_session) (o : ipset_opt) (v : value) :
  ipset_data_get (data (store_also o v s)) o = Some v.
Proof. unfold ipset_data_get, store_also. cbn [ipset_session_data_set ipset_data_set snd with_data data values]. apply lookup_insert_eq. Qed.

Lemma store_also_get_other (s : ipset_session) (o o' : ipset_opt) (v : value) :
  o <> o' -> ipset_data_get (data (store_also o v s)) o' = ipset_data_get (data s) o'.
Proof.
  intros Hne. unfold ipset_data_get, store_also.
  cbn [ipset_session_data_set ipset_data_set snd with_data data values].
  apply lookup_insert_ne, Hne.
Qed.

Section ProtoParsers.

Variable env : environment.

Lemma ipset_parse_proto_found (session : ipset_session) (opt : ipset_opt)
    (str : cstring) (p : Z) :
  getprotobyname env (proto_lookup_name str) = Some p -> p mod 256 <> 0 ->
  ipset_parse_proto env session opt str = (0, store_also opt (VU8 (p mod 256)) session).
Proof.
  intros Hp Hnz. unfold ipset_parse_proto. fold (proto_lookup_name str). rewrite Hp.
  apply Z.eqb_neq in Hnz. rewrite Hnz. apply ipset_session_data_set_eq.
Qed.


(** X9.  A port numeral without a protocol part makes
    [ipset_parse_proto_port] store TCP as the protocol and the numeral
    as the port. *)
Theorem X9_port_alone_means_tcp (session : ipset_session) (opt : ipset_opt)
    (n : numeral) :
  numeral_valid n = true -> numeral_value n <= 65535 ->
  ipset_parse_proto_port env session opt (numeral_string n)
  = (0, port_stored (data (store_also IPSET_OPT_PROTO (VU8 IPPROTO_TCP) session))
          opt (numeral_value n)).
Proof.
  intros Hv Hle. unfold ipset_parse_proto_port, proto_separator.
  change IPSET_PROTO_SEPARATOR with [":"%char].
  rewrite ipset_strchr_free by (apply numeral_free_of; auto).
  cbn [ipset_data_set nonzero Z.eqb negb].
  unfold ipset_parse_tcpudp_port, range_separator.
  change IPSET_RANGE_SEPARATOR with ["-"%char].
  rewrite ipset_strchr_free by (apply numeral_free_of; auto).
  apply (ipset_parse_port_numeral env _ opt n (cstr "TCP") Hv Hle).
Qed.

(** X10.  "proto:port" with a protocol the database resolves to TCP or
    UDP and a port numeral stores the protocol number and the port. *)
Theorem X10_tcp_udp_with_port (session : ipset_session) (opt : ipset_opt)
    (proto : cstring) (p : Z) (n : numeral) :
  proto <> [] -> free_of ":" proto ->
  getprotobyname env (proto_lookup_name proto) = Some p ->
  p mod 256 = IPPROTO_TCP \/ p mod 256 = IPPROTO_UDP ->
  numeral_valid n = true -> numeral_value n <= 65535 ->
  ipset_parse_proto_port env session opt (proto ++ ":"%char :: numeral_string n)
  = (0, port_stored (data (store_also IPSET_OPT_PROTO (VU8 (p mod 256)) session))
          opt (numeral_value n)).
Proof.
  intros Hne Hfree Hp Hpm Hv Hle. unfold ipset_parse_proto_port, proto_separator.
  change IPSET_PROTO_SEPARATOR with [":"%char].
  destruct (ipset_strchr_split_free proto (numeral_string n) ":"%char)
    as (-> & -> & ->); try assumption.
  { apply numeral_string_not_nil, Hv. }
  { apply numeral_free_of; auto. }
  rewrite (ipset_parse_proto_found session IPSET_OPT_PROTO proto p Hp)
    by (destruct Hpm as [-> | ->]; discriminate).
  cbn [nonzero Z.eqb negb]. unfold ipset_session_data, data_get_u8.
  rewrite store_also_get.
  assert (forall s, ipset_parse_tcpudp_port env s opt (numeral_string n) proto
                    = (0, port_stored (data s) opt (numeral_value n))) as Hport.
  { intros s. unfold ipset_parse_tcpudp_port, range_separator.
    change IPSET_RANGE_SEPARATOR with ["-"%char].
    rewrite ipset_strchr_free by (apply numeral_free_of; auto).
    apply (ipset_parse_port_numeral env s opt n proto Hv Hle). }
  destruct Hpm as [-> | ->]; cbn [IPPROTO_TCP IPPROTO_UDP Z.eqb Pos.eqb]; apply Hport.
Qed.


End ProtoParsers.

Lemma X9_port_alone_means_tcp_witness :
  ipset_parse_proto_port sample_env empty_session IPSET_OPT_PORT (cstr "443")
  = (0, port_stored (data (store_also IPSET_OPT_PROTO (VU8 6) empty_session))
          IPSET_OPT_PORT 443).
Proof.
  exact (X9_port_alone_means_tcp sample_env empty_session IPSET_OPT_PORT
           (Decimal (cstr "443")) eq_refl ltac:(vm_compute; discriminate)).
Defined.

Lemma X10_tcp_udp_with_port_witness :
  ipset_parse_proto_port sample_env empty_session IPSET_OPT_PORT (cstr "udp:53")
  = (0, port_stored (data (store_also IPSET_OPT_PROTO (VU8 17) empty_session))
          IPSET_OPT_PORT 53).
Proof.
  exact (X10_tcp_udp_with_port sample_env empty_session IPSET_OPT_PORT
           (cstr "udp") 17 (Decimal (cstr "53"))
           ltac:(discriminate) (proj1 (free_ofb_spec ":" (cstr "udp")) eq_refl)
           eq_refl (or_intror eq_refl) eq_refl ltac:(vm_compute; discriminate)).
Defined.


(** ** Family, set names, netmask, ignored options *)

Lemma streq_in (str : cstring) (l : list cstring) :
  In str l <-> existsb (streq str) l = true.
Proof.
  rewrite existsb_exists. split.
  - intros H. exists str. split; [exact H | apply streq_refl].
  - intros (x & Hx & E). apply streq_eq in E. subst x. exact Hx.
Qed.

(** X12.  [ipset_parse_family] knows exactly eight words, in lower case:
    inet, ipv4 and -4 store INET; inet6, ipv6 and -6 store INET6; any
    and unspec store the unspecified family; every other string returns
    -1 with "unknown INET family" filed and the store untouched. *)
Theorem X12_family_vocabulary (session : ipset_session) (opt : ipset_opt)
    (str : cstring) :
  (In str family_words_inet ->
   ipset_parse_family session opt str
   = (0, store_also opt (VU8 AF_INET) (family_entry session)))
  /\ (In str family_words_inet6 ->
      ipset_parse_family session opt str
      = (0, store_also opt (VU8 AF_INET6) (family_entry session)))
  /\ (In str family_words_unspec ->
      ipset_parse_family session opt str
      = (0, store_also opt (VU8 AF_UNSPEC) (family_entry session)))
  /\ (~ In str (family_words_inet ++ family_words_inet6 ++ family_words_unspec) ->
      ipset_parse_family session opt str
      = (-1, reported (family_entry session) (SyntaxError (Msg_unknown_family str)))
      /\ data (family_entry session) = data session).
Proof.
  assert (forall w, In str w -> existsb (streq str) w = true) as Hin
    by (intros w; apply streq_in).
  assert (ipset_parse_family session opt str
          = if existsb (streq str) family_words_inet
            then (0, store_also opt (VU8 AF_INET) (family_entry session))
            else if existsb (streq str) family_words_inet6
            then (0, store_also opt (VU8 AF_INET6) (family_entry session))
            else if existsb (streq str) family_words_unspec
            then (0, store_also opt (VU8 AF_UNSPEC) (family_entry session))
            else (-1, reported (family_entry session)
                        (SyntaxError (Msg_unknown_family str)))) as E.
  { unfold ipset_parse_family. fold (family_entry session).
    assert (snd (syntax_err session Msg_family_multiple)
            = reported session (SyntaxError Msg_family_multiple)) as -> by reflexivity.
    fold (family_entry session).
    cbn [existsb family_words_inet family_words_inet6 family_words_unspec].
    rewrite !orb_false_r, !orb_assoc.
    destruct (streq str (cstr "inet") || streq str (cstr "ipv4") || streq str (cstr "-4"));
      [reflexivity|].
    destruct (streq str (cstr "inet6") || streq str (cstr "ipv6") || streq str (cstr "-6"));
      [reflexivity|].
    destruct (streq str (cstr "any") || streq str (cstr "unspec")); reflexivity. }
  split; [|split; [|split]].
  - intros H. rewrite E, (Hin _ H). reflexivity.
  - intros H. rewrite E, (Hin _ H).
    destruct (existsb (streq str) family_words_inet) eqn:E1; [|reflexivity].
    exfalso. apply streq_in in E1.
    destruct H as [<- | [<- | [<- | []]]];
      destruct E1 as [E1 | [E1 | [E1 | []]]]; discriminate E1.
  - intros H. rewrite E, (Hin _ H).
    destruct (existsb (streq str) family_words_inet) eqn:E1.
    { exfalso. apply streq_in in E1.
      destruct H as [<- | [<- | []]];
        destruct E1 as [E1 | [E1 | [E1 | []]]]; discriminate E1. }
    destruct (existsb (streq str) family_words_inet6) eqn:E2; [|reflexivity].
    exfalso. apply streq_in in E2.
    destruct H as [<- | [<- | []]];
      destruct E2 as [E2 | [E2 | [E2 | []]]]; discriminate E2.
  - intros H. split.
    + rewrite E.
      destruct (existsb (streq str) family_words_inet) eqn:E1.
      { exfalso. apply H, in_or_app. left. apply streq_in, E1. }
      destruct (existsb (streq str) family_words_inet6) eqn:E2.
      { exfalso. apply H, in_or_app. right. apply in_or_app. left. apply streq_in, E2. }
      destruct (existsb (streq str) family_words_unspec) eqn:E3.
      { exfalso. apply H, in_or_app. right. apply in_or_app. right. apply streq_in, E3. }
      reflexivity.
    + unfold family_entry. destruct (ipset_data_flags_test _ _); reflexivity.
Qed.

Lemma X12_family_vocabulary_witness :
  ipset_parse_family empty_session IPSET_OPT_FAMILY (cstr "ipv6")
  = (0, store_also IPSET_OPT_FAMILY (VU8 AF_INET6) empty_session)
  /\ ipset_parse_family empty_session IPSET_OPT_FAMILY (cstr "INET")
     = (-1, reported empty_session (SyntaxError (Msg_unknown_family (cstr "INET")))).
Proof.
  destruct (X12_family_vocabulary empty_session IPSET_OPT_FAMILY (cstr "ipv6"))
    as (_ & H6 & _).
  destruct (X12_family_vocabulary empty_session IPSET_OPT_FAMILY (cstr "INET"))
    as (_ & _ & _ & Hno).
  split.
  - apply H6. right. left. reflexivity.
  - apply Hno. intros H.
    repeat (destruct H as [H | H]; [discriminate H|]). exact H.
Defined.

(** X13.  [ipset_parse_setname] accepts exactly the strings of at most
    31 characters, the empty string among them, and stores the string
    as it is; a longer string returns -1 with "setname is longer than 31
    characters" filed and the store untouched. *)
Theorem X13_setname_length_bound (session : ipset_session) (opt : ipset_opt)
    (str : cstring) :
  ((length str <= 31)%nat ->
   ipset_parse_setname session opt str = (0, store_also opt (VStr str) session))
  /\ ((31 < length str)%nat ->
      ipset_parse_setname session opt str
      = (-1, reported session (SyntaxError (Msg_setname_too_long str)))).
Proof.
  unfold ipset_parse_setname, setname_too_long, strlen, IPSET_MAXNAMELEN.
  split; intros H.
  - replace (32 - 1 <? length str)%nat with false
      by (symmetry; apply Nat.ltb_ge; lia).
    apply ipset_session_data_set_eq.
  - replace (32 - 1 <? length str)%nat with true
      by (symmetry; apply Nat.ltb_lt; lia).
    reflexivity.
Qed.

Lemma X13_setname_length_bound_witness :
  ipset_parse_setname empty_session IPSET_SETNAME []
  = (0, store_also IPSET_SETNAME (VStr []) empty_session)
  /\ ipset_parse_setname empty_session IPSET_SETNAME
       (cstr "abcdefghijklmnopqrstuvwxyz012345")
     = (-1, reported empty_session
              (SyntaxError (Msg_setname_too_long (cstr "abcdefghijklmnopqrstuvwxyz012345")))).
Proof.
  split.
  - apply (proj1 (X13_setname_length_bound empty_session IPSET_SETNAME [])).
    simpl. lia.
  - apply (proj2 (X13_setname_length_bound empty_session IPSET_SETNAME
                    (cstr "abcdefghijklmnopqrstuvwxyz012345"))).
    vm_compute. lia.
Defined.

(** X14.  A token that holds neither the CIDR nor the range separator,
    a plain address or host name, is refused by [ipset_parse_netrange]
    before anything is parsed or stored, while [ipset_parse_iprange] and
    [ipset_parse_ipnet] take it exactly as [ipset_parse_ip] does. *)
Theorem X14_netrange_requires_separator (env : environment) (session : ipset_session)
    (opt : ipset_opt) (str : cstring) :
  free_of "/" str -> free_of "-" str ->
  ipset_parse_netrange env session opt str
  = (-1, reported session (SyntaxError (Msg_netrange_required str)))
  /\ ipset_parse_iprange env session opt str = ipset_parse_ip env session opt str
  /\ ipset_parse_ipnet env session opt str = ipset_parse_ip env session opt str.
Proof.
  intros Hs Hd.
  unfold ipset_parse_netrange, ipset_parse_iprange, ipset_parse_ipnet, ipset_parse_ip,
    range_separator, cidr_separator.
  change IPSET_RANGE_SEPARATOR with ["-"%char].
  change IPSET_CIDR_SEPARATOR with ["/"%char].
  rewrite (ipset_strchr_free str "/"%char Hs), (ipset_strchr_free str "-"%char Hd).
  repeat split.
Qed.

Lemma X14_netrange_requires_separator_witness :
  ipset_parse_netrange sample_env empty_session IPSET_OPT_IP (cstr "192.0.2.10")
  = (-1, reported empty_session (SyntaxError (Msg_netrange_required (cstr "192.0.2.10")))).
Proof.
  exact (proj1 (X14_netrange_requires_separator sample_env empty_session IPSET_OPT_IP
                  (cstr "192.0.2.10")
                  (proj1 (free_ofb_spec "/" (cstr "192.0.2.10")) eq_refl)
                  (proj1 (free_ofb_spec "-" (cstr "192.0.2.10")) eq_refl))).
Defined.

(** ** The set-name element, in general *)

(** X15.  For a triple "name,before,ref" or "name,after,ref" in which
    the name is non-empty and holds no separator, the reference name is
    non-empty and does not end with the separator, and both have at most
    31 characters, [ipset_parse_name_compat], called for an option kind
    other than the reference name and the before marker (the source
    asserts the kind is the name), returns 0 and stores the name and the
    reference name; it stores the before marker for "before" and leaves
    it as it was for "after". *)
Theorem X15_name_compat_triple (session : ipset_session) (opt : ipset_opt)
    (name word ref : cstring) :
  name <> [] -> free_of "," name -> ref <> [] -> last_char ref <> Some ","%char ->
  (length name <= 31)%nat -> (length ref <= 31)%nat ->
  opt <> IPSET_OPT_NAMEREF -> opt <> IPSET_OPT_BEFORE ->
  word = cstr "before" \/ word = cstr "after" ->
  let r := ipset_parse_name_compat session opt (name ++ ","%char :: word ++ ","%char :: ref) in
  fst r = 0
  /\ ipset_data_get (data (snd r)) opt = Some (VStr name)
  /\ ipset_data_get (data (snd r)) IPSET_OPT_NAMEREF = Some (VStr ref)
  /\ ipset_data_get (data (snd r)) IPSET_OPT_BEFORE
     = if is_before word then Some VFlag
       else ipset_data_get (data session) IPSET_OPT_BEFORE.
Proof.
  intros Hn Hnfree Hr Hrlast Hnlen Hrlen Ho1 Ho2 Hword r. subst r.
  assert (word <> [] /\ free_of "," word
          /\ (streq word (cstr "before") || streq word (cstr "after")) = true)
    as (Hw & Hwfree & Hwok).
  { destruct Hword as [-> | ->]; repeat split; try discriminate;
      apply free_ofb_spec; reflexivity. }
  unfold ipset_parse_name_compat. fold (name_compat_entry session).
  assert (snd (syntax_err session Msg_before_after_already)
          = reported session (SyntaxError Msg_before_after_already)) as -> by reflexivity.
  fold (name_compat_entry session).
  assert (data (name_compat_entry session) = data session) as Hentry
    by (unfold name_compat_entry; destruct (ipset_data_flags_test _ _); reflexivity).
  unfold elem_separator. change IPSET_ELEM_SEPARATOR with [","%char].
  destruct (ipset_strchr_split name (word ++ ","%char :: ref) ","%char)
    as (-> & -> & ->); try assumption.
  { destruct word; discriminate. }
  { rewrite last_char_app_cons by exact Hr. exact Hrlast. }
  destruct (ipset_strchr_split word ref ","%char) as (-> & -> & ->); try assumption.
  rewrite Hwok. cbn [negb]. unfold name_compat_store, setname_too_long, strlen, IPSET_MAXNAMELEN.
  replace (32 - 1 <? length name)%nat with false by (symmetry; apply Nat.ltb_ge; lia).
  replace (32 - 1 <? length ref)%nat with false by (symmetry; apply Nat.ltb_ge; lia).
  cbn [ipset_data_set nonzero Z.eqb negb with_data data]. unfold is_before.
  rewrite Hentry.
  destruct (streq word (cstr "before")); cbn [fst snd];
    (split; [reflexivity|]); (split; [|split]); store_lookup.
Qed.

Lemma X15_name_compat_triple_witness :
  let r := ipset_parse_name_compat empty_session IPSET_OPT_NAME (cstr "a,after,b") in
  fst r = 0
  /\ ipset_data_get (data (snd r)) IPSET_OPT_NAMEREF = Some (VStr (cstr "b"))
  /\ ipset_data_get (data (snd r)) IPSET_OPT_BEFORE = None.
Proof.
  destruct (X15_name_compat_triple empty_session IPSET_OPT_NAME
              (cstr "a") (cstr "after") (cstr "b")
              ltac:(discriminate) (proj1 (free_ofb_spec "," (cstr "a")) eq_refl)
              ltac:(discriminate) ltac:(discriminate)
              ltac:(simpl; lia) ltac:(simpl; lia)
              ltac:(discriminate) ltac:(discriminate) (or_intror eq_refl))
    as (H1 & _ & H2 & H3).
  split; [exact H1|]. split; [exact H2 | exact H3].
Defined.

(** X16.  For a triple "name,before,ref" or "name,after,ref" in which
    the name is non-empty, holds no separator and has at most 31
    characters, and the reference name has more than 31 characters and
    does not end with the separator, [ipset_parse_name_compat] returns
    -1, but only after it stored the name: the store the failed call
    leaves is the store of before with the name written under the option
    kind and its set-bit raised, and no reference name written. *)
Theorem X16_name_compat_stores_name_before_failing (session : ipset_session)
    (opt : ipset_opt) (name word ref : cstring) :
  name <> [] -> free_of "," name -> last_char ref <> Some ","%char ->
  (length name <= 31)%nat -> (31 < length ref)%nat ->
  word = cstr "before" \/ word = cstr "after" ->
  let r := ipset_parse_name_compat session opt
             (name ++ ","%char :: word ++ ","%char :: ref) in
  fst r = -1
  /\ data (snd r) = snd (ipset_data_set (data session) opt (VStr name))
  /\ ipset_data_get (data (snd r)) opt = Some (VStr name)
  /\ ipset_data_flags_test (data (snd r)) opt = true
  /\ (opt <> IPSET_OPT_NAMEREF ->
      ipset_data_get (data (snd r)) IPSET_OPT_NAMEREF
      = ipset_data_get (data session) IPSET_OPT_NAMEREF).
Proof.
  intros Hn Hnfree Hrlast Hnlen Hrlen Hword r. subst r.
  assert (ref <> []) as Hr by (destruct ref; [simpl in Hrlen; lia | discriminate]).
  assert (word <> [] /\ free_of "," word
          /\ (streq word (cstr "before") || streq word (cstr "after")) = true)
    as (Hw & Hwfree & Hwok).
  { destruct Hword as [-> | ->]; repeat split; try discriminate;
      apply free_ofb_spec; reflexivity. }
  unfold ipset_parse_name_compat. fold (name_compat_entry session).
  assert (snd (syntax_err session Msg_before_after_already)
          = reported session (SyntaxError Msg_before_after_already)) as -> by reflexivity.
  fold (name_compat_entry session).
  assert (data (name_compat_entry session) = data session) as Hentry
    by (unfold name_compat_entry; destruct (ipset_data_flags_test _ _); reflexivity).
  unfold elem_separator. change IPSET_ELEM_SEPARATOR with [","%char].
  destruct (ipset_strchr_split name (word ++ ","%char :: ref) ","%char)
    as (-> & -> & ->); try assumption.
  { destruct word; discriminate. }
  { rewrite last_char_app_cons by exact Hr. exact Hrlast. }
  destruct (ipset_strchr_split word ref ","%char) as (-> & -> & ->); try assumption.
  rewrite Hwok. cbn [negb]. unfold name_compat_store, setname_too_long, strlen, IPSET_MAXNAMELEN.
  replace (32 - 1 <? length name)%nat with false by (symmetry; apply Nat.ltb_ge; lia).
  replace (32 - 1 <? length ref)%nat with true by (symmetry; apply Nat.ltb_lt; lia).
  cbn [ipset_data_set nonzero Z.eqb negb syntax_err fst snd with_data data].
  rewrite Hentry.
  split; [reflexivity|]. split; [reflexivity|]. split; [store_lookup|]. split.
  - unfold ipset_data_flags_test. cbn [bits]. apply bool_decide_eq_true.
    apply elem_of_union_l, elem_of_singleton. reflexivity.
  - intros Ho. store_lookup.
Qed.

Lemma X16_name_compat_stores_name_before_failing_witness :
  let r := ipset_parse_name_compat empty_session IPSET_OPT_NAME
             (cstr "a" ++ ","%char :: cstr "before" ++ ","%char
                :: cstr "abcdefghijklmnopqrstuvwxyz012345") in
  fst r = -1
  /\ ipset_data_get (data (snd r)) IPSET_OPT_NAME = Some (VStr (cstr "a"))
  /\ ipset_data_get (data (snd r)) IPSET_OPT_NAMEREF = None.
Proof.
  destruct (X16_name_compat_stores_name_before_failing empty_session IPSET_OPT_NAME
              (cstr "a") (cstr "before") (cstr "abcdefghijklmnopqrstuvwxyz012345")
              ltac:(discriminate) (proj1 (free_ofb_spec "," (cstr "a")) eq_refl)
              ltac:(discriminate) ltac:(simpl; lia) ltac:(vm_compute; lia)
              (or_introl eq_refl))
    as (H1 & _ & H2 & _ & H3).
  split; [exact H1|]. split; [exact H2|]. apply H3. discriminate.
Defined.

(** ** Netmask, timeout and resolved addresses *)

Lemma string_to_cidr_numeral (session : ipset_session) (n : numeral) (lo hi : Z) :
  numeral_valid n = true -> 0 <= lo -> hi <= 255 ->
  (lo <= numeral_value n <= hi ->
   string_to_cidr session (numeral_string n) lo hi = (0, numeral_value n, session))
  /\ (numeral_value n < lo \/ hi < numeral_value n ->
      exists m v, string_to_cidr session (numeral_string n) lo hi
                  = (-1, v, reported session (SyntaxError m))).
Proof.
  intros Hv Hlo Hhi. pose proof (numeral_value_nonneg n) as Hnn. split.
  - intros Hin. unfold string_to_cidr.
    rewrite (string_to_u8_numeral session n Hv) by lia. cbn [Z.eqb andb].
    replace (numeral_value n <? lo) with false by (symmetry; apply Z.ltb_ge; lia).
    replace (hi <? numeral_value n) with false by (symmetry; apply Z.ltb_ge; lia).
    reflexivity.
  - intros Hout. unfold string_to_cidr.
    destruct (Z_le_gt_dec (numeral_value n) 255) as [Hle | Hgt].
    + rewrite (string_to_u8_numeral session n Hv Hle). cbn [Z.eqb andb].
      replace ((numeral_value n <? lo) || (hi <? numeral_value n)) with true.
      * eexists; eexists; reflexivity.
      * symmetry. apply orb_true_iff.
        destruct Hout; [left; apply Z.ltb_lt | right; apply Z.ltb_lt]; lia.
    + unfold string_to_u8.
      rewrite (proj1 (proj2 (string_to_number_ll_numeral session n 0 255 0 Hv)))
        by (right; right; split; lia).
      cbn [Z.eqb andb]. eexists; eexists; reflexivity.
Qed.

(** X17.  [ipset_parse_netmask] first makes the family definite: when
    none is stored it stores INET, whatever follows.  It then accepts a
    numeral exactly when its value lies in 1..31 with the family INET
    and in 4..124 with any other family.  An accepted value is stored
    under the option kind.  A refused one returns -1 and writes nothing
    more: the store is the one the family defaulting left, in which the
    option kind (when it is not the family itself) holds what it held
    before the call; the last error filed is "netmask is out of the
    inclusive range" with the bounds of the family. *)
Theorem X17_netmask_bounds (session : ipset_session) (opt : ipset_opt) (n : numeral) :
  numeral_valid n = true ->
  let family := fst (default_family session) in
  let s := snd (default_family session) in
  let r := ipset_parse_netmask session opt (numeral_string n) in
  (netmask_lo family <= numeral_value n <= netmask_hi family ->
   r = (0, store_also opt (VU8 (numeral_value n)) s))
  /\ (numeral_value n < netmask_lo family \/ netmask_hi family < numeral_value n ->
      fst r = -1 /\ data (snd r) = data s
      /\ (opt <> IPSET_OPT_FAMILY ->
          ipset_data_get (data (snd r)) opt = ipset_data_get (data session) opt)
      /\ last (report (snd r))
         = Some (SyntaxError (Msg_netmask_range (netmask_lo family) (netmask_hi family))))
  /\ (ipset_data_family (data session) = AF_UNSPEC ->
      ipset_data_get (data (snd r)) IPSET_OPT_FAMILY = Some (VU8 AF_INET)
      \/ opt = IPSET_OPT_FAMILY).
Proof.
  intros Hv family s r. subst family s r. unfold ipset_parse_netmask.
  assert (forall o, o <> IPSET_OPT_FAMILY ->
                    ipset_data_get (data (snd (default_family session))) o
                    = ipset_data_get (data session) o) as Hdef.
  { intros o Ho. unfold default_family, ipset_session_data.
    destruct (ipset_data_family (data session) =? AF_UNSPEC); [|reflexivity].
    cbn [snd]. unfold ipset_data_get, with_data. cbn [data values ipset_data_set snd].
    apply lookup_insert_ne. congruence. }
  assert (ipset_data_family (data session) = AF_UNSPEC ->
          ipset_data_get (data (snd (default_family session))) IPSET_OPT_FAMILY
          = Some (VU8 AF_INET)) as Hfam.
  { intros E. unfold default_family, ipset_session_data. rewrite E, Z.eqb_refl. cbn [snd].
    unfold ipset_data_get, with_data. cbn [data values ipset_data_set snd].
    apply lookup_insert_eq. }
  destruct (default_family session) as [family s]. cbn [fst snd] in Hdef, Hfam |- *.
  fold (netmask_lo family). fold (netmask_hi family).
  assert (0 <= netmask_lo family /\ netmask_hi family <= 255) as [Hlo Hhi]
    by (unfold netmask_lo, netmask_hi; destruct (family =? AF_INET); lia).
  destruct (string_to_cidr_numeral s n (netmask_lo family) (netmask_hi family) Hv Hlo Hhi)
    as [Hin Hout].
  split; [|split].
  - intros H. rewrite (Hin H). cbn [nonzero Z.eqb negb ipset_data_set]. reflexivity.
  - intros H. destruct (Hout H) as (m & v & ->). cbn [nonzero Z.eqb negb fst snd].
    split; [reflexivity|]. split; [reflexivity|]. split; [intros Ho; apply Hdef, Ho|].
    cbn [syntax_err snd report reported]. apply last_snoc.
  - intros E. destruct (decide (opt = IPSET_OPT_FAMILY)) as [-> | Ho]; [right; reflexivity|].
    left. specialize (Hfam E).
    destruct (Z_lt_dec (numeral_value n) (netmask_lo family)) as [Hlt | Hge];
      [|destruct (Z_lt_dec (netmask_hi family) (numeral_value n)) as [Hgt | Hle]].
    + destruct (Hout (or_introl Hlt)) as (m & v & ->). cbn [nonzero Z.eqb negb syntax_err snd].
      exact Hfam.
    + destruct (Hout (or_intror Hgt)) as (m & v & ->). cbn [nonzero Z.eqb negb syntax_err snd].
      exact Hfam.
    + rewrite Hin by lia. cbn [nonzero Z.eqb negb ipset_data_set snd].
      unfold ipset_data_get in Hfam |- *. cbn [with_data data values].
      rewrite lookup_insert_ne by congruence. exact Hfam.
Qed.

Lemma X17_netmask_bounds_witness :
  ipset_parse_netmask empty_session IPSET_OPT_NETMASK (cstr "24")
  = (0, store_also IPSET_OPT_NETMASK (VU8 24) (snd (default_family empty_session)))
  /\ fst (ipset_parse_netmask empty_session IPSET_OPT_NETMASK (cstr "32")) = -1
  /\ fst (ipset_parse_netmask session_inet6 IPSET_OPT_NETMASK (cstr "3")) = -1.
Proof.
  split; [|split].
  - apply (proj1 (X17_netmask_bounds empty_session IPSET_OPT_NETMASK
                    (Decimal (cstr "24")) eq_refl)).
    vm_compute. split; discriminate.
  - apply (proj1 (proj2 (X17_netmask_bounds empty_session IPSET_OPT_NETMASK
                             (Decimal (cstr "32")) eq_refl))).
    right. vm_compute. reflexivity.
  - apply (proj1 (proj2 (X17_netmask_bounds session_inet6 IPSET_OPT_NETMASK
                             (Decimal (cstr "3")) eq_refl))).
    left. vm_compute. reflexivity.
Defined.

Section MoreAddresses.

Variable env : environment.

(** X18.  "address,timeout": when no timeout was specified before, the
    address part is parsed as any address form and, only if that
    succeeds, the numeral (at most 4294967295) is stored as the timeout;
    an error of the address part is returned as it is, with no timeout
    stored.  When a timeout was specified before, the call is refused
    outright and nothing is parsed. *)
Theorem X18_iptimeout_composes (session : ipset_session) (opt : ipset_opt)
    (addr : cstring) (n : numeral) :
  addr <> [] -> free_of "," addr ->
  numeral_valid n = true -> numeral_value n <= UINT_MAX ->
  let str := addr ++ ","%char :: numeral_string n in
  (ipset_data_flags_test (data session) IPSET_OPT_TIMEOUT = false ->
   ipset_parse_iptimeout env session opt str
   = let '(err, s1) := parse_ip env session opt addr IPADDR_ANY in
     if err =? 0 then (0, store_also IPSET_OPT_TIMEOUT (VU32 (numeral_value n)) s1)
     else (err, s1))
  /\ (ipset_data_flags_test (data session) IPSET_OPT_TIMEOUT = true ->
      ipset_parse_iptimeout env session opt str
      = (-1, reported session (SyntaxError Msg_timeout_already))).
Proof.
  intros Ha Hafree Hv Hle str. subst str.
  unfold ipset_parse_iptimeout, ipset_session_data. split; intros Hflag; rewrite Hflag.
  - unfold elem_separator. change IPSET_ELEM_SEPARATOR with [","%char].
    destruct (ipset_strchr_split_free addr (numeral_string n) ","%char)
      as (-> & -> & ->); try assumption.
    { apply numeral_string_not_nil, Hv. }
    { apply numeral_free_of; auto. }
    destruct (parse_ip env session opt addr IPADDR_ANY) as [err s1].
    destruct (err =? 0); [|reflexivity].
    unfold ipset_parse_uint32. rewrite (string_to_u32_numeral s1 n Hv Hle).
    cbn [Z.eqb]. apply ipset_session_data_set_eq.
  - reflexivity.
Qed.

Lemma get_addrinfo_loop_more (opt : ipset_opt) (str : cstring) (family : Z)
    (info : list addrinfo) :
  Forall (fun i => addr_matches family i = true) info ->
  forall (found : nat) (err : Z) (s : ipset_session),
    get_addrinfo_loop opt str family
      (if family =? AF_INET then sizeof_sockaddr_in else sizeof_sockaddr_in6)
      info (S (S found)) err s
    = (S (S (found + length info)), err, s).
Proof.
  induction info as [|i info IH]; intros Hall found err s.
  - cbn [get_addrinfo_loop length]. rewrite Nat.add_0_r. reflexivity.
  - apply Forall_cons in Hall as [Hi Hall]. cbn [get_addrinfo_loop].
    unfold addr_matches in Hi. apply andb_prop in Hi as [-> ->]. cbn [negb orb].
    rewrite (IH Hall (S found) err s). cbn [length]. f_equal. f_equal. lia.
Qed.

(** X19.  When the resolver answers with several addresses of the family
    asked for, [get_addrinfo] stores the first one only, returns 0, and
    files the warning "resolves to multiple addresses" once, however
    many addresses there are; with a single address it files
    nothing. *)
Theorem X19_first_address_one_warning (session : ipset_session) (opt : ipset_opt)
    (str : cstring) (family : Z) (first : addrinfo) (more : list addrinfo) :
  getaddrinfo env str family = Some (first :: more) ->
  Forall (fun i => addr_matches family i = true) (first :: more) ->
  get_addrinfo env session opt str family
  = (0, match more with
        | [] => store_also opt (VAddr (ai_addr first)) session
        | _ => ipset_warn (store_also opt (VAddr (ai_addr first)) session)
                 (Msg_multiple_addresses str)
        end).
Proof.
  intros Hres Hall. unfold get_addrinfo, call_getaddrinfo. rewrite Hres.
  apply Forall_cons in Hall as [Hf Hall].
  cbn [get_addrinfo_loop]. pose proof Hf as Hf'.
  unfold addr_matches in Hf'. apply andb_prop in Hf' as [-> ->]. cbn [negb orb].
  rewrite ipset_session_data_set_eq.
  destruct more as [|second more].
  - reflexivity.
  - apply Forall_cons in Hall as [Hs Hall]. cbn [get_addrinfo_loop].
    unfold addr_matches in Hs. apply andb_prop in Hs as [-> ->]. cbn [negb orb].
    rewrite (get_addrinfo_loop_more opt str family more Hall O). reflexivity.
Qed.

End MoreAddresses.

Lemma X18_iptimeout_composes_witness :
  ipset_parse_iptimeout sample_env empty_session IPSET_OPT_IP (cstr "192.0.2.10,600")
  = (0, store_also IPSET_OPT_TIMEOUT (VU32 600)
          (snd (parse_ip sample_env empty_session IPSET_OPT_IP (cstr "192.0.2.10")
                  IPADDR_ANY))).
Proof.
  exact (proj1 (X18_iptimeout_composes sample_env empty_session IPSET_OPT_IP
                  (cstr "192.0.2.10") (Decimal (cstr "600"))
                  ltac:(discriminate)
                  (proj1 (free_ofb_spec "," (cstr "192.0.2.10")) eq_refl)
                  eq_refl ltac:(vm_compute; discriminate)) eq_refl).
Defined.

Lemma X19_first_address_one_warning_witness :
  get_addrinfo two_address_env empty_session IPSET_OPT_IP (cstr "dual.example") AF_INET
  = (0, ipset_warn (store_also IPSET_OPT_IP (VAddr [198; 51; 100; 1]) empty_session)
          (Msg_multiple_addresses (cstr "dual.example"))).
Proof.
  exact (X19_first_address_one_warning two_address_env empty_session IPSET_OPT_IP
           (cstr "dual.example") AF_INET _ _ eq_refl
           ltac:(repeat constructor)).
Defined.

(** ** The dispatcher on well-formed elements *)

Section DispatcherOrder.

Variable env : environment.

Lemma parse_elem_fields_in_order (session : ipset_session) (t : ipset_type)
    (f1 : cstring) (a b : option cstring) :
  (b <> None -> a <> None) ->
  (a <> None -> dim_gt (dimension t) IPSET_DIM_ONE = true) ->
  (b <> None -> dim_gt (dimension t) IPSET_DIM_TWO = true) ->
  parse_elem_fields env session t f1 a b
  = parse_fields_in_order env t session
      (positioned (f1 :: match a, b with
                         | Some a', Some b' => [a'; b']
                         | Some a', None => [a']
                         | None, _ => []
                         end)).
Proof.
  intros Hba Ha Hb. unfold parse_elem_fields, parse_elem, positioned.
  destruct a as [a'|]; [rewrite Ha by discriminate|];
    (destruct b as [b'|];
     [try (exfalso; apply Hba; [discriminate | reflexivity]); rewrite Hb by discriminate|]);
    cbn [zip zip_with parse_fields_in_order];
    destruct (elem_parse (type_elem t IPSET_DIM_ONE)); try reflexivity;
    destruct (call_parsefn env _ session _ f1) as [r1 s1];
    destruct (nonzero r1); try reflexivity.
  - destruct (elem_parse (type_elem t IPSET_DIM_TWO)); [|reflexivity].
    destruct (call_parsefn env _ s1 _ a') as [r2 s2].
    destruct (nonzero r2); [reflexivity|].
    destruct (elem_parse (type_elem t IPSET_DIM_THREE)); [|reflexivity].
    destruct (call_parsefn env _ s2 _ b') as [r3 s3].
    destruct (nonzero r3) eqn:E3; [reflexivity|].
    apply negb_false_iff, Z.eqb_eq in E3. subst r3. reflexivity.
  - destruct (elem_parse (type_elem t IPSET_DIM_TWO)); [|reflexivity].
    destruct (call_parsefn env _ s1 _ a') as [r2 s2].
    destruct (nonzero r2) eqn:E2; [reflexivity|].
    apply negb_false_iff, Z.eqb_eq in E2. subst r2. reflexivity.
Qed.

(** X20.  Given an element of proper fields, as many as the dimension of
    the resolved type or, when partial elements are allowed, fewer, the
    dispatcher parses the fields in order, each with the parser and the
    option kind the type binds to its position, on the session the field
    before it left.  It stops at the first parser that fails and returns
    that parser's status and session; a position without a parser gives
    the internal error. *)
Theorem X20_dispatcher_parses_in_order (session : ipset_session) (t : ipset_type)
    (optional : ipset_opt) (fs : list cstring) :
  ipset_session_data_get session IPSET_OPT_TYPE = Some (VType t) ->
  Forall proper_field fs -> fs <> [] ->
  length fs = dim_fields (dimension t)
  \/ ((length fs < dim_fields (dimension t))%nat /\ optional <> IPSET_OPT_NONE) ->
  ipset_parse_elem env session optional (join_fields fs)
  = parse_fields_in_order env t session (positioned fs).
Proof.
  intros Htype Hall Hne Hlen. unfold ipset_parse_elem. rewrite Htype.
  assert (opt_is_none optional = true -> length fs = dim_fields (dimension t)) as Hopt.
  { intros Hn. destruct Hlen as [H | [_ H]]; [exact H|].
    destruct optional; try discriminate Hn. contradiction. }
  assert ((length fs <= dim_fields (dimension t))%nat) as Hle by lia.
  clear Hlen. unfold dim_fields, dim_index in Hopt, Hle.
  destruct fs as [|f1 [|f2 [|f3 [|f4 fs]]]]; [contradiction | | | |].
  - (* one field *)
    apply Forall_cons in Hall as [Hf1 _]. cbn [join_fields].
    rewrite (elem_separator_single f1 Hf1).
    assert (parse_elem_rest env session t optional f1 f1 None
            = if dim_gt (dimension t) IPSET_DIM_TWO && opt_is_none optional
              then syntax_err session (Msg_third_elem_missing f1)
              else parse_elem_fields env session t f1 None None) as Hrest.
    { unfold parse_elem_rest. destruct (dim_gt (dimension t) IPSET_DIM_TWO); reflexivity. }
    rewrite Hrest.
    rewrite (parse_elem_fields_in_order session t f1 None None)
      by (intros H; congruence).
    destruct (dimension t) eqn:Ed; cbn [dim_gt dim_index Nat.ltb Nat.leb andb];
      destruct (opt_is_none optional) eqn:En; try reflexivity;
      specialize (Hopt eq_refl); simpl in Hopt; lia.
  - (* two fields *)
    destruct (elem_separator_join f1 f2 [] Hall) as (-> & -> & ->).
    apply Forall_cons in Hall as [_ Hall]. apply Forall_cons in Hall as [Hf2 _].
    cbn [join_fields].
    destruct (dimension t) eqn:Ed; simpl in Hle; try lia;
      cbn [dim_gt dim_index Nat.ltb Nat.leb]; unfold parse_elem_rest;
      rewrite Ed, (elem_separator_single f2 Hf2);
      cbn [dim_gt dim_index Nat.ltb Nat.leb].
    + rewrite (parse_elem_fields_in_order session t f1 (Some f2) None);
        [reflexivity | intros H; congruence | rewrite Ed; reflexivity | intros H; congruence].
    + destruct (opt_is_none optional) eqn:En;
        [specialize (Hopt eq_refl); simpl in Hopt; lia|].
      rewrite (parse_elem_fields_in_order session t f1 (Some f2) None);
        [reflexivity | intros H; congruence | rewrite Ed; reflexivity | intros H; congruence].
  - (* three fields *)
    destruct (elem_separator_join f1 f2 [f3] Hall) as (-> & -> & ->).
    apply Forall_cons in Hall as [_ Hall].
    destruct (elem_separator_join f2 f3 [] Hall) as (Hb & Hbh & Hbt).
    apply Forall_cons in Hall as [_ Hall]. apply Forall_cons in Hall as [Hf3 _].
    destruct (dimension t) eqn:Ed; simpl in Hle; try lia.
    cbn [dim_gt dim_index Nat.ltb Nat.leb]. unfold parse_elem_rest.
    rewrite Ed, Hb, Hbh, Hbt. cbn [dim_gt dim_index Nat.ltb Nat.leb join_fields].
    rewrite (elem_separator_single f3 Hf3). cbn [found].
    rewrite (parse_elem_fields_in_order session t f1 (Some f2) (Some f3));
      [reflexivity | intros H; discriminate | rewrite Ed; reflexivity
      | rewrite Ed; reflexivity].
  - (* more fields than any dimension *)
    simpl in Hle. destruct (dimension t); simpl in Hle; lia.
Qed.

End DispatcherOrder.

Lemma X20_dispatcher_parses_in_order_witness :
  let r := ipset_parse_elem sample_env (session_of_type sample_type_ip_port)
             IPSET_OPT_NONE (cstr "192.0.2.10,udp:53") in
  fst r = 0
  /\ ipset_data_get (data (snd r)) IPSET_OPT_IP = Some (VAddr [192; 0; 2; 10])
  /\ ipset_data_get (data (snd r)) IPSET_OPT_PROTO = Some (VU8 17)
  /\ ipset_data_get (data (snd r)) IPSET_OPT_PORT = Some (VU16 53).
Proof.
  assert (forall s : string, free_ofb "," (cstr s) = true -> cstr s <> [] ->
                             proper_field (cstr s)) as Hp.
  { intros s H1 H2. split; [exact H2 | apply free_ofb_spec, H1]. }
  pose proof (X20_dispatcher_parses_in_order sample_env
                (session_of_type sample_type_ip_port) sample_type_ip_port
                IPSET_OPT_NONE [cstr "192.0.2.10"; cstr "udp:53"] eq_refl
                ltac:(repeat constructor; apply Hp; (reflexivity || discriminate))
                ltac:(discriminate) (or_introl eq_refl)) as H.
  change (join_fields [cstr "192.0.2.10"; cstr "udp:53"])
    with (cstr "192.0.2.10,udp:53") in H.
  cbv zeta. rewrite H. vm_compute. repeat split.
Defined.

(** ** Tokens with both separators, numeric ICMP tokens, white space *)

Lemma found_separator (str : cstring) (c : ascii) :
  In c str -> first_char str <> Some c -> last_char str <> Some c ->
  found (ipset_strchr str [c]) = true.
Proof.
  intros Hin Hf Hl. rewrite ipset_strchr_single.
  destruct (strchr str c) as [m|] eqn:E.
  - apply char_is_false in Hf. apply char_is_false in Hl. rewrite Hf, Hl. reflexivity.
  - exfalso. apply list_elem_of_In, list_elem_of_lookup in Hin as [i Hi].
    apply (proj1 (strchr_None str c) E i Hi).
Qed.

Section BothSeparators.

Variable env : environment.

(** X21.  A token in which both the range separator and the CIDR
    separator occur, neither of them as its first or last character, is
    refused by each parser that requires one address form: the single
    address, the network and the range parser (after the family was
    defaulted), and the address-or-range and address-or-network parsers
    (before anything else is done). *)
Theorem X21_both_separators_refused (session : ipset_session) (opt : ipset_opt)
    (str : cstring) :
  In "-"%char str -> In "/"%char str ->
  first_char str <> Some "-"%char -> last_char str <> Some "-"%char ->
  first_char str <> Some "/"%char -> last_char str <> Some "/"%char ->
  let s := snd (default_family session) in
  ipset_parse_single_ip env session opt str
  = (-1, reported s (SyntaxError (Msg_plain_ip_required str)))
  /\ ipset_parse_net env session opt str
     = (-1, reported s (SyntaxError (Msg_netblock_required str)))
  /\ ipset_parse_range env session opt str
     = (-1, reported s (SyntaxError (Msg_range_required str)))
  /\ ipset_parse_iprange env session opt str
     = (-1, reported session (SyntaxError (Msg_iprange_required str)))
  /\ ipset_parse_ipnet env session opt str
     = (-1, reported session (SyntaxError (Msg_ipnet_required str))).
Proof.
  intros Hd Hs Hfd Hld Hfs Hls s. subst s.
  pose proof (found_separator str "-"%char Hd Hfd Hld) as Hr.
  pose proof (found_separator str "/"%char Hs Hfs Hls) as Hc.
  change (ipset_strchr str ["-"%char]) with (range_separator str) in Hr.
  change (ipset_strchr str ["/"%char]) with (cidr_separator str) in Hc.
  unfold ipset_parse_single_ip, ipset_parse_net, ipset_parse_range,
    ipset_parse_iprange, ipset_parse_ipnet, parse_ip.
  destruct (default_family session) as [family s]. cbn [snd].
  rewrite Hr, Hc. cbn [orb andb negb]. repeat split.
Qed.

End BothSeparators.

Lemma X21_both_separators_refused_witness :
  ipset_parse_net sample_env empty_session IPSET_OPT_IP (cstr "192.0.2.10-192.0.2.20/24")
  = (-1, reported (snd (default_family empty_session))
           (SyntaxError (Msg_netblock_required (cstr "192.0.2.10-192.0.2.20/24")))).
Proof.
  assert (forall c, existsb (chr_eqb c) (cstr "192.0.2.10-192.0.2.20/24") = true ->
                    In c (cstr "192.0.2.10-192.0.2.20/24")) as Hin.
  { intros c H. apply existsb_exists in H as (x & Hx & E).
    apply chr_eqb_eq in E. subst x. exact Hx. }
  exact (proj1 (proj2 (X21_both_separators_refused sample_env empty_session IPSET_OPT_IP
                  (cstr "192.0.2.10-192.0.2.20/24")
                  (Hin "-"%char eq_refl) (Hin "/"%char eq_refl)
                  ltac:(discriminate) ltac:(discriminate)
                  ltac:(discriminate) ltac:(discriminate)))).
Defined.

Lemma string_to_u8_numeral_big (session : ipset_session) (n : numeral) :
  numeral_valid n = true -> 255 < numeral_value n ->
  exists m, string_to_u8 session (numeral_string n)
            = (-1, 0, reported session (SyntaxError m)).
Proof.
  intros Hv Hbig. unfold string_to_u8.
  rewrite (proj1 (proj2 (string_to_number_ll_numeral session n 0 255 0 Hv)))
    by (right; right; split; lia).
  eexists. reflexivity.
Qed.

(** X22.  On a numeric token "X/Y" [parse_icmp_typecode] stores one
    16-bit value made of the two numbers, 256 times the number after the
    separator plus the number before it, when both are at most 255;
    when either exceeds 255 it returns -1 and stores nothing. *)
Theorem X22_icmp_numeric_token (session : ipset_session) (opt : ipset_opt)
    (nx ny : numeral) (family : cstring) :
  numeral_valid nx = true -> numeral_valid ny = true ->
  let r := parse_icmp_typecode session opt
             (numeral_string nx ++ "/"%char :: numeral_string ny) family in
  (numeral_value nx <= 255 -> numeral_value ny <= 255 ->
   r = (0, store_also opt (VU16 (numeral_value ny * 256 + numeral_value nx)) session))
  /\ (255 < numeral_value nx \/ 255 < numeral_value ny ->
      fst r = -1 /\ data (snd r) = data session).
Proof.
  intros Hvx Hvy r. subst r. split.
  - intros Hx Hy.
    rewrite (parse_icmp_typecode_numeric session opt nx ny family Hvx Hvy Hx Hy).
    apply ipset_session_data_set_eq.
  - intros Hbig. unfold parse_icmp_typecode, cidr_separator.
    change IPSET_CIDR_SEPARATOR with ["/"%char].
    destruct (ipset_strchr_split_free (numeral_string nx) (numeral_string ny) "/"%char)
      as (-> & -> & ->).
    { apply numeral_free_of; auto. }
    { apply numeral_string_not_nil, Hvx. }
    { apply numeral_string_not_nil, Hvy. }
    { apply numeral_free_of; auto. }
    destruct (Z_le_gt_dec (numeral_value ny) 255) as [Hy | Hy].
    + rewrite (string_to_u8_numeral session ny Hvy Hy). cbn [nonzero Z.eqb negb].
      destruct (string_to_u8_numeral_big session nx Hvx) as [m ->]; [lia|].
      split; reflexivity.
    + destruct (string_to_u8_numeral_big session ny Hvy) as [m ->]; [lia|].
      split; reflexivity.
Qed.

Lemma X22_icmp_numeric_token_witness :
  parse_icmp_typecode empty_session IPSET_OPT_PORT (cstr "8/0") (cstr "ICMP")
  = (0, store_also IPSET_OPT_PORT (VU16 8) empty_session)
  /\ fst (parse_icmp_typecode empty_session IPSET_OPT_PORT (cstr "8/256") (cstr "ICMP")) = -1.
Proof.
  split.
  - apply (proj1 (X22_icmp_numeric_token empty_session IPSET_OPT_PORT
                    (Decimal (cstr "8")) (Octal []) (cstr "ICMP") eq_refl eq_refl));
      vm_compute; discriminate.
  - apply (proj2 (X22_icmp_numeric_token empty_session IPSET_OPT_PORT
                    (Decimal (cstr "8")) (Decimal (cstr "256")) (cstr "ICMP")
                    eq_refl eq_refl)).
    right. reflexivity.
Defined.

(** ** White space around numbers *)

Lemma skip_space_app (w s : cstring) :
  forallb isspace w = true -> skip_space (w ++ s) = (length w + skip_space s)%nat.
Proof.
  induction w as [|c w IH]; intros H; [reflexivity|].
  simpl in H. apply andb_prop in H as [Hc Hw]. cbn [app skip_space length].
  rewrite Hc, (IH Hw). reflexivity.
Qed.

(** Leading white space only moves the end pointer. *)
Lemma strto_core_leading_space (base : Z) (w s : cstring) :
  forallb isspace w = true ->
  strto_core base (w ++ s)
  = match strto_core base s with
    | Some (neg, v, e) => Some (neg, v, (length w + e)%nat)
    | None => None
    end.
Proof.
  intros Hw. unfold strto_core. rewrite (skip_space_app w s Hw).
  rewrite <- drop_drop, drop_app_length.
  destruct (match drop (skip_space s) s with
            | [] => (false, O)
            | c :: _ =>
                if chr_eqb c "-" then (true, 1%nat)
                else if chr_eqb c "+" then (false, 1%nat) else (false, O)
            end) as [neg sg].
  destruct (strto_digits _ _ 0 0) as [v n].
  destruct n; [reflexivity|]. f_equal. f_equal. lia.
Qed.

Lemma space_trails_numeral (n : numeral) (c : ascii) (w : cstring) :
  isspace c = true -> trails_numeral n (c :: w) = true.
Proof.
  intros Hc.
  assert (digit_value c = None /\ chr_eqb c "x" || chr_eqb c "X" = false) as [Hd Hx]
    by (revert Hc; ascii_cases c; vm_compute; intros H; try discriminate H; split; reflexivity).
  cbn [trails_numeral]. unfold is_digit_of, digit_in_base. rewrite Hd. cbn [negb andb].
  destruct n as [ds | x ds | [|d ds]]; try reflexivity.
  destruct w as [|h w]; [reflexivity|]. cbn [continues_as_hexadecimal].
  rewrite Hx. reflexivity.
Qed.

(** X23.  White space in front of a numeral is skipped: the number is
    parsed as without it.  White space behind a numeral is not: the
    string is refused as "invalid as number". *)
Theorem X23_white_space_around_number (session : ipset_session) (n : numeral)
    (w : cstring) (min max ret : Z) :
  numeral_valid n = true -> numeral_value n <= ULLONG_MAX ->
  forallb isspace w = true ->
  (min <= numeral_value n -> max = 0 \/ numeral_value n <= max ->
   string_to_number_ll session (w ++ numeral_string n) min max ret
   = (0, numeral_value n, session))
  /\ (w <> [] ->
      string_to_number_ll session (numeral_string n ++ w) min max ret
      = (-1, ret, reported session
                    (SyntaxError (Msg_invalid_number (numeral_string n ++ w))))).
Proof.
  intros Hv Hfit Hw. split.
  - intros Hmin Hmax. unfold string_to_number_ll, strtoull.
    rewrite (strto_core_leading_space 0 w (numeral_string n) Hw).
    pose proof (strto_core_numeral n [] Hv I) as Hcore. rewrite app_nil_r in Hcore.
    rewrite Hcore.
    replace (ULLONG_MAX <? numeral_value n) with false by (symmetry; apply Z.ltb_ge; lia).
    cbn [endp number erange]. unfold strlen. rewrite length_app, Nat.eqb_refl.
    pose proof (numeral_string_nonempty n Hv) as Hlen.
    replace (length w + length (numeral_string n) =? 0)%nat with false
      by (symmetry; apply Nat.eqb_neq; lia).
    replace (min <=? numeral_value n) with true by (symmetry; apply Z.leb_le; lia).
    replace ((max =? 0) || (numeral_value n <=? max)) with true; [reflexivity|].
    symmetry. apply orb_true_iff. destruct Hmax as [-> | H]; [left; reflexivity|].
    right. apply Z.leb_le. exact H.
  - intros Hne. destruct w as [|c w]; [contradiction|].
    simpl in Hw. apply andb_prop in Hw as [Hc _].
    apply (proj2 (proj2 (string_to_number_ll_numeral session n min max ret Hv))).
    + apply space_trails_numeral, Hc.
    + exact Hfit.
Qed.

Lemma X23_white_space_around_number_witness :
  string_to_number_ll empty_session (cstr "  42") 0 255 0 = (0, 42, empty_session)
  /\ string_to_number_ll empty_session (cstr "42 ") 0 255 0
     = (-1, 0, reported empty_session (SyntaxError (Msg_invalid_number (cstr "42 ")))).
Proof.
  destruct (X23_white_space_around_number empty_session (Decimal (cstr "42"))
              (cstr "  ") 0 255 0 eq_refl ltac:(vm_compute; discriminate) eq_refl)
    as [H1 _].
  destruct (X23_white_space_around_number empty_session (Decimal (cstr "42"))
              (cstr " ") 0 255 0 eq_refl ltac:(vm_compute; discriminate) eq_refl)
    as [_ H2].
  split.
  - apply H1; [vm_compute; discriminate | right; vm_compute; discriminate].
  - apply H2. discriminate.
Defined.

(** ** What the address parsers write *)

Lemma reported_get (s : ipset_session) (d : diagnostic) (o : ipset_opt) :
  ipset_data_get (data (reported s d)) o = ipset_data_get (data s) o.
Proof. reflexivity. Qed.

Lemma string_to_cidr_data (session : ipset_session) (str : cstring) (lo hi : Z) :
  data (snd (string_to_cidr session str lo hi)) = data session.
Proof.
  unfold string_to_cidr, string_to_u8.
  pose proof (string_to_number_ll_data session str 0 255 0) as H.
  destruct (string_to_number_ll session str 0 255 0) as [[e n] s]. cbn [snd] in H.
  destruct ((e =? 0) && ((n mod 256 <? lo) || (hi <? n mod 256))); exact H.
Qed.

Section AddressFrame.

Variable env : environment.

Lemma get_addrinfo_loop_other (opt o : ipset_opt) (str : cstring) (family addrlen : Z)
    (info : list addrinfo) :
  o <> opt ->
  forall (n : nat) (err : Z) (s : ipset_session),
    ipset_data_get
      (data (snd (get_addrinfo_loop opt str family addrlen info n err s))) o
    = ipset_data_get (data s) o.
Proof.
  intros Hne. induction info as [|i info IH]; intros n err s; [reflexivity|].
  cbn [get_addrinfo_loop].
  destruct (negb (ai_family i =? family) || negb (ai_addrlen i =? addrlen)); [apply IH|].
  destruct n as [|[|n]].
  - rewrite ipset_session_data_set_eq, IH. apply store_also_get_other. congruence.
  - rewrite IH. reflexivity.
  - apply IH.
Qed.

Lemma get_addrinfo_other (session : ipset_session) (opt o : ipset_opt)
    (str : cstring) (family : Z) :
  o <> opt ->
  ipset_data_get (data (snd (get_addrinfo env session opt str family))) o
  = ipset_data_get (data session) o.
Proof.
  intros Hne. unfold get_addrinfo, call_getaddrinfo.
  destruct (getaddrinfo env str family) as [info|]; [|reflexivity].
  pose proof (get_addrinfo_loop_other opt o str family
                (if family =? AF_INET then sizeof_sockaddr_in else sizeof_sockaddr_in6)
                info Hne O 0 session) as H.
  destruct (get_addrinfo_loop opt str family _ info 0 0 session) as [[f e] s'].
  cbn [snd] in H. destruct f; exact H.
Qed.

Lemma parse_ipaddr_addr_other (session : ipset_session) (opt o : ipset_opt)
    (tmp : cstring) (range : option cstring) (family err : Z) :
  o <> opt -> o <> IPSET_OPT_IP_TO ->
  ipset_data_get (data (snd (parse_ipaddr_addr env session opt tmp range family err))) o
  = ipset_data_get (data session) o.
Proof.
  intros H1 H2. unfold parse_ipaddr_addr.
  pose proof (get_addrinfo_other session opt o tmp family H1) as Ha.
  destruct (get_addrinfo env session opt tmp family) as [aerr s1]. cbn [snd] in Ha.
  assert (forall a e s, snd (parse_ipaddr_out a e s) = s) as Hout.
  { intros a e s. unfold parse_ipaddr_out.
    destruct (negb (a =? EINVAL)); [reflexivity|]. destruct (nonzero a); reflexivity. }
  destruct range as [a|]; [|rewrite Hout; exact Ha].
  destruct (nonzero aerr); [rewrite Hout; exact Ha|].
  pose proof (get_addrinfo_other s1 IPSET_OPT_IP_TO o a family H2) as Hb.
  destruct (get_addrinfo env s1 IPSET_OPT_IP_TO a family) as [aerr2 s2]. cbn [snd] in Hb.
  rewrite Hout, Hb. exact Ha.
Qed.

Lemma parse_ipaddr_other (session : ipset_session) (opt o : ipset_opt)
    (str : cstring) (family : Z) :
  o <> opt -> o <> cidr_opt_of opt -> o <> IPSET_OPT_IP_TO ->
  ipset_data_get (data (snd (parse_ipaddr env session opt str family))) o
  = ipset_data_get (data session) o.
Proof.
  intros H1 H2 H3. unfold parse_ipaddr. fold (cidr_opt_of opt).
  assert (forall a e s, snd (parse_ipaddr_out a e s) = s) as Hout.
  { intros a e s. unfold parse_ipaddr_out.
    destruct (negb (a =? EINVAL)); [reflexivity|]. destruct (nonzero a); reflexivity. }
  destruct (cidr_separator str) as [k|].
  - pose proof (string_to_cidr_data session (split_tail str k) 0
                  (if family =? AF_INET then 32 else 128)) as Hc.
    destruct (string_to_cidr session (split_tail str k) 0 _) as [[err m] s1].
    cbn [snd] in Hc.
    destruct (nonzero err).
    + rewrite Hout. unfold ipset_data_get. rewrite Hc. reflexivity.
    + rewrite ipset_session_data_set_eq. cbn [nonzero Z.eqb negb].
      rewrite parse_ipaddr_addr_other by assumption.
      rewrite store_also_get_other by congruence.
      unfold ipset_data_get. rewrite Hc. reflexivity.
  - destruct (range_separator str) as [k|]; apply parse_ipaddr_addr_other; assumption.
Qed.

(** X24.  Whatever the string and the address form asked for, [parse_ip]
    writes under no option kind other than the one it is given, its CIDR
    companion, the range end and the family; and when the option kind it
    is given is not the family itself, the session it leaves has the
    family the parse worked with: the one stored before, or INET when
    none was stored, so that the family is never left unspecified. *)
Theorem X24_parse_ip_writes_only_its_options (session : ipset_session)
    (opt : ipset_opt) (str : cstring) (addrtype : ipaddr_type) :
  let r := parse_ip env session opt str addrtype in
  (forall o, o <> opt -> o <> cidr_opt_of opt -> o <> IPSET_OPT_IP_TO ->
             o <> IPSET_OPT_FAMILY ->
             ipset_data_get (data (snd r)) o = ipset_data_get (data session) o)
  /\ (opt <> IPSET_OPT_FAMILY ->
      ipset_data_family (data (snd r)) = fst (default_family session)
      /\ ipset_data_family (data (snd r)) <> AF_UNSPEC).
Proof.
  intros r. subst r.
  assert (forall o, o <> opt -> o <> cidr_opt_of opt -> o <> IPSET_OPT_IP_TO ->
                    ipset_data_get (data (snd (parse_ip env session opt str addrtype))) o
                    = ipset_data_get (data (snd (default_family session))) o) as Hframe.
  { intros o H1 H2 H3. unfold parse_ip.
    destruct (default_family session) as [family s]. cbn [snd].
    destruct addrtype;
      repeat match goal with
             | |- context [if ?b then syntax_err _ _ else _] => destruct b
             end;
      try reflexivity; apply parse_ipaddr_other; assumption. }
  split.
  - intros o H1 H2 H3 H4. rewrite (Hframe o H1 H2 H3).
    unfold default_family, ipset_session_data.
    destruct (ipset_data_family (data session) =? AF_UNSPEC); [|reflexivity].
    cbn [snd]. unfold ipset_data_get, with_data. cbn [data values ipset_data_set snd].
    apply lookup_insert_ne. congruence.
  - intros Hopt.
    assert (ipset_data_family (data (snd (parse_ip env session opt str addrtype)))
            = ipset_data_family (data (snd (default_family session)))) as Hfam.
    { unfold ipset_data_family.
      pose proof (Hframe IPSET_OPT_FAMILY) as H. unfold ipset_data_get in H.
      rewrite H; [reflexivity | congruence | | discriminate].
      unfold cidr_opt_of. destruct (decide (opt = IPSET_OPT_IP)); discriminate. }
    rewrite Hfam. unfold default_family, ipset_session_data.
    destruct (ipset_data_family (data session) =? AF_UNSPEC) eqn:E; cbn [fst snd].
    + unfold ipset_data_family, with_data. cbn [data values ipset_data_set snd].
      rewrite lookup_insert_eq. split; [reflexivity | discriminate].
    + split; [reflexivity | apply Z.eqb_neq, E].
Qed.

End AddressFrame.

(** ** Reference names given as options *)

(** X25.  For a name of at most 31 characters, [ipset_parse_before]
    stores the reference name and the before marker, while
    [ipset_parse_after] stores the reference name and leaves the before
    marker as it was; a longer name is refused by both with nothing
    stored. *)
Theorem X25_before_and_after (session : ipset_session) (str : cstring) :
  let rb := ipset_parse_before session IPSET_OPT_NAMEREF str in
  let ra := ipset_parse_after session IPSET_OPT_NAMEREF str in
  ((length str <= 31)%nat ->
   fst rb = 0 /\ fst ra = 0
   /\ ipset_data_get (data (snd rb)) IPSET_OPT_NAMEREF = Some (VStr str)
   /\ ipset_data_get (data (snd ra)) IPSET_OPT_NAMEREF = Some (VStr str)
   /\ ipset_data_get (data (snd rb)) IPSET_OPT_BEFORE = Some VFlag
   /\ ipset_data_get (data (snd ra)) IPSET_OPT_BEFORE
      = ipset_data_get (data session) IPSET_OPT_BEFORE)
  /\ ((31 < length str)%nat ->
      fst rb = -1 /\ fst ra = -1
      /\ data (snd rb) = data session /\ data (snd ra) = data session).
Proof.
  intros rb ra. subst rb ra.
  unfold ipset_parse_before, ipset_parse_after, setname_too_long, strlen,
    IPSET_MAXNAMELEN, ipset_session_data.
  assert (forall b : bool,
             data (if b then snd (syntax_err session Msg_before_after_already)
                   else session) = data session) as Hentry
    by (intros []; reflexivity).
  split; intros H.
  - replace (32 - 1 <? length str)%nat with false by (symmetry; apply Nat.ltb_ge; lia).
    cbn [ipset_data_set fst snd]. rewrite !Hentry.
    repeat split; store_lookup.
  - replace (32 - 1 <? length str)%nat with true by (symmetry; apply Nat.ltb_lt; lia).
    cbn [syntax_err fst snd data]. rewrite !Hentry. repeat split.
Qed.

Lemma X25_before_and_after_witness :
  ipset_data_get
    (data (snd (ipset_parse_before empty_session IPSET_OPT_NAMEREF (cstr "other"))))
    IPSET_OPT_BEFORE = Some VFlag
  /\ ipset_data_get
       (data (snd (ipset_parse_after empty_session IPSET_OPT_NAMEREF (cstr "other"))))
       IPSET_OPT_BEFORE = None.
Proof.
  destruct (proj1 (X25_before_and_after empty_session (cstr "other")) ltac:(simpl; lia))
    as (_ & _ & _ & _ & Hb & Ha).
  split; [exact Hb | exact Ha].
Defined.

Lemma X24_parse_ip_writes_only_its_options_witness :
  let r := ipset_parse_single_ip sample_env empty_session IPSET_OPT_IP (cstr "192.0.2.10") in
  ipset_data_get (data (snd r)) IPSET_OPT_PORT = None
  /\ ipset_data_family (data (snd r)) = AF_INET.
Proof.
  destruct (X24_parse_ip_writes_only_its_options sample_env empty_session IPSET_OPT_IP
              (cstr "192.0.2.10") IPADDR_PLAIN) as [Hframe Hfam].
  split.
  - apply (Hframe IPSET_OPT_PORT); discriminate.
  - apply Hfam. discriminate.
Defined.

(** ** Unsigned numbers as options, and the IPv4-or-single-IPv6 parser *)

(** X26.  [ipset_parse_uint8] and [ipset_parse_uint32] store a numeral
    exactly when its value is at most 255, respectively 4294967295; a
    larger one is refused with the range error naming 0-255,
    respectively 0-4294967295, and nothing is stored. *)
Theorem X26_unsigned_options (session : ipset_session) (opt : ipset_opt) (n : numeral) :
  numeral_valid n = true ->
  let str := numeral_string n in
  (numeral_value n <= 255 ->
   ipset_parse_uint8 session opt str = (0, store_also opt (VU8 (numeral_value n)) session))
  /\ (255 < numeral_value n ->
      ipset_parse_uint8 session opt str
      = (-1, reported session (SyntaxError (Msg_out_of_range str 0 255))))
  /\ (numeral_value n <= 4294967295 ->
      ipset_parse_uint32 session opt str
      = (0, store_also opt (VU32 (numeral_value n)) session))
  /\ (4294967295 < numeral_value n ->
      ipset_parse_uint32 session opt str
      = (-1, reported session (SyntaxError (Msg_out_of_range str 0 4294967295)))).
Proof.
  intros Hv str. subst str. unfold ipset_parse_uint8, ipset_parse_uint32.
  split; [|split; [|split]]; intros H.
  - rewrite (string_to_u8_numeral session n Hv H). apply ipset_session_data_set_eq.
  - unfold string_to_u8.
    rewrite (proj1 (proj2 (string_to_number_ll_numeral session n 0 255 0 Hv)))
      by (right; right; split; lia).
    reflexivity.
  - rewrite (string_to_u32_numeral session n Hv H). apply ipset_session_data_set_eq.
  - unfold string_to_u32, UINT_MAX.
    rewrite (proj1 (proj2 (string_to_number_ll_numeral session n 0 4294967295 0 Hv)))
      by (right; right; split; lia).
    reflexivity.
Qed.

Lemma X26_unsigned_options_witness :
  ipset_parse_uint8 empty_session IPSET_OPT_NETMASK (cstr "0xff")
  = (0, store_also IPSET_OPT_NETMASK (VU8 255) empty_session)
  /\ ipset_parse_uint32 empty_session IPSET_OPT_TIMEOUT (cstr "4294967296")
     = (-1, reported empty_session
              (SyntaxError (Msg_out_of_range (cstr "4294967296") 0 4294967295))).
Proof.
  split.
  - apply (proj1 (X26_unsigned_options empty_session IPSET_OPT_NETMASK
                    (Hexadecimal "x" (cstr "ff")) eq_refl)).
    vm_compute. discriminate.
  - apply (proj2 (proj2 (proj2 (X26_unsigned_options empty_session IPSET_OPT_TIMEOUT
                    (Decimal (cstr "4294967296")) eq_refl)))).
    reflexivity.
Defined.

Lemma default_family_specified (session : ipset_session) :
  ipset_data_family (data session) <> AF_UNSPEC ->
  default_family session = (ipset_data_family (data session), session).
Proof.
  intros H. unfold default_family, ipset_session_data.
  apply Z.eqb_neq in H. rewrite H. reflexivity.
Qed.

Lemma default_family_twice (session : ipset_session) :
  default_family (snd (default_family session))
  = (fst (default_family session), snd (default_family session)).
Proof.
  destruct (Z.eq_dec (ipset_data_family (data session)) AF_UNSPEC) as [E | E].
  - assert (default_family session
            = (AF_INET, store_also IPSET_OPT_FAMILY (VU8 AF_INET) session)) as ->.
    { unfold default_family, ipset_session_data. rewrite E. reflexivity. }
    cbn [fst snd].
    assert (ipset_data_family (data (store_also IPSET_OPT_FAMILY (VU8 AF_INET) session))
            = AF_INET) as Hf.
    { unfold ipset_data_family.
      pose proof (store_also_get session IPSET_OPT_FAMILY (VU8 AF_INET)) as H.
      unfold ipset_data_get in H. rewrite H. reflexivity. }
    rewrite default_family_specified; rewrite Hf; [reflexivity | discriminate].
  - rewrite (default_family_specified session E). cbn [fst snd].
    apply default_family_specified, E.
Qed.

Section Ip4Single6.

Variable env : environment.

(** X27.  [ipset_parse_ip4_single6] behaves exactly as [ipset_parse_ip]
    (address, network or range) when the family is INET, stored or
    assumed, and exactly as [ipset_parse_single_ip] (a plain address
    only) with any other family. *)
Theorem X27_ip4_any_form_ip6_single (session : ipset_session) (opt : ipset_opt)
    (str : cstring) :
  (fst (default_family session) = AF_INET ->
   ipset_parse_ip4_single6 env session opt str = ipset_parse_ip env session opt str)
  /\ (fst (default_family session) <> AF_INET ->
      ipset_parse_ip4_single6 env session opt str
      = ipset_parse_single_ip env session opt str).
Proof.
  unfold ipset_parse_ip4_single6, ipset_parse_ip, ipset_parse_single_ip, parse_ip.
  pose proof (default_family_twice session) as Htwice.
  destruct (default_family session) as [family s] eqn:Ed. cbn [fst snd] in Htwice |- *.
  split; intros H.
  - rewrite H, Htwice. cbn [Z.eqb AF_INET Pos.eqb]. rewrite H. reflexivity.
  - apply Z.eqb_neq in H. rewrite H, Htwice. reflexivity.
Qed.

End Ip4Single6.

Lemma X27_ip4_any_form_ip6_single_witness :
  ipset_parse_ip4_single6 sample_env empty_session IPSET_OPT_IP (cstr "192.0.2.10/24")
  = ipset_parse_ip sample_env empty_session IPSET_OPT_IP (cstr "192.0.2.10/24")
  /\ ipset_parse_ip4_single6 sample_env session_inet6 IPSET_OPT_IP (cstr "2001:db8::1/64")
     = ipset_parse_single_ip sample_env session_inet6 IPSET_OPT_IP (cstr "2001:db8::1/64").
Proof.
  split.
  - apply (proj1 (X27_ip4_any_form_ip6_single sample_env empty_session IPSET_OPT_IP
                    (cstr "192.0.2.10/24"))).
    reflexivity.
  - apply (proj2 (X27_ip4_any_form_ip6_single sample_env session_inet6 IPSET_OPT_IP
                    (cstr "2001:db8::1/64"))).
    discriminate.
Defined.
